(** * gpioctrl: binding VarServer variables to GPIO lines

    A shallow embedding of [src/gpioctrl.c].  The C program keeps one global
    [GPIOCtrlState] holding a linked list of chips, each with a linked list
    of line descriptors, and talks to three external collaborators: the
    variable server (varserver), the JSON reader (tjson) and the GPIO
    library (libgpiod).  Here

    - the linked lists are Rocq lists, a pointer to a descriptor is the pair
      of its chip index and line index;
    - a C function that mutates the state and calls out becomes a function
      in the monad [M S], which threads the state [S] and collects the
      calls made to the outside world, oldest first;
    - what the outside world answers is read from an [Env] record. *)

From Stdlib Require Import ZArith List Bool Lia String Ascii.
From Stdlib Require Import DecimalString DecimalZ Decimal DecimalPos DecimalFacts.
From stdpp Require Import base list strings.

Import ListNotations.
Local Open Scope string_scope.
Local Open Scope list_scope.
Local Open Scope Z_scope.

(** ** Constants of the headers

    [gpiod.h], [varserver.h] and [errno.h] are not part of the repository.
    Their constants are taken as parameters; the only facts the proofs use
    are collected next to them. *)

Class Headers := {
  EOK : Z;
  EINVAL : Z;
  ENOENT : Z;
  ENOTSUP : Z;
  EIO : Z;
  VAR_INVALID : Z;
  VARTYPE_UINT16 : Z;
  NOTIFY_MODIFIED : Z;
  NOTIFY_CALC : Z;
  NOTIFY_PRINT : Z;
  SIG_VAR_MODIFIED : Z;
  SIG_VAR_CALC : Z;
  SIG_VAR_PRINT : Z;
  SIG_VAR_VALIDATE : Z;
  GPIOD_LINE_DIRECTION_INPUT : Z;
  GPIOD_LINE_DIRECTION_OUTPUT : Z;
  GPIOD_LINE_REQUEST_DIRECTION_INPUT : Z;
  GPIOD_LINE_REQUEST_DIRECTION_OUTPUT : Z;
  GPIOD_LINE_REQUEST_EVENT_FALLING_EDGE : Z;
  GPIOD_LINE_REQUEST_EVENT_RISING_EDGE : Z;
  GPIOD_LINE_REQUEST_EVENT_BOTH_EDGES : Z;
  GPIOD_LINE_REQUEST_FLAG_OPEN_DRAIN : Z;
  GPIOD_LINE_REQUEST_FLAG_OPEN_SOURCE : Z;
  GPIOD_LINE_REQUEST_FLAG_ACTIVE_LOW : Z;
  GPIOD_LINE_REQUEST_FLAG_BIAS_DISABLE : Z;
  GPIOD_LINE_REQUEST_FLAG_BIAS_PULL_DOWN : Z;
  GPIOD_LINE_REQUEST_FLAG_BIAS_PULL_UP : Z;
  GPIOD_LINE_EVENT_RISING_EDGE : Z;
  GPIOD_LINE_EVENT_FALLING_EDGE : Z;
  GPIOD_LINE_BULK_MAX_LINES : Z;
  (* the two edge events are told apart, and so are the two signals *)
  rising_not_falling : GPIOD_LINE_EVENT_FALLING_EDGE <> GPIOD_LINE_EVENT_RISING_EDGE;
  calc_not_modified : SIG_VAR_CALC <> SIG_VAR_MODIFIED;
}.

(** One set of values, used wherever a concrete run is evaluated: those of
    libgpiod 1.6.3 and of Linux's [errno.h]; the varserver numbers stand for
    whatever its header gives. *)
#[export] Instance linux_headers : Headers.
Proof.
  refine {|
    EOK := 0; EINVAL := 22; ENOENT := 2; ENOTSUP := 95; EIO := 5;
    VAR_INVALID := 0;
    VARTYPE_UINT16 := 1;
    NOTIFY_MODIFIED := 1; NOTIFY_CALC := 2; NOTIFY_PRINT := 4;
    SIG_VAR_MODIFIED := 35; SIG_VAR_CALC := 36; SIG_VAR_PRINT := 38;
    SIG_VAR_VALIDATE := 37;
    GPIOD_LINE_DIRECTION_INPUT := 1;
    GPIOD_LINE_DIRECTION_OUTPUT := 2;
    GPIOD_LINE_REQUEST_DIRECTION_INPUT := 2;
    GPIOD_LINE_REQUEST_DIRECTION_OUTPUT := 3;
    GPIOD_LINE_REQUEST_EVENT_FALLING_EDGE := 4;
    GPIOD_LINE_REQUEST_EVENT_RISING_EDGE := 5;
    GPIOD_LINE_REQUEST_EVENT_BOTH_EDGES := 6;
    GPIOD_LINE_REQUEST_FLAG_OPEN_DRAIN := 1;
    GPIOD_LINE_REQUEST_FLAG_OPEN_SOURCE := 2;
    GPIOD_LINE_REQUEST_FLAG_ACTIVE_LOW := 4;
    GPIOD_LINE_REQUEST_FLAG_BIAS_DISABLE := 8;
    GPIOD_LINE_REQUEST_FLAG_BIAS_PULL_DOWN := 16;
    GPIOD_LINE_REQUEST_FLAG_BIAS_PULL_UP := 32;
    GPIOD_LINE_EVENT_RISING_EDGE := 1;
    GPIOD_LINE_EVENT_FALLING_EDGE := 2;
    GPIOD_LINE_BULK_MAX_LINES := 64;
  |}; discriminate.
Defined.

(** C pointers to objects of the libraries are opaque numbers; [NULL] is 0. *)
Definition NULL : Z := 0.

(** [uint16_t] wrap-around, for reads of [var.val.ui]. *)
Definition uint16 (v : Z) : Z := v mod 65536.

(** [unsigned int] and [int] wrap-around (32 bits). *)
Definition uint32 (v : Z) : Z := v mod 4294967296.
Definition int32 (v : Z) : Z := (v + 2147483648) mod 4294967296 - 2147483648.

(** ** Data model *)

(** [VarObject] of varserver, restricted to the fields the program touches. *)
Record VarObject := mkVarObject {
  var_type : Z;
  var_len : Z;
  val_ui : Z;
}.

(** [struct gpiod_line_request_config]. *)
Record gpiod_line_request_config := mkRequest {
  consumer : option string;
  request_type : Z;
  flags : Z;
}.

(** [GPIO]: one line descriptor.  [pNext] is the tail of the list that
    holds the descriptor. *)
Record GPIO := mkGPIO {
  pLine : Z;
  hVar : Z;
  line_num : Z;
  name : option string;
  value : Z;
  direction : Z;
  PWM : bool;
  event_type : Z;
  request : gpiod_line_request_config;
}.

(** [GPIOChip]: [pFirstLine] .. [pLastLine] is the list [chip_lines]. *)
Record GPIOChip := mkGPIOChip {
  chip_name : string;
  pChip : Z;
  chip_lines : list GPIO;
}.

(** [GPIOCtrlState]: [pFirstGPIOChip] .. [pLastGPIOChip] is the list
    [chips]; [monitoredLines] is the bulk array with its [num_lines]. *)
Record GPIOCtrlState := mkState {
  service : option string;
  gpiowatch : bool;
  hVarServer : Z;
  verbose : bool;
  pFileName : option string;
  running : bool;
  chips : list GPIOChip;
  monitoredLines : list Z;
}.

(** Field assignments. *)
Definition set_value (g : GPIO) (v : Z) : GPIO :=
  mkGPIO (pLine g) (hVar g) (line_num g) (name g) v (direction g) (PWM g)
         (event_type g) (request g).
Definition set_direction (g : GPIO) (d : Z) : GPIO :=
  mkGPIO (pLine g) (hVar g) (line_num g) (name g) (value g) d (PWM g)
         (event_type g) (request g).
Definition set_PWM (g : GPIO) (b : bool) : GPIO :=
  mkGPIO (pLine g) (hVar g) (line_num g) (name g) (value g) (direction g) b
         (event_type g) (request g).
Definition set_event_type (g : GPIO) (e : Z) : GPIO :=
  mkGPIO (pLine g) (hVar g) (line_num g) (name g) (value g) (direction g)
         (PWM g) e (request g).
Definition set_request (g : GPIO) (r : gpiod_line_request_config) : GPIO :=
  mkGPIO (pLine g) (hVar g) (line_num g) (name g) (value g) (direction g)
         (PWM g) (event_type g) r.
Definition set_request_type (g : GPIO) (t : Z) : GPIO :=
  set_request g (mkRequest (consumer (request g)) t (flags (request g))).
Definition set_flags (g : GPIO) (f : Z) : GPIO :=
  set_request g (mkRequest (consumer (request g)) (request_type (request g)) f).
Definition set_consumer (g : GPIO) (c : option string) : GPIO :=
  set_request g (mkRequest c (request_type (request g)) (flags (request g))).

Definition set_chip_lines (c : GPIOChip) (ls : list GPIO) : GPIOChip :=
  mkGPIOChip (chip_name c) (pChip c) ls.

Definition set_chips (st : GPIOCtrlState) (cs : list GPIOChip) : GPIOCtrlState :=
  mkState (service st) (gpiowatch st) (hVarServer st) (verbose st)
          (pFileName st) (running st) cs (monitoredLines st).
Definition set_monitoredLines (st : GPIOCtrlState) (ls : list Z) : GPIOCtrlState :=
  mkState (service st) (gpiowatch st) (hVarServer st) (verbose st)
          (pFileName st) (running st) (chips st) ls.
Definition set_running (st : GPIOCtrlState) (b : bool) : GPIOCtrlState :=
  mkState (service st) (gpiowatch st) (hVarServer st) (verbose st)
          (pFileName st) b (chips st) (monitoredLines st).

(** A [GPIO *] into the registry: chip index and line index. *)
Definition GPIORef : Type := nat * nat.

Definition deref (st : GPIOCtrlState) (r : GPIORef) : option GPIO :=
  match chips st !! fst r with
  | Some c => chip_lines c !! snd r
  | None => None
  end.

(** [*r = g]: the descriptor at [r] is overwritten, nothing else moves. *)
Definition store (st : GPIOCtrlState) (r : GPIORef) (g : GPIO) : GPIOCtrlState :=
  set_chips st
    (alter (fun c => set_chip_lines c (<[snd r := g]> (chip_lines c)))
           (fst r) (chips st)).

(** All descriptors, chip by chip, in list order. *)
Definition all_lines (st : GPIOCtrlState) : list GPIO :=
  concat (map chip_lines (chips st)).

(** ** Calls to the outside world *)

Inductive Call :=
| call_VAR_Get (h : Z)
| call_VAR_Set (h : Z) (v : VarObject)
| call_VAR_Notify (h : Z) (kind : Z)
| call_VAR_FindByName (n : string)
| call_VAR_OpenPrintSession (id : Z)
| call_VAR_ClosePrintSession (id : Z) (fd : Z)
| call_gpiod_chip_open (path : string)
| call_gpiod_chip_close (chip : Z)
| call_gpiod_chip_get_line (chip : Z) (offset : Z)
| call_gpiod_line_request (line : Z) (cfg : gpiod_line_request_config) (v : Z)
| call_gpiod_line_release (line : Z)
| call_gpiod_line_set_value (line : Z) (v : Z)
| call_gpiod_line_get_value (line : Z)
| call_gpiod_line_event_read (line : Z)
| call_gpiod_line_name (line : Z)
| call_pthread_create (line : Z)
| call_sigprocmask_block (sigs : list Z)
| call_usleep (t : Z)
| call_syslog (msg : string)
| call_printf (msg : string)
| call_write (fd : Z) (s : string).

(** What the collaborators answer; an answer depends on the arguments of
    the call only.  A call that sets [errno] answers a pair of its return
    value and [errno]; [VAR_Get] and [gpiod_line_event_read] answer their
    return value and the object they fill in; [VAR_OpenPrintSession] answers
    its return value and the file descriptor.  [env_calloc_GPIOChip] and
    [env_calloc_GPIO] tell whether the allocation of the descriptor for that
    chip or line succeeds, and [env_JSON_Iterate_stops] whether tjson's
    iterator stops at the first callback that fails. *)
Record Env := mkEnv {
  env_VAR_FindByName : string -> Z;
  env_VAR_Get : Z -> Z * VarObject;
  env_VAR_Set : Z -> VarObject -> Z;
  env_VAR_Notify : Z -> Z -> Z;
  env_VAR_OpenPrintSession : Z -> Z * Z;
  env_gpiod_chip_open : string -> Z;
  env_gpiod_chip_get_line : Z -> Z -> Z;
  env_gpiod_line_request : Z -> gpiod_line_request_config -> Z -> Z * Z;
  env_gpiod_line_set_value : Z -> Z -> Z * Z;
  env_gpiod_line_get_value : Z -> Z;
  env_gpiod_line_event_read : Z -> Z * Z;
  env_gpiod_line_name : Z -> option string;
  env_strtoul : string -> Z;
  env_strerror : Z -> string;
  env_calloc_GPIOChip : Z -> bool;
  env_calloc_GPIO : Z -> bool;
  env_JSON_Iterate_stops : bool;
}.

(** ** The monad: state passing plus the log of calls *)

Definition M (S A : Type) : Type := S -> A * S * list Call.

Definition ret {S A} (a : A) : M S A := fun s => (a, s, []).

Definition bind {S A B} (m : M S A) (k : A -> M S B) : M S B :=
  fun s =>
    let '(a, s1, t1) := m s in
    let '(b, s2, t2) := k a s1 in
    (b, s2, t1 ++ t2).

Definition get {S} : M S S := fun s => (s, s, []).
Definition put {S} (s : S) : M S unit := fun _ => (tt, s, []).
Definition modify {S} (f : S -> S) : M S unit := fun s => (tt, f s, []).
Definition emit {S} (c : Call) : M S unit := fun s => (tt, s, [c]).

Declare Scope gpio_monad_scope.
Delimit Scope gpio_monad_scope with gm.
Notation "x <- m ;; k" := (bind m (fun x => k))
  (at level 100, m at next level, right associativity) : gpio_monad_scope.
Notation "m ;;; k" := (bind m (fun _ => k))
  (at level 100, right associativity) : gpio_monad_scope.
Local Open Scope gpio_monad_scope.

(** Projections of a finished run. *)
Definition result_of {S A} (r : A * S * list Call) : A := fst (fst r).
Definition state_of {S A} (r : A * S * list Call) : S := snd (fst r).
Definition calls_of {S A} (r : A * S * list Call) : list Call := snd r.

(** Run a computation on one descriptor of the registry, in place.  The
    pointers the program dereferences come from its own lookups and are
    never dangling; [dflt] is the result were one to be. *)
Definition at_ref {A} (r : GPIORef) (dflt : A) (m : M GPIO A) : M GPIOCtrlState A :=
  fun st =>
    match deref st r with
    | Some g => let '(a, g', t) := m g in (a, store st r g', t)
    | None => (dflt, st, [])
    end.

(** [printf]'s [%d]. *)
Definition fmt_d (n : Z) : string := NilZero.string_of_int (Z.to_int n).

(** [printf]'s [%s] of a [char *]; glibc prints a null pointer as (null). *)
Definition fmt_s (s : option string) : string :=
  match s with Some x => x | None => "(null)" end.

(** ** The configuration document

    tjson is not part of the repository.  The document is a tree of objects,
    arrays and scalar values. *)
#[local] Unset Elimination Schemes.
Inductive JNode :=
| JStr (s : string)
| JNum (n : Z)
| JArray (items : list JNode)
| JObject (attrs : list (string * JNode)).
#[local] Set Elimination Schemes.

(** Modelled from the spec: tjson's [JSON_Find], the attribute of an object
    with the given key (first match), [None] for a null result. *)
Fixpoint JSON_Find_attrs (attrs : list (string * JNode)) (key : string) : option JNode :=
  match attrs with
  | [] => None
  | (k, v) :: rest => if (k =? key)%string then Some v else JSON_Find_attrs rest key
  end.

Definition JSON_Find (pNode : JNode) (key : string) : option JNode :=
  match pNode with
  | JObject attrs => JSON_Find_attrs attrs key
  | _ => None
  end.

(** Modelled from the spec: tjson's [JSON_GetStr], get string attribute by
    key; [None] for a null result. *)
Definition JSON_GetStr (pNode : JNode) (key : string) : option string :=
  match JSON_Find pNode key with
  | Some (JStr s) => Some s
  | _ => None
  end.

(** The double quote character, and a string between two of them. *)
Definition dq : string := String "034"%char EmptyString.
Definition quoted (s : string) : string := dq +:+ s +:+ dq.

(** End of line. *)
Definition nl : string := String "010"%char EmptyString.

Section Program.

Context {hdr : Headers}.
Variable env : Env.

(** ** The collaborators' functions: log the call, return the answer *)

Definition VAR_Get {S} (h : Z) : M S (Z * VarObject) :=
  emit (call_VAR_Get h) ;;; ret (env_VAR_Get env h).

Definition VAR_Set {S} (h : Z) (v : VarObject) : M S Z :=
  emit (call_VAR_Set h v) ;;; ret (env_VAR_Set env h v).

Definition VAR_Notify {S} (h : Z) (kind : Z) : M S Z :=
  emit (call_VAR_Notify h kind) ;;; ret (env_VAR_Notify env h kind).

Definition VAR_FindByName {S} (n : string) : M S Z :=
  emit (call_VAR_FindByName n) ;;; ret (env_VAR_FindByName env n).

Definition gpiod_chip_open {S} (path : string) : M S Z :=
  emit (call_gpiod_chip_open path) ;;; ret (env_gpiod_chip_open env path).

Definition gpiod_chip_get_line {S} (chip offset : Z) : M S Z :=
  emit (call_gpiod_chip_get_line chip offset) ;;;
  ret (env_gpiod_chip_get_line env chip offset).

Definition gpiod_line_request {S} (line : Z) (cfg : gpiod_line_request_config)
    (v : Z) : M S (Z * Z) :=
  emit (call_gpiod_line_request line cfg v) ;;;
  ret (env_gpiod_line_request env line cfg v).

Definition gpiod_line_set_value {S} (line v : Z) : M S (Z * Z) :=
  emit (call_gpiod_line_set_value line v) ;;;
  ret (env_gpiod_line_set_value env line v).

Definition gpiod_line_get_value {S} (line : Z) : M S Z :=
  emit (call_gpiod_line_get_value line) ;;;
  ret (env_gpiod_line_get_value env line).

Definition gpiod_line_event_read {S} (line : Z) : M S (Z * Z) :=
  emit (call_gpiod_line_event_read line) ;;;
  ret (env_gpiod_line_event_read env line).

Definition gpiod_line_name {S} (line : Z) : M S (option string) :=
  emit (call_gpiod_line_name line) ;;; ret (env_gpiod_line_name env line).

(** ** Registry lookups *)

(** The inner loop of [FindGPIO]: the first line of a chip whose variable
    handle is [h]; [i] is the index of the head of [ls]. *)
Fixpoint FindGPIO_lines (h : Z) (ls : list GPIO) (i : nat) : option nat :=
  match ls with
  | [] => None
  | g :: rest =>
      if hVar g =? h then Some i else FindGPIO_lines h rest (S i)
  end.

(** The outer loop of [FindGPIO]. *)
Fixpoint FindGPIO_chips (h : Z) (cs : list GPIOChip) (ci : nat) : option GPIORef :=
  match cs with
  | [] => None
  | c :: rest =>
      match FindGPIO_lines h (chip_lines c) 0 with
      | Some li => Some (ci, li)
      | None => FindGPIO_chips h rest (S ci)
      end
  end.

Definition FindGPIO (st : GPIOCtrlState) (h : Z) : option GPIORef :=
  if h =? VAR_INVALID then None else FindGPIO_chips h (chips st) 0.

(** The inner loop of [FindVar]. *)
Fixpoint FindVar_lines (l : Z) (ls : list GPIO) : option Z :=
  match ls with
  | [] => None
  | g :: rest => if pLine g =? l then Some (hVar g) else FindVar_lines l rest
  end.

(** The outer loop of [FindVar]. *)
Fixpoint FindVar_chips (l : Z) (cs : list GPIOChip) : Z :=
  match cs with
  | [] => VAR_INVALID
  | c :: rest =>
      match FindVar_lines l (chip_lines c) with
      | Some h => h
      | None => FindVar_chips l rest
      end
  end.

Definition FindVar (st : GPIOCtrlState) (l : Z) : Z :=
  if l =? NULL then VAR_INVALID else FindVar_chips l (chips st).

(** ** Signal mode: variable modified, variable queried *)

Definition UpdateOutput (h : Z) : M GPIOCtrlState Z :=
  if h =? VAR_INVALID then ret EINVAL
  else
    st <- get ;;
    match FindGPIO st h with
    | None => ret ENOENT
    | Some pGPIO =>
        at_ref pGPIO ENOENT (
          g <- get ;;
          if direction g =? GPIOD_LINE_DIRECTION_OUTPUT then
            r <- VAR_Get h ;;
            let var := snd r in
            if fst r =? EOK then
              if var_type var =? VARTYPE_UINT16 then
                if PWM g then
                  put (set_value g (if uint16 (val_ui var) <=? 255
                                    then uint16 (val_ui var) else 255)) ;;;
                  (* [result] is not assigned on this path *)
                  ret EINVAL
                else
                  let v := if uint16 (val_ui var) >? 0 then 1 else 0 in
                  put (set_value g v) ;;;
                  r <- gpiod_line_set_value (pLine g) v ;;
                  let rc := fst r in
                  let errno := snd r in
                  let result := if rc =? EOK then EOK else errno in
                  (if negb (result =? EOK)
                   then emit (call_syslog ("UpdateOutput: " +:+ fmt_d result
                                           +:+ " " +:+ env_strerror env result))
                   else ret tt) ;;;
                  ret EOK
              else ret ENOTSUP
            else ret ENOENT
          else ret ENOTSUP)
    end.

Definition UpdateInput (h : Z) : M GPIOCtrlState Z :=
  if h =? VAR_INVALID then ret EINVAL
  else
    st <- get ;;
    match FindGPIO st h with
    | None => ret ENOENT
    | Some pGPIO =>
        at_ref pGPIO ENOENT (
          g <- get ;;
          if direction g =? GPIOD_LINE_DIRECTION_INPUT then
            rc <- gpiod_line_get_value (pLine g) ;;
            if negb (rc =? -1) then
              VAR_Set h (mkVarObject VARTYPE_UINT16 2 (if rc >? 0 then 1 else 0))
            else ret EIO
          else ret ENOTSUP)
    end.

(** ** Watch mode: one edge event *)

Definition HandleGPIOEvent (l : Z) : M GPIOCtrlState Z :=
  if l =? NULL then ret EINVAL
  else
    r <- gpiod_line_event_read l ;;
    let event := snd r in
    if fst r =? 0 then
      let val := if event =? GPIOD_LINE_EVENT_RISING_EDGE then 1 else 0 in
      st <- get ;;
      let h := FindVar st l in
      if negb (h =? VAR_INVALID) then
        VAR_Set h (mkVarObject VARTYPE_UINT16 2 val)
      else ret ENOENT
    else ret EIO.

(** ** Binding: from a line definition to a requested line *)

Definition printf {S} (msg : string) : M S unit := emit (call_printf msg).

(** Modelled from the spec: tjson's [JSON_Iterate], the iterate-over-array
    operation; the callback is run on every element in document order and a
    callback result other than [EOK] becomes the result.  Whether such a
    result also ends the iteration is left to [env_JSON_Iterate_stops]. *)
Fixpoint JSON_Iterate_items {S} (items : list JNode) (fn : JNode -> M S Z)
    (result : Z) : M S Z :=
  match items with
  | [] => ret result
  | pNode :: rest =>
      rc <- fn pNode ;;
      if rc =? EOK then JSON_Iterate_items rest fn result
      else if env_JSON_Iterate_stops env then ret rc
      else JSON_Iterate_items rest fn rc
  end.

Definition JSON_Iterate {S} (pArray : option JNode) (fn : JNode -> M S Z) : M S Z :=
  match pArray with
  | Some (JArray items) => JSON_Iterate_items items fn EOK
  | _ => ret EINVAL
  end.

(** The descriptor [calloc] hands out: every field zero. *)
Definition calloc_GPIO : GPIO :=
  mkGPIO NULL 0 0 None 0 0 false 0 (mkRequest None 0 0).

(** [GetVarHandle]: the handle, and the name stored through [ppName]. *)
Definition GetVarHandle {S} (hVarServer : Z) (pNode : JNode)
    : M S (Z * option string) :=
  if hVarServer =? NULL then ret (VAR_INVALID, None)
  else
    match JSON_GetStr pNode "var" with
    | Some varname =>
        h <- VAR_FindByName varname ;;
        if negb (h =? VAR_INVALID) then ret (h, Some varname)
        else ret (h, None)
    | None => ret (VAR_INVALID, None)
    end.

Definition GetLineOutputValue (hVarServer : Z) : M GPIO Z :=
  g <- get ;;
  if (hVarServer =? NULL) || (hVar g =? VAR_INVALID) || (pLine g =? NULL)
  then ret EINVAL
  else if direction g =? GPIOD_LINE_DIRECTION_OUTPUT then
    r <- VAR_Get (hVar g) ;;
    let var := snd r in
    if fst r =? EOK then
      if var_type var =? VARTYPE_UINT16 then
        put (set_value g (uint16 (val_ui var))) ;;;
        ret EOK
      else ret ENOTSUP
    else ret ENOENT
  else ret ENOTSUP.

Definition ParseLineDirection (pState : GPIOCtrlState) (pNode : JNode) : M GPIO Z :=
  g <- get ;;
  if pLine g =? NULL then ret EINVAL
  else
    let direction :=
      match JSON_GetStr pNode "direction" with
      | Some d => d
      | None => "input"
      end in
    if (direction =? "input")%string then
      modify (fun g => set_request_type
                         (set_direction g GPIOD_LINE_DIRECTION_INPUT)
                         GPIOD_LINE_REQUEST_DIRECTION_INPUT) ;;;
      ret EOK
    else if (direction =? "output")%string then
      modify (fun g => set_request_type
                         (set_direction g GPIOD_LINE_DIRECTION_OUTPUT)
                         GPIOD_LINE_REQUEST_DIRECTION_OUTPUT) ;;;
      GetLineOutputValue (hVarServer pState) ;;;
      ret EOK
    else if (direction =? "pwm")%string then
      modify (fun g => set_request_type
                         (set_direction (set_PWM g true)
                                        GPIOD_LINE_DIRECTION_OUTPUT)
                         GPIOD_LINE_REQUEST_DIRECTION_OUTPUT) ;;;
      GetLineOutputValue (hVarServer pState) ;;;
      ret EOK
    else ret ENOTSUP.

Definition ParseLineActiveState (pNode : JNode) : M GPIO Z :=
  match JSON_GetStr pNode "active_state" with
  | Some active_state =>
      if (active_state =? "low")%string then
        modify (fun g => set_flags g
          (Z.lor (flags (request g)) GPIOD_LINE_REQUEST_FLAG_ACTIVE_LOW)) ;;;
        ret EOK
      else if (active_state =? "high")%string then
        modify (fun g => set_flags g
          (Z.land (flags (request g))
                  (Z.lnot GPIOD_LINE_REQUEST_FLAG_ACTIVE_LOW))) ;;;
        ret EOK
      else ret ENOTSUP
  | None => ret EOK
  end.

Definition ParseLineEvent (pNode : JNode) : M GPIO Z :=
  match JSON_GetStr pNode "event" with
  | Some event_state =>
      if (event_state =? "RISING_EDGE")%string then
        modify (fun g => set_event_type g GPIOD_LINE_REQUEST_EVENT_RISING_EDGE) ;;;
        ret EOK
      else if (event_state =? "FALLING_EDGE")%string then
        modify (fun g => set_event_type g GPIOD_LINE_REQUEST_EVENT_FALLING_EDGE) ;;;
        ret EOK
      else if (event_state =? "BOTH_EDGES")%string then
        modify (fun g => set_event_type g GPIOD_LINE_REQUEST_EVENT_BOTH_EDGES) ;;;
        ret EOK
      else
        modify (fun g => set_event_type g 0) ;;;
        ret ENOTSUP
  | None =>
      modify (fun g => set_event_type g 0) ;;;
      ret EOK
  end.

Definition ParseLineBias (pNode : JNode) : M GPIO Z :=
  match JSON_GetStr pNode "bias" with
  | Some bias =>
      if (bias =? "disabled")%string then
        modify (fun g => set_flags g
          (Z.lor (flags (request g)) GPIOD_LINE_REQUEST_FLAG_BIAS_DISABLE)) ;;;
        ret EOK
      else if (bias =? "pull-down")%string then
        modify (fun g => set_flags g
          (Z.lor (flags (request g)) GPIOD_LINE_REQUEST_FLAG_BIAS_PULL_DOWN)) ;;;
        ret EOK
      else if (bias =? "pull-up")%string then
        modify (fun g => set_flags g
          (Z.lor (flags (request g)) GPIOD_LINE_REQUEST_FLAG_BIAS_PULL_UP)) ;;;
        ret EOK
      else ret ENOTSUP
  | None => ret EOK
  end.

Definition ParseLineDrive (pNode : JNode) : M GPIO Z :=
  let pushpull := Z.lnot (Z.lor GPIOD_LINE_REQUEST_FLAG_OPEN_DRAIN
                                GPIOD_LINE_REQUEST_FLAG_OPEN_SOURCE) in
  match JSON_GetStr pNode "drive" with
  | Some drive =>
      if (drive =? "push-pull")%string then
        modify (fun g => set_flags g (Z.land (flags (request g)) pushpull)) ;;;
        ret EOK
      else if (drive =? "open-source")%string then
        modify (fun g => set_flags g
          (Z.lor (flags (request g)) GPIOD_LINE_REQUEST_FLAG_OPEN_SOURCE)) ;;;
        ret EOK
      else if (drive =? "open-drain")%string then
        modify (fun g => set_flags g
          (Z.lor (flags (request g)) GPIOD_LINE_REQUEST_FLAG_OPEN_DRAIN)) ;;;
        ret EOK
      else ret ENOTSUP
  | None => ret EOK
  end.

(** The test [request] of [RequestLine]: does the operating mode match the
    line's event subscription? *)
Definition request_due (watch : bool) (event_type : Z) : bool :=
  (eqb watch true && negb (event_type =? 0))
  || (eqb watch false && (event_type =? 0)).

Definition RequestLine (pState : GPIOCtrlState) : M GPIO Z :=
  match service pState with
  | None => ret EINVAL
  | Some _ =>
      modify (fun g => set_flags (set_consumer g (service pState)) 0) ;;;
      g <- get ;;
      (if negb (event_type g =? 0)
       then modify (fun g => set_request_type g (event_type g))
       else ret tt) ;;;
      g <- get ;;
      if request_due (gpiowatch pState) (event_type g) then
        let value := if PWM g then 0 else value g in
        r <- gpiod_line_request (pLine g) (request g) value ;;
        let rc := fst r in
        let errno := snd r in
        ret (if rc =? -1 then errno else EOK)
      else ret EOK
  end.

Definition SetupNotification (pState : GPIOCtrlState) : M GPIO Z :=
  if gpiowatch pState then ret EINVAL
  else
    g <- get ;;
    if (direction g =? GPIOD_LINE_DIRECTION_INPUT) && (event_type g =? 0) then
      VAR_Notify (hVar g) NOTIFY_CALC
    else if direction g =? GPIOD_LINE_DIRECTION_OUTPUT then
      VAR_Notify (hVar g) NOTIFY_MODIFIED
    else ret EINVAL.

(** [CreatePWM] starts [PWMThread] on the descriptor; the C function has no
    return statement and its caller reads no result. *)
Definition CreatePWM : M GPIO unit :=
  g <- get ;;
  emit (call_pthread_create (pLine g)).

(** [CreateLine]: the new descriptor is linked at the tail of the last chip;
    the result is the pointer to it, [None] for [NULL]. *)
Definition CreateLine (pNode : JNode) : M GPIOCtrlState (option GPIORef) :=
  pState <- get ;;
  match last (chips pState) with
  | None => ret None
  | Some pGPIOChip =>
      r <- GetVarHandle (hVarServer pState) pNode ;;
      let h := fst r in
      let varname := snd r in
      if negb (h =? VAR_INVALID) then
        match JSON_GetStr pNode "line" with
        | Some line_str =>
            let line_num := uint32 (env_strtoul env line_str) in
            line <- gpiod_chip_get_line (pChip pGPIOChip) line_num ;;
            if negb (line =? NULL) then
              if env_calloc_GPIO env line then
                let g := mkGPIO line h (int32 line_num) varname 0 0 false 0
                                (mkRequest None 0 0) in
                let ci := (length (chips pState) - 1)%nat in
                let li := length (chip_lines pGPIOChip) in
                put (set_chips pState
                       (alter (fun c => set_chip_lines c (chip_lines c ++ [g]))
                              ci (chips pState))) ;;;
                ret (Some (ci, li))
              else
                emit (call_gpiod_line_release line) ;;;
                ret None
            else
              printf ("failed to create line " +:+ fmt_d (int32 line_num) +:+ nl) ;;;
              ret None
        | None =>
            printf ("cannot get line" +:+ nl) ;;;
            ret None
        end
      else
        printf ("Unable to Get var handle" +:+ nl) ;;;
        ret None
  end.

Definition ParseLine (pNode : JNode) : M GPIOCtrlState Z :=
  p <- CreateLine pNode ;;
  match p with
  | None => ret EOK
  | Some pGPIO =>
      pState <- get ;;
      at_ref pGPIO tt (
        ParseLineDirection pState pNode ;;;
        ParseLineActiveState pNode ;;;
        ParseLineEvent pNode ;;;
        ParseLineBias pNode ;;;
        ParseLineDrive pNode ;;;
        RequestLine pState ;;;
        ret tt) ;;;
      pState <- get ;;
      match deref pState pGPIO with
      | None => ret EOK
      | Some g =>
          (if negb (event_type g =? 0) then
             let n := Z.of_nat (length (monitoredLines pState)) in
             if n <? GPIOD_LINE_BULK_MAX_LINES then
               put (set_monitoredLines pState
                      (monitoredLines pState ++ [pLine g]))
             else ret tt
           else ret tt) ;;;
          pState <- get ;;
          at_ref pGPIO tt (
            SetupNotification pState ;;;
            if eqb (gpiowatch pState) false && eqb (PWM g) true
            then CreatePWM
            else ret tt) ;;;
          ret EOK
      end
  end.

Definition CreateLines (pNode : JNode) : M GPIOCtrlState Z :=
  match JSON_Find pNode "lines" with
  | Some (JArray items) => JSON_Iterate (Some (JArray items)) ParseLine
  | Some _ => ret ENOTSUP
  | None => ret EINVAL
  end.

(** [CreateChip]: [true] when a chip descriptor was linked at the tail of
    the chip list. *)
Definition CreateChip (pNode : JNode) : M GPIOCtrlState bool :=
  match JSON_GetStr pNode "chip" with
  | Some chipName =>
      let buf := "/dev/" +:+ chipName in
      chip <- gpiod_chip_open buf ;;
      if negb (chip =? NULL) then
        if env_calloc_GPIOChip env chip then
          modify (fun st => set_chips st
                    (chips st ++ [mkGPIOChip chipName chip []])) ;;;
          ret true
        else
          emit (call_gpiod_chip_close chip) ;;;
          ret false
      else
        printf ("unable to open chip: " +:+ buf +:+ nl) ;;;
        ret false
  | None =>
      printf ("chip name is NULL" +:+ nl) ;;;
      ret false
  end.

Definition ParseChip (pNode : JNode) : M GPIOCtrlState Z :=
  ok <- CreateChip pNode ;;
  if ok then CreateLines pNode else ret EINVAL.

(** ** Status report *)

Definition write {S} (fd : Z) (text : string) : M S unit :=
  emit (call_write fd text).

Definition PrintLineInfo (pGPIO : GPIO) (fd : Z) : M GPIOCtrlState Z :=
  if fd =? -1 then ret EINVAL
  else
    (if negb (pLine pGPIO =? NULL) then
       line_name <- gpiod_line_name (pLine pGPIO) ;;
       write fd ("{ " +:+ quoted "line" +:+ " : " +:+ fmt_d (line_num pGPIO)
                 +:+ ", " +:+ quoted "name" +:+ " : "
                 +:+ quoted (match line_name with
                             | Some n => n
                             | None => "unknown"
                             end)
                 +:+ ", " +:+ quoted "var" +:+ " : "
                 +:+ quoted (fmt_s (name pGPIO)) +:+ "}")
     else ret tt) ;;;
    ret EOK.

(** The inner loop of [PrintStatus]; [first] tells whether the head of [ls]
    is [pFirstLine]. *)
Fixpoint PrintStatus_lines (ls : list GPIO) (first : bool) (fd : Z)
    : M GPIOCtrlState unit :=
  match ls with
  | [] => ret tt
  | pGPIO :: rest =>
      (if negb first then write fd "," else ret tt) ;;;
      PrintLineInfo pGPIO fd ;;;
      PrintStatus_lines rest false fd
  end.

(** The outer loop of [PrintStatus]; [first] tells whether the head of [cs]
    is [pFirstGPIOChip]. *)
Fixpoint PrintStatus_chips (cs : list GPIOChip) (first : bool) (fd : Z)
    : M GPIOCtrlState unit :=
  match cs with
  | [] => ret tt
  | pGPIOChip :: rest =>
      (if negb first then write fd "," else ret tt) ;;;
      write fd ("{ " +:+ quoted "chip" +:+ " : " +:+ quoted (chip_name pGPIOChip)
                +:+ ", " +:+ quoted "lines" +:+ " : [") ;;;
      PrintStatus_lines (chip_lines pGPIOChip) true fd ;;;
      write fd "]}" ;;;
      PrintStatus_chips rest false fd
  end.

Definition PrintStatus (fd : Z) : M GPIOCtrlState Z :=
  if fd =? -1 then ret EINVAL
  else
    write fd "[" ;;;
    pState <- get ;;
    PrintStatus_chips (chips pState) true fd ;;;
    write fd "]" ;;;
    ret EOK.

(** What a run has written to [fd], in order. *)
Fixpoint written (fd : Z) (t : list Call) : string :=
  match t with
  | [] => EmptyString
  | call_write fd' text :: rest =>
      if fd' =? fd then text +:+ written fd rest else written fd rest
  | _ :: rest => written fd rest
  end.

(** ** The two waits and the main loop *)

(** [WaitVarSignal], woken by [VARSERVER_WaitSignal] with signal [sig] and
    payload [sigval]. *)
Definition WaitVarSignal (sig sigval : Z) : M GPIOCtrlState Z :=
  if sig =? SIG_VAR_MODIFIED then
    UpdateOutput sigval ;;;
    ret EOK
  else if sig =? SIG_VAR_CALC then
    UpdateInput sigval ;;;
    ret EOK
  else if sig =? SIG_VAR_PRINT then
    emit (call_VAR_OpenPrintSession sigval) ;;;
    let fd := snd (env_VAR_OpenPrintSession env sigval) in
    PrintStatus fd ;;;
    emit (call_VAR_ClosePrintSession sigval fd) ;;;
    ret EOK
  else ret ENOTSUP.

(** The loop of [WaitGPIOEvent] over the lines that fired. *)
Fixpoint WaitGPIOEvent_lines (events : list Z) : M GPIOCtrlState unit :=
  match events with
  | [] => ret tt
  | l :: rest => HandleGPIOEvent l ;;; WaitGPIOEvent_lines rest
  end.

(** [WaitGPIOEvent], woken by [gpiod_line_event_wait_bulk] returning [rc]
    (with [errno]) and the lines [events]. *)
Definition WaitGPIOEvent (rc errno : Z) (events : list Z) : M GPIOCtrlState Z :=
  if rc <? 0 then ret errno
  else if rc >? 0 then
    WaitGPIOEvent_lines events ;;;
    ret EINVAL
  else ret EINVAL.

(** One wake-up of the process: what the blocking wait of either mode
    returns. *)
Record Wakeup := mkWakeup {
  wake_sig : Z;
  wake_sigval : Z;
  wake_rc : Z;
  wake_errno : Z;
  wake_events : list Z;
}.

(** [run], unrolled over the wake-ups that arrive while [running] holds. *)
Fixpoint run_loop (ws : list Wakeup) : M GPIOCtrlState unit :=
  match ws with
  | [] => ret tt
  | w :: rest =>
      pState <- get ;;
      if eqb (running pState) true then
        (if eqb (gpiowatch pState) true
         then WaitGPIOEvent (wake_rc w) (wake_errno w) (wake_events w)
         else WaitVarSignal (wake_sig w) (wake_sigval w)) ;;;
        run_loop rest
      else ret tt
  end.

Definition run (ws : list Wakeup) : M GPIOCtrlState Z :=
  modify (fun st => set_running st true) ;;;
  run_loop ws ;;;
  ret EOK.

(** ** Software PWM *)

Definition usleep {S} (t : Z) : M S unit := emit (call_usleep t).

(** The descriptor a PWM thread runs on is the one the registry holds: the
    main thread assigns its [value] field in [UpdateOutput] while the thread
    runs, and nothing orders the two.  Between two accesses of the thread
    the assignments of the main thread amount to nothing or to the last
    value assigned. *)
Definition store_value (w : option Z) : M GPIO unit :=
  match w with
  | Some v => modify (fun g => set_value g v)
  | None => ret tt
  end.

(** The assignments of the main thread that land during one turn of the
    loop of [PWMThread], by the place in the turn where they land. *)
Record Stores := mkStores {
  before_low_test : option Z;   (* before [value] is read for [value < 0] *)
  after_low_test : option Z;    (* between that read and [value = 0] *)
  before_high_test : option Z;  (* before [value] is read for [value > 255] *)
  after_high_test : option Z;   (* between that read and [value = 255] *)
  before_on_time : option Z;    (* before [value] is read for the on time *)
  before_off_time : option Z    (* before [value] is read again for the off
                                   time, the high phase included *)
}.

Definition no_stores : Stores := mkStores None None None None None None.

(** One turn of the [while (1)] loop of [PWMThread]: every use of
    [pGPIO->value] reads the shared field anew. *)
Definition PWMThread_cycle (w : Stores) : M GPIO unit :=
  store_value (before_low_test w) ;;;
  g <- get ;;
  store_value (after_low_test w) ;;;
  (if value g <? 0 then modify (fun g => set_value g 0) else ret tt) ;;;
  store_value (before_high_test w) ;;;
  g <- get ;;
  store_value (after_high_test w) ;;;
  (if value g >? 255 then modify (fun g => set_value g 255) else ret tt) ;;;
  store_value (before_on_time w) ;;;
  g <- get ;;
  (let t := int32 (value g * 40) in
   if t >? 0 then
     gpiod_line_set_value (pLine g) 1 ;;;
     usleep t
   else ret tt) ;;;
  store_value (before_off_time w) ;;;
  g <- get ;;
  (let t := int32 ((255 - value g) * 40) in
   if t >? 0 then
     gpiod_line_set_value (pLine g) 0 ;;;
     usleep t
   else ret tt).

Fixpoint PWMThread_loop (turns : list Stores) : M GPIO unit :=
  match turns with
  | [] => ret tt
  | w :: rest => PWMThread_cycle w ;;; PWMThread_loop rest
  end.

(** [PWMThread] on a non-null descriptor, observed for as many turns of its
    endless loop as [turns] is long; [turns] gives what the main thread
    stores during each. *)
Definition PWMThread (turns : list Stores) : M GPIO unit :=
  emit (call_sigprocmask_block
          [SIG_VAR_MODIFIED; SIG_VAR_CALC; SIG_VAR_PRINT; SIG_VAR_VALIDATE]) ;;;
  PWMThread_loop turns.

(** ** Start-up and shutdown *)

Definition set_service (st : GPIOCtrlState) (s : option string) : GPIOCtrlState :=
  mkState s (gpiowatch st) (hVarServer st) (verbose st) (pFileName st)
          (running st) (chips st) (monitoredLines st).
Definition set_gpiowatch (st : GPIOCtrlState) (b : bool) : GPIOCtrlState :=
  mkState (service st) b (hVarServer st) (verbose st) (pFileName st)
          (running st) (chips st) (monitoredLines st).
Definition set_hVarServer (st : GPIOCtrlState) (h : Z) : GPIOCtrlState :=
  mkState (service st) (gpiowatch st) h (verbose st) (pFileName st)
          (running st) (chips st) (monitoredLines st).
Definition set_verbose (st : GPIOCtrlState) (b : bool) : GPIOCtrlState :=
  mkState (service st) (gpiowatch st) (hVarServer st) b (pFileName st)
          (running st) (chips st) (monitoredLines st).
Definition set_pFileName (st : GPIOCtrlState) (f : option string) : GPIOCtrlState :=
  mkState (service st) (gpiowatch st) (hVarServer st) (verbose st) f
          (running st) (chips st) (monitoredLines st).

Definition SetupPrintNotifications : M GPIOCtrlState Z :=
  pState <- get ;;
  if eqb (gpiowatch pState) false then
    hVar <- VAR_FindByName "/SYS/GPIOCTRL/INFO" ;;
    if negb (hVar =? VAR_INVALID) then VAR_Notify hVar NOTIFY_PRINT
    else ret ENOENT
  else ret EINVAL.

(** [TerminationHandler], the handler of [SIGTERM] and [SIGINT]. *)
Definition TerminationHandler : M GPIOCtrlState unit :=
  emit (call_syslog ("termination of gpioctrl" +:+ nl)) ;;;
  modify (fun st => set_running st false).

(** The inner loop of [Shutdown], over the lines of one chip. *)
Fixpoint Shutdown_lines (ls : list GPIO) : M GPIOCtrlState unit :=
  match ls with
  | [] => ret tt
  | pTempGPIO :: rest =>
      (if negb (pLine pTempGPIO =? NULL)
       then emit (call_gpiod_line_release (pLine pTempGPIO))
       else ret tt) ;;;
      Shutdown_lines rest
  end.

(** The outer loop of [Shutdown]. *)
Fixpoint Shutdown_chips (cs : list GPIOChip) : M GPIOCtrlState unit :=
  match cs with
  | [] => ret tt
  | pTempGPIOChip :: rest =>
      Shutdown_lines (chip_lines pTempGPIOChip) ;;;
      (if negb (pChip pTempGPIOChip =? NULL)
       then emit (call_gpiod_chip_close (pChip pTempGPIOChip))
       else ret tt) ;;;
      Shutdown_chips rest
  end.

(** [Shutdown]: every line descriptor is freed on the way, and the chip list
    is cut off at the end. *)
Definition Shutdown : M GPIOCtrlState unit :=
  pState <- get ;;
  Shutdown_chips (chips pState) ;;;
  modify (fun st => set_chips st []).

(** [usage]: one [fprintf] to [stderr], file descriptor 2. *)
Definition usage {S} (cmdname : string) : M S unit :=
  write 2 ("usage: " +:+ cmdname +:+ " [-v] [-h] "
           +:+ " [-h] : display this help"
           +:+ " [-v] : verbose output"
           +:+ " -f <filename> : configuration file").

(** The loop of [ProcessOptions] over what [getopt] returns, call by call,
    before it returns -1: the option character and [optarg]. *)
Fixpoint ProcessOptions_loop (argv0 : string) (opts : list (ascii * string))
    : M GPIOCtrlState unit :=
  match opts with
  | [] => ret tt
  | (c, optarg) :: rest =>
      (if Ascii.eqb c "v" then modify (fun st => set_verbose st true)
       else if Ascii.eqb c "h" then usage argv0
       else if Ascii.eqb c "f"
            then modify (fun st => set_pFileName st (Some optarg))
       else ret tt) ;;;
      ProcessOptions_loop argv0 rest
  end.

Definition ProcessOptions (argv0 : string) (opts : list (ascii * string))
    : M GPIOCtrlState Z :=
  ProcessOptions_loop argv0 opts ;;;
  ret 0.

(** What [main] gets from outside: the command line, what [getopt] makes of
    it, tjson's reading ([JSON_Process]) and printing ([JSON_Print]) of the
    configuration file, the handle [VARSERVER_Open] returns, and the wake-ups
    that arrive while the process runs.  tjson and the opening and closing of
    the variable server are not part of the repository, and the calls to
    them, like those to [sigaction], are not logged. *)
Record Invocation := mkInvocation {
  argc : Z;
  argv0 : string;
  getopt_results : list (ascii * string);
  JSON_Process : option string -> option JNode;
  JSON_Print : option JNode -> string;
  VARSERVER_Open : Z;
  wakeups : list Wakeup;
}.

(** The state object after [memset]. *)
Definition zero_state : GPIOCtrlState :=
  mkState None false NULL false None false [] [].

(** [main]; the result is the status of [exit], [None] when [main]
    returns. *)
Definition main (inv : Invocation) : M GPIOCtrlState (option Z) :=
  printf ("Starting " +:+ argv0 inv +:+ nl) ;;;
  put zero_state ;;;
  if argc inv <? 2 then
    usage (argv0 inv) ;;;
    ret (Some 1)
  else
    modify (fun st => set_service st (Some (argv0 inv))) ;;;
    (if (argv0 inv =? "gpiowatch")%string
     then modify (fun st => set_gpiowatch st true)
     else ret tt) ;;;
    ProcessOptions (argv0 inv) (getopt_results inv) ;;;
    st <- get ;;
    let config := JSON_Process inv (pFileName st) in
    (if eqb (verbose st) true
     then printf (JSON_Print inv config) ;;; printf nl
     else ret tt) ;;;
    let gpiodef := match config with
                   | Some c => JSON_Find c "gpiodef"
                   | None => None
                   end in
    modify (fun st => set_hVarServer st (VARSERVER_Open inv)) ;;;
    if negb (VARSERVER_Open inv =? NULL) then
      SetupPrintNotifications ;;;
      JSON_Iterate gpiodef ParseChip ;;;
      run (wakeups inv) ;;;
      Shutdown ;;;
      ret None
    else ret None.

End Program.

(** * Concrete data

 A board, two registries and some line definitions, on which the
 properties below are evaluated. *)

(** A board with one chip, [/dev/gpiochip0], of 54 lines; the variables
    [/HW/GPIO/P<n>] exist for a few [n] and read as the UINT16 7; writes to
    line 12 fail with [EIO]; line 26 has just seen a falling edge. *)
Definition demo_env : Env :=
  mkEnv
    (fun n => if (n =? "/HW/GPIO/P4")%string then 4
              else if (n =? "/HW/GPIO/P5")%string then 5
              else if (n =? "/HW/GPIO/P26")%string then 26
              else 0)
    (fun h => (0, mkVarObject 1 2 7))
    (fun _ _ => 0)
    (fun _ _ => 0)
    (fun _ => (0, 3))
    (fun path => if (path =? "/dev/gpiochip0")%string then 100 else 0)
    (fun chip n => if (0 <=? n) && (n <? 54) then 1000 + n else 0)
    (fun _ _ _ => (0, 0))
    (fun l _ => if l =? 1012 then (-1, 5) else (0, 0))
    (fun _ => 1)
    (fun _ => (0, 2))
    (fun l => if l =? 1004 then Some "GPIO_GCLK" else None)
    (fun s => match NilZero.int_of_string s with
              | Some d => Z.of_int d
              | None => 0
              end)
    (fun _ => "Input/output error")
    (fun _ => true)
    (fun _ => true)
    false.

Definition demo_line4 : GPIO :=
  mkGPIO 1004 4 4 (Some "/HW/GPIO/P4") 0 2 false 0
         (mkRequest (Some "gpioctrl") 3 0).

Definition demo_line5 : GPIO :=
  mkGPIO 1005 5 5 (Some "/HW/GPIO/P5") 0 2 true 0
         (mkRequest (Some "gpioctrl") 3 0).

Definition demo_line12 : GPIO :=
  mkGPIO 1012 12 12 (Some "/HW/GPIO/P12") 0 2 false 0
         (mkRequest (Some "gpioctrl") 3 0).

Definition demo_line17 : GPIO :=
  mkGPIO 1017 17 17 (Some "/HW/GPIO/P17") 0 1 false 0
         (mkRequest (Some "gpioctrl") 2 0).

Definition demo_line26 : GPIO :=
  mkGPIO 1026 26 26 (Some "/HW/GPIO/P26") 0 1 false 6
         (mkRequest (Some "gpiowatch") 6 0).

(** The registry of a process in signal mode. *)
Definition demo_state : GPIOCtrlState :=
  mkState (Some "gpioctrl") false 1 false None true
    [mkGPIOChip "gpiochip0" 100
       [demo_line4; demo_line5; demo_line12; demo_line17]] [].

(** The registry of a process in watch mode. *)
Definition watch_state : GPIOCtrlState :=
  mkState (Some "gpiowatch") true 1 false None true
    [mkGPIOChip "gpiochip0" 100 [demo_line26]] [1026].

(** The state of either process once the chip is open and before any line
    is bound. *)
Definition fresh_state (svc : string) (watch : bool) : GPIOCtrlState :=
  mkState (Some svc) watch 1 false None false
    [mkGPIOChip "gpiochip0" 100 []] [].

(** Line definitions: a well-formed one, two whose direction is not a
    direction, and one whose variable does not exist. *)
Definition good_line : JNode :=
  JObject [("line", JStr "4"); ("var", JStr "/HW/GPIO/P4");
           ("direction", JStr "output")].

Definition odd_line : JNode :=
  JObject [("line", JStr "5"); ("var", JStr "/HW/GPIO/P5");
           ("direction", JStr "sideways")].

Definition odd_edge_line : JNode :=
  JObject [("line", JStr "26"); ("var", JStr "/HW/GPIO/P26");
           ("direction", JStr "sideways"); ("event", JStr "RISING_EDGE")].

Definition lost_line : JNode :=
  JObject [("line", JStr "6"); ("var", JStr "/HW/GPIO/NONE");
           ("direction", JStr "output")].

Definition plain_line : JNode :=
  JObject [("line", JStr "5"); ("var", JStr "/HW/GPIO/P5")].

Definition demo_chip (lines : list JNode) : JNode :=
  JObject [("chip", JStr "gpiochip0"); ("lines", JArray lines)].

(** The state before any chip is open. *)
Definition start_state : GPIOCtrlState :=
  mkState (Some "gpioctrl") false 1 false None false [] [].

(** Two hardware line names, each shorter than the 32 bytes the kernel
    keeps for the name of a line: one that holds double quotes, one that
    holds a backslash. *)
Definition odd_name : string :=
  "x" +:+ dq +:+ "},{ " +:+ quoted "line" +:+ " : 9, " +:+ quoted "name"
  +:+ " : " +:+ dq +:+ "y".

Definition backslash_name : string := "PWR\EN".

(** The hardware names of two lines. *)
Definition naming_env : Env :=
  mkEnv (fun _ => 0) (fun _ => (0, mkVarObject 1 2 0)) (fun _ _ => 0)
        (fun _ _ => 0) (fun _ => (0, 3)) (fun _ => 0) (fun _ _ => 0)
        (fun _ _ _ => (0, 0)) (fun _ _ => (0, 0)) (fun _ => 0)
        (fun _ => (0, 1))
        (fun l => if l =? 2001 then Some odd_name
                  else if l =? 2002 then Some backslash_name
                  else None)
        (fun _ => 0) (fun _ => "error") (fun _ => true) (fun _ => true) false.

(** Two registries with one line each, line 1 and line 2. *)
Definition one_line_state : GPIOCtrlState :=
  mkState (Some "gpioctrl") false 1 false None true
    [mkGPIOChip "gpiochip0" 100
       [mkGPIO 2001 2 1 (Some "b") 0 1 false 0 (mkRequest None 2 0)]] [].

Definition backslash_state : GPIOCtrlState :=
  mkState (Some "gpioctrl") false 1 false None true
    [mkGPIOChip "gpiochip0" 100
       [mkGPIO 2002 3 2 (Some "c") 0 1 false 0 (mkRequest None 2 0)]] [].

(** More line and chip definitions: an input line with an edge
    subscription, a PWM output, a chip definition without a name and one
    without lines. *)
Definition edge_line : JNode :=
  JObject [("line", JStr "26"); ("var", JStr "/HW/GPIO/P26");
           ("event", JStr "FALLING_EDGE")].

Definition pwm_line : JNode :=
  JObject [("line", JStr "5"); ("var", JStr "/HW/GPIO/P5");
           ("direction", JStr "pwm")].

(** The output line 4 once more, with every ignored attribute set. *)
Definition flagged_line : JNode :=
  JObject [("line", JStr "4"); ("var", JStr "/HW/GPIO/P4");
           ("direction", JStr "output"); ("active_state", JStr "low");
           ("bias", JStr "pull-up"); ("drive", JStr "open-drain")].

Definition nameless_chip : JNode := JObject [("lines", JArray [good_line])].

Definition bare_chip : JNode := JObject [("chip", JStr "gpiochip0")].

(** A configuration with one chip and three lines, and three ways to start
    the program on it: with no argument, verbosely with no variable server,
    and as [gpioctrl] with a server, woken once by a change of
    [/HW/GPIO/P4]. *)
Definition demo_config : JNode :=
  JObject [("gpiodef", JArray [demo_chip [good_line; edge_line; lost_line]])].

Definition bare_invocation : Invocation :=
  mkInvocation 1 "gpioctrl" [] (fun _ => Some demo_config) (fun _ => "{}") 1
    [mkWakeup 35 4 0 0 []].

Definition lone_invocation : Invocation :=
  mkInvocation 4 "gpioctrl" [("v"%char, EmptyString); ("f"%char, "gpio.json")]
    (fun _ => Some demo_config) (fun _ => "{}") 0 [mkWakeup 35 4 0 0 []].

Definition demo_invocation : Invocation :=
  mkInvocation 3 "gpioctrl" [("f"%char, "gpio.json")]
    (fun _ => Some demo_config) (fun _ => "{}") 1
    [mkWakeup 35 4 0 0 []].

(** * Observations and specifications *)

Section Properties.

Context {hdr : Headers}.
Variable env : Env.

(** The values written to hardware lines during a run, in order. *)
Fixpoint hw_writes (t : list Call) : list (Z * Z) :=
  match t with
  | [] => []
  | call_gpiod_line_set_value l v :: rest => (l, v) :: hw_writes rest
  | _ :: rest => hw_writes rest
  end.

(** The reads of variables during a run, in order. *)
Fixpoint var_reads (t : list Call) : list Z :=
  match t with
  | [] => []
  | call_VAR_Get h :: rest => h :: var_reads rest
  | _ :: rest => var_reads rest
  end.

(** The line requests made to the hardware during a run, in order. *)
Fixpoint hw_requests (t : list Call) : list (Z * gpiod_line_request_config * Z) :=
  match t with
  | [] => []
  | call_gpiod_line_request l cfg v :: rest => (l, cfg, v) :: hw_requests rest
  | _ :: rest => hw_requests rest
  end.

(** The clamp at the top of a PWM cycle. *)
Definition pwm_clamp (v : Z) : Z :=
  if v <? 0 then 0 else if v >? 255 then 255 else v.

(** The calls of one PWM cycle on line [l] at duty [D]: the high phase when
    its duration is not zero, then the low phase when its duration is not
    zero. *)
Definition pwm_phases (l D : Z) : list Call :=
  (if D * 40 =? 0 then []
   else [call_gpiod_line_set_value l 1; call_usleep (D * 40)]) ++
  (if (255 - D) * 40 =? 0 then []
   else [call_gpiod_line_set_value l 0; call_usleep ((255 - D) * 40)]).

(** The high phase of a PWM cycle on line [l] at the duty read for it, and
    the low phase at the duty read for it. *)
Definition pwm_high (l D : Z) : list Call :=
  if D * 40 =? 0 then []
  else [call_gpiod_line_set_value l 1; call_usleep (D * 40)].
Definition pwm_low (l D : Z) : list Call :=
  if (255 - D) * 40 =? 0 then []
  else [call_gpiod_line_set_value l 0; call_usleep ((255 - D) * 40)].

(** What a read of the field finds when the main thread has stored [w]
    since the field held [v]. *)
Definition landed (w : option Z) (v : Z) : Z :=
  match w with Some x => x | None => v end.

(** The duty a turn reads for its on time and the one it reads for its off
    time, from the value [v] the field holds when the turn begins. *)
Definition on_duty (w : Stores) (v : Z) : Z :=
  let v1 := landed (before_low_test w) v in
  let v2 := landed (before_high_test w)
              (if v1 <? 0 then 0 else landed (after_low_test w) v1) in
  landed (before_on_time w)
    (if v2 >? 255 then 255 else landed (after_high_test w) v2).
Definition off_duty (w : Stores) (v : Z) : Z :=
  landed (before_off_time w) (on_duty w v).

(** The main thread stores duties only: [UpdateOutput] assigns
    [min (V, 255)] of a UINT16 [V] to the field of a PWM line. *)
Definition duty_stored (w : option Z) : Prop :=
  match w with Some v => 0 <= v <= 255 | None => True end.
Definition stores_in_range (w : Stores) : Prop :=
  duty_stored (before_low_test w) /\ duty_stored (after_low_test w) /\
  duty_stored (before_high_test w) /\ duty_stored (after_high_test w) /\
  duty_stored (before_on_time w) /\ duty_stored (before_off_time w).

(** A turn in which one store lands, after the on time is read and before
    the off time is: during the high phase when there is one. *)
Definition store_in_high_phase (D2 : Z) : Stores :=
  mkStores None None None None None (Some D2).

(** The event subscription [ParseLineEvent] reads from a line definition. *)
Definition parsed_event (pNode : JNode) : Z :=
  event_type (state_of (ParseLineEvent pNode calloc_GPIO)).

(** The descriptor [CreateLine] links for a line definition under a chip
    with handle [pchip], when it links one: the variable resolves, the line
    attribute is there, the chip hands out the line and memory is left. *)
Definition created_line (hvs pchip : Z) (pNode : JNode) : option GPIO :=
  if hvs =? NULL then None
  else
    match JSON_GetStr pNode "var", JSON_GetStr pNode "line" with
    | Some varname, Some line_str =>
        let h := env_VAR_FindByName env varname in
        let n := uint32 (env_strtoul env line_str) in
        let line := env_gpiod_chip_get_line env pchip n in
        if (h =? VAR_INVALID) || (line =? NULL) || negb (env_calloc_GPIO env line)
        then None
        else Some (mkGPIO line h (int32 n) (Some varname) 0 0 false 0
                          (mkRequest None 0 0))
    | _, _ => None
    end.

(** The six steps of [ParseLine] on the fresh descriptor, from
    [ParseLineDirection] to [RequestLine]. *)
Definition ParseLine_configure (pState : GPIOCtrlState) (pNode : JNode)
    : M GPIO unit :=
  ParseLineDirection env pState pNode ;;;
  ParseLineActiveState pNode ;;;
  ParseLineEvent pNode ;;;
  ParseLineBias pNode ;;;
  ParseLineDrive pNode ;;;
  RequestLine env pState ;;;
  ret tt.

(** The last two steps of [ParseLine]: the notification and the PWM
    thread. *)
Definition ParseLine_notify (pState : GPIOCtrlState) (g : GPIO) : M GPIO unit :=
  SetupNotification env pState ;;;
  if eqb (gpiowatch pState) false && eqb (PWM g) true
  then CreatePWM
  else ret tt.

(** The bookkeeping of monitored lines in [ParseLine]. *)
Definition track_monitored (st : GPIOCtrlState) (g : GPIO) : GPIOCtrlState :=
  if negb (event_type g =? 0)
     && (Z.of_nat (length (monitoredLines st)) <? GPIOD_LINE_BULK_MAX_LINES)
  then set_monitoredLines st (monitoredLines st ++ [pLine g])
  else st.

(** What identifies a bound line: hardware line, variable, line number and
    variable name. *)
Definition line_identity (g : GPIO) : Z * Z * Z * option string :=
  (pLine g, hVar g, line_num g, name g).

(** The line name the report shows for a descriptor. *)
Definition shown_line_name (g : GPIO) : string :=
  match env_gpiod_line_name env (pLine g) with
  | Some n => n
  | None => "unknown"
  end.

(** The report as the spec words it: a JSON array with one object per chip,
    each holding the array of its line objects, in list order. *)
Definition render_line (g : GPIO) : string :=
  "{ " +:+ quoted "line" +:+ " : " +:+ fmt_d (line_num g)
  +:+ ", " +:+ quoted "name" +:+ " : " +:+ quoted (shown_line_name g)
  +:+ ", " +:+ quoted "var" +:+ " : " +:+ quoted (fmt_s (name g)) +:+ "}".

Definition render_chip (c : GPIOChip) : string :=
  "{ " +:+ quoted "chip" +:+ " : " +:+ quoted (chip_name c)
  +:+ ", " +:+ quoted "lines" +:+ " : ["
  +:+ String.concat "," (map render_line (chip_lines c)) +:+ "]}".

Definition render_status (st : GPIOCtrlState) : string :=
  "[" +:+ String.concat "," (map render_chip (chips st)) +:+ "]".

(** ** JSON texts

    The report is meant to be read as JSON.  This is the grammar of RFC 8259,
    as a reader: [json_read] gives the value a text denotes, [None] when the
    text is not JSON. *)

(** [s] without the prefix [p], when it has that prefix. *)
Fixpoint strip_prefix (p s : string) : option string :=
  match p, s with
  | EmptyString, _ => Some s
  | String a p', String b s' =>
      if Ascii.eqb a b then strip_prefix p' s' else None
  | String _ _, EmptyString => None
  end.

(** A JSON value.  A number is kept as the text that denotes it. *)
#[local] Unset Elimination Schemes.
Inductive Json :=
| JsonNull
| JsonBool (b : bool)
| JsonNumber (text : string)
| JsonString (s : string)
| JsonArray (items : list Json)
| JsonObject (members : list (string * Json)).
#[local] Set Elimination Schemes.

(** Insignificant whitespace: space, tab, line feed, carriage return. *)
Definition is_ws (a : ascii) : bool :=
  match a with
  | " " | "009" | "010" | "013" => true
  | _ => false
  end%char.

Fixpoint skip_ws (s : string) : string :=
  match s with
  | String a s' => if is_ws a then skip_ws s' else s
  | EmptyString => s
  end.

Definition is_digit (a : ascii) : bool :=
  match a with
  | "0" | "1" | "2" | "3" | "4" | "5" | "6" | "7" | "8" | "9" => true
  | _ => false
  end%char.

(** The longest prefix made of digits, and the rest. *)
Fixpoint span_digits (s : string) : string * string :=
  match s with
  | EmptyString => (EmptyString, EmptyString)
  | String a s' =>
      if is_digit a
      then (String a (fst (span_digits s')), snd (span_digits s'))
      else (EmptyString, s)
  end.

(** One digit or more. *)
Definition read_digits (s : string) : option (string * string) :=
  match span_digits s with
  | (EmptyString, _) => None
  | p => Some p
  end.

(** The integer part: a lone zero, or digits that do not begin with
    zero (a digit after a leading zero is left unread and fits nothing that
    may follow a number). *)
Definition read_int (s : string) : option (string * string) :=
  match s with
  | String "0" r => Some ("0", r)
  | _ => read_digits s
  end.

(** The optional fraction and the optional exponent. *)
Definition read_frac (s : string) : option (string * string) :=
  match s with
  | String "." r => p ← read_digits r; Some (String "." (fst p), snd p)
  | _ => Some (EmptyString, s)
  end.

Definition read_exp (s : string) : option (string * string) :=
  match s with
  | String a r =>
      if Ascii.eqb a "e" || Ascii.eqb a "E" then
        match r with
        | String b r' =>
            if Ascii.eqb b "+" || Ascii.eqb b "-"
            then p ← read_digits r'; Some (String a (String b (fst p)), snd p)
            else p ← read_digits r; Some (String a (fst p), snd p)
        | EmptyString => None
        end
      else Some (EmptyString, s)
  | EmptyString => Some (EmptyString, s)
  end.

(** A number: an optional minus sign, the integer part, the optional
    fraction and exponent. *)
Definition read_number (s : string) : option (string * string) :=
  let sr := match s with
            | String "-" r => ("-", r)
            | _ => (EmptyString, s)
            end in
  i ← read_int (snd sr);
  f ← read_frac (snd i);
  e ← read_exp (snd f);
  Some (fst sr +:+ fst i +:+ fst f +:+ fst e, snd e).

(** The four hexadecimal digits of a [\u] escape, and the UTF-8 bytes of
    the 16-bit unit they give (the two halves of a surrogate pair are
    encoded one by one). *)
Definition hex_digit (a : ascii) : option N :=
  (let n := N_of_ascii a in
   if (48 <=? n) && (n <=? 57) then Some (n - 48)
   else if (97 <=? n) && (n <=? 102) then Some (n - 87)
   else if (65 <=? n) && (n <=? 70) then Some (n - 55)
   else None)%N.

Definition hex4 (a b c d : ascii) : option N :=
  x ← hex_digit a; y ← hex_digit b; z ← hex_digit c; w ← hex_digit d;
  Some (((x * 16 + y) * 16 + z) * 16 + w)%N.

Definition utf8 (cp : N) : string :=
  (if cp <? 128 then String (ascii_of_N cp) EmptyString
   else if cp <? 2048 then
     String (ascii_of_N (192 + cp / 64))
       (String (ascii_of_N (128 + cp mod 64)) EmptyString)
   else
     String (ascii_of_N (224 + cp / 4096))
       (String (ascii_of_N (128 + (cp / 64) mod 64))
          (String (ascii_of_N (128 + cp mod 64)) EmptyString)))%N.

(** The one-character escapes. *)
Definition read_escape (e : ascii) : option ascii :=
  match e with
  | "034" => Some "034" | "\" => Some "\" | "/" => Some "/"
  | "b" => Some "008" | "f" => Some "012" | "n" => Some "010"
  | "r" => Some "013" | "t" => Some "009"
  | _ => None
  end%char.

(** The characters of a string after its opening quote, up to the closing
    quote: escapes are decoded, and a control character or a backslash that
    begins no escape ends the reading with [None]. *)
Fixpoint read_chars (s : string) : option (string * string) :=
  match s with
  | EmptyString => None
  | String a s' =>
      if Ascii.eqb a "034" then Some (EmptyString, s')
      else if Ascii.eqb a "\" then
        match s' with
        | String "u" (String h1 (String h2 (String h3 (String h4 r)))) =>
            match hex4 h1 h2 h3 h4, read_chars r with
            | Some cp, Some (x, r') => Some (utf8 cp +:+ x, r')
            | _, _ => None
            end
        | String e r =>
            match read_escape e, read_chars r with
            | Some c, Some (x, r') => Some (String c x, r')
            | _, _ => None
            end
        | EmptyString => None
        end
      else if (N_of_ascii a <? 32)%N then None
      else match read_chars s' with
           | Some (x, r) => Some (String a x, r)
           | None => None
           end
  end.

(** A value that begins at the head of [s]; the elements of an array after
    its opening bracket, up to the closing bracket; the members of an object
    after its opening brace, up to the closing brace.  Each call reads at
    least one character or passes to a call that does, so twice the length
    of the text is fuel enough. *)
Fixpoint read_value (fuel : nat) (s : string) {struct fuel}
    : option (Json * string) :=
  match fuel with
  | O => None
  | S fuel =>
      match s with
      | EmptyString => None
      | String a r =>
          if Ascii.eqb a "{" then
            match skip_ws r with
            | String "}" r' => Some (JsonObject [], r')
            | r' => p ← read_members fuel r'; Some (JsonObject (fst p), snd p)
            end
          else if Ascii.eqb a "[" then
            match skip_ws r with
            | String "]" r' => Some (JsonArray [], r')
            | r' => p ← read_elements fuel r'; Some (JsonArray (fst p), snd p)
            end
          else if Ascii.eqb a "034" then
            p ← read_chars r; Some (JsonString (fst p), snd p)
          else if Ascii.eqb a "t" then
            r' ← strip_prefix "rue" r; Some (JsonBool true, r')
          else if Ascii.eqb a "f" then
            r' ← strip_prefix "alse" r; Some (JsonBool false, r')
          else if Ascii.eqb a "n" then
            r' ← strip_prefix "ull" r; Some (JsonNull, r')
          else
            p ← read_number s; Some (JsonNumber (fst p), snd p)
      end
  end
with read_elements (fuel : nat) (s : string) {struct fuel}
    : option (list Json * string) :=
  match fuel with
  | O => None
  | S fuel =>
      v ← read_value fuel s;
      match skip_ws (snd v) with
      | String "," r =>
          p ← read_elements fuel (skip_ws r); Some (fst v :: fst p, snd p)
      | String "]" r => Some ([fst v], r)
      | _ => None
      end
  end
with read_members (fuel : nat) (s : string) {struct fuel}
    : option (list (string * Json) * string) :=
  match fuel with
  | O => None
  | S fuel =>
      match s with
      | String "034" r =>
          k ← read_chars r;
          match skip_ws (snd k) with
          | String ":" r1 =>
              v ← read_value fuel (skip_ws r1);
              match skip_ws (snd v) with
              | String "," r2 =>
                  p ← read_members fuel (skip_ws r2);
                  Some ((fst k, fst v) :: fst p, snd p)
              | String "}" r2 => Some ([(fst k, fst v)], r2)
              | _ => None
              end
          | _ => None
          end
      | _ => None
      end
  end.

(** A JSON text: one value between optional whitespace, and nothing
    else. *)
Definition json_read_fuel (fuel : nat) (s : string) : option Json :=
  match read_value fuel (skip_ws s) with
  | Some (v, r) =>
      match skip_ws r with
      | EmptyString => Some v
      | _ => None
      end
  | None => None
  end.

Definition json_read (s : string) : option Json :=
  json_read_fuel (2 * String.length s + 2) s.

(** The JSON value a report is meant to denote for a registry: an array
    with one object per chip in list order, each with the array of its line
    objects in list order. *)
Definition status_json_line (g : GPIO) : Json :=
  JsonObject [("line", JsonNumber (fmt_d (line_num g)));
              ("name", JsonString (shown_line_name g));
              ("var", JsonString (fmt_s (name g)))].

Definition status_json_chip (c : GPIOChip) : Json :=
  JsonObject [("chip", JsonString (chip_name c));
              ("lines", JsonArray (map status_json_line (chip_lines c)))].

Definition status_json (st : GPIOCtrlState) : Json :=
  JsonArray (map status_json_chip (chips st)).

(** A name whose bytes a JSON string holds as they are: no double quote, no
    backslash, no control character. *)
Definition plain_char (a : ascii) : bool :=
  negb (Ascii.eqb a "034") && negb (Ascii.eqb a "\")
  && negb (N_of_ascii a <? 32)%N.

Fixpoint plain_name (s : string) : bool :=
  match s with
  | EmptyString => true
  | String a s' => plain_char a && plain_name s'
  end.

(** In a comma-separated rendering, what follows the first item. *)
Fixpoint tail_items {X} (r : X -> string) (xs : list X) : string :=
  match xs with
  | [] => EmptyString
  | x :: xs' => "," +:+ r x +:+ tail_items r xs'
  end.

(** Every descriptor holds a hardware line and a valid variable handle, and
    every monitored line is the line of a descriptor. *)
Definition registry_ok (st : GPIOCtrlState) : Prop :=
  Forall (fun g => pLine g <> NULL /\ hVar g <> VAR_INVALID) (all_lines st) /\
  Forall (fun l => In l (map pLine (all_lines st))) (monitoredLines st).

(** ** More observations of a run *)

(** The variables written during a run, with what was written. *)
Definition var_writes (t : list Call) : list (Z * VarObject) :=
  omap (fun c => match c with
                 | call_VAR_Set h v => Some (h, v)
                 | _ => None
                 end) t.

(** The notifications asked of the variable server: variable and kind. *)
Definition var_notifies (t : list Call) : list (Z * Z) :=
  omap (fun c => match c with
                 | call_VAR_Notify h k => Some (h, k)
                 | _ => None
                 end) t.

(** The lines whose edge events were read, and the lines whose level was
    read. *)
Definition event_reads (t : list Call) : list Z :=
  omap (fun c => match c with
                 | call_gpiod_line_event_read l => Some l
                 | _ => None
                 end) t.

Definition level_reads (t : list Call) : list Z :=
  omap (fun c => match c with
                 | call_gpiod_line_get_value l => Some l
                 | _ => None
                 end) t.

(** The lines on which a PWM thread was started. *)
Definition threads_started (t : list Call) : list Z :=
  omap (fun c => match c with
                 | call_pthread_create l => Some l
                 | _ => None
                 end) t.

(** The line objects the chips handed out (the calls to
    [gpiod_chip_get_line] that did not answer [NULL]), and the line objects
    given to [gpiod_line_release]. *)
Definition lines_obtained (t : list Call) : list Z :=
  omap (fun c => match c with
                 | call_gpiod_chip_get_line chip n =>
                     let l := env_gpiod_chip_get_line env chip n in
                     if l =? NULL then None else Some l
                 | _ => None
                 end) t.

Definition lines_released (t : list Call) : list Z :=
  omap (fun c => match c with
                 | call_gpiod_line_release l => Some l
                 | _ => None
                 end) t.

(** The chips opened (the calls to [gpiod_chip_open] that did not answer
    [NULL]) and the chips closed. *)
Definition chips_opened (t : list Call) : list Z :=
  omap (fun c => match c with
                 | call_gpiod_chip_open path =>
                     let chip := env_gpiod_chip_open env path in
                     if chip =? NULL then None else Some chip
                 | _ => None
                 end) t.

Definition chips_closed (t : list Call) : list Z :=
  omap (fun c => match c with
                 | call_gpiod_chip_close chip => Some chip
                 | _ => None
                 end) t.

(** The time slept during a run, in microseconds. *)
Definition slept (t : list Call) : Z :=
  foldr Z.add 0 (omap (fun c => match c with
                                | call_usleep d => Some d
                                | _ => None
                                end) t).

(** The registry with every [value] field put to zero: what is left of a
    state when the levels and duties last stored are disregarded. *)
Definition forget_values (st : GPIOCtrlState) : GPIOCtrlState :=
  set_chips st
    (map (fun c => set_chip_lines c (map (fun g => set_value g 0) (chip_lines c)))
         (chips st)).

(** The chip descriptor [CreateChip] links for a chip definition, when it
    links one: the name is there, the chip opens and memory is left. *)
Definition created_chip (pNode : JNode) : option GPIOChip :=
  match JSON_GetStr pNode "chip" with
  | Some chipName =>
      let chip := env_gpiod_chip_open env ("/dev/" +:+ chipName) in
      if (chip =? NULL) || negb (env_calloc_GPIOChip env chip) then None
      else Some (mkGPIOChip chipName chip [])
  | None => None
  end.

(** A computation keeps [I] when, from a state and a log of earlier calls
    that satisfy [I], it ends in a state that satisfies [I] with the log its
    own calls have extended. *)
Definition keeps {S A} (I : S -> list Call -> Prop) (m : M S A) : Prop :=
  forall s t, I s t -> I (state_of (m s)) (t ++ calls_of (m s)).

(** The line objects in hand: no descriptor holds a null line, and every
    line object obtained so far has been released or is held by a descriptor
    of the registry, as many times as it was obtained. *)
Definition lines_in_hand (st : GPIOCtrlState) (t : list Call) : Prop :=
  Forall (fun g => pLine g <> NULL) (all_lines st) /\
  lines_obtained t ≡ₚ lines_released t ++ map pLine (all_lines st).

(** The chips in hand, likewise. *)
Definition chips_in_hand (st : GPIOCtrlState) (t : list Call) : Prop :=
  Forall (fun c => pChip c <> NULL) (chips st) /\
  chips_opened t ≡ₚ chips_closed t ++ map pChip (chips st).

(** The calls a process in watch mode may make while it runs on the
    registry [st]: reads of edge events, and writes of a UINT16 0 or 1 to
    the variable of a descriptor. *)
Definition watch_mode_call (st : GPIOCtrlState) (c : Call) : Prop :=
  match c with
  | call_gpiod_line_event_read _ => True
  | call_VAR_Set h v =>
      (exists g, In g (all_lines st) /\ hVar g = h) /\
      var_type v = VARTYPE_UINT16 /\ (val_ui v = 0 \/ val_ui v = 1)
  | _ => False
  end.

(** The calls the main thread of a process in signal mode may make inside
    [run] on the registry [st] (the PWM threads are apart): reads of
    variables, writes of 0 or 1 to an output line of
    the registry that is not a PWM output, reads of the level of an input
    line of the registry, writes of a UINT16 0 or 1 to a variable, and what
    a status report takes. *)
Definition signal_mode_call (st : GPIOCtrlState) (c : Call) : Prop :=
  match c with
  | call_VAR_Get _ => True
  | call_gpiod_line_set_value l v =>
      (v = 0 \/ v = 1) /\
      exists g, In g (all_lines st) /\ pLine g = l /\
                direction g = GPIOD_LINE_DIRECTION_OUTPUT /\ PWM g = false
  | call_gpiod_line_get_value l =>
      exists g, In g (all_lines st) /\ pLine g = l /\
                direction g = GPIOD_LINE_DIRECTION_INPUT
  | call_VAR_Set h v =>
      var_type v = VARTYPE_UINT16 /\ (val_ui v = 0 \/ val_ui v = 1)
  | call_syslog _ => True
  | call_VAR_OpenPrintSession _ => True
  | call_VAR_ClosePrintSession _ _ => True
  | call_gpiod_line_name _ => True
  | call_write _ _ => True
  | _ => False
  end.

(** The calls binding may make in a process whose operating mode is [watch]
    and whose service name is [svc]: lookups of variables, reads of
    variables, opening and closing of chips, getting and releasing of
    lines, messages on the standard output; line requests, with no flag,
    under the service name, for an edge subscription in watch mode and for
    a direction (or for nothing, 0) in signal mode; and, in signal mode
    only, notifications of the calc and modified kinds and the start of PWM
    threads. *)
Definition binding_call (watch : bool) (svc : option string) (c : Call) : Prop :=
  match c with
  | call_VAR_FindByName _ | call_VAR_Get _ | call_printf _
  | call_gpiod_chip_open _ | call_gpiod_chip_close _
  | call_gpiod_chip_get_line _ _ | call_gpiod_line_release _ => True
  | call_gpiod_line_request l cfg v =>
      flags cfg = 0 /\ consumer cfg = svc /\ svc <> None /\
      if watch
      then request_type cfg <> 0 /\
           (request_type cfg = GPIOD_LINE_REQUEST_EVENT_RISING_EDGE \/
            request_type cfg = GPIOD_LINE_REQUEST_EVENT_FALLING_EDGE \/
            request_type cfg = GPIOD_LINE_REQUEST_EVENT_BOTH_EDGES)
      else request_type cfg = 0 \/
           request_type cfg = GPIOD_LINE_REQUEST_DIRECTION_INPUT \/
           request_type cfg = GPIOD_LINE_REQUEST_DIRECTION_OUTPUT
  | call_VAR_Notify h k =>
      watch = false /\ (k = NOTIFY_CALC \/ k = NOTIFY_MODIFIED)
  | call_pthread_create _ => watch = false
  | _ => False
  end.

(** The array of monitored lines is within its bound, and every monitored
    line is the line of a descriptor with an edge subscription. *)
Definition monitored_ok (st : GPIOCtrlState) : Prop :=
  Z.of_nat (length (monitoredLines st)) <= GPIOD_LINE_BULK_MAX_LINES /\
  Forall (fun l => exists g, In g (all_lines st) /\ pLine g = l /\
                             event_type g <> 0)
         (monitoredLines st).

(** The calls a whole process may make, from start to shutdown, when its
    operating mode is [watch] and its service name [svc].  In either mode:
    messages, lookups and reads of variables, writes of a UINT16 0 or 1 to
    variables, opening and closing of chips, getting and releasing of lines,
    and line requests as in [binding_call].  In watch mode only: reads of
    edge events.  In signal mode only: writes of 0 or 1 to lines, reads of
    levels, notifications, PWM threads, print sessions and the log of the
    system. *)
Definition process_call (watch : bool) (svc : option string) (c : Call) : Prop :=
  match c with
  | call_VAR_FindByName _ | call_VAR_Get _ | call_printf _ | call_write _ _
  | call_gpiod_chip_open _ | call_gpiod_chip_close _
  | call_gpiod_chip_get_line _ _ | call_gpiod_line_release _ => True
  | call_VAR_Set h v =>
      var_type v = VARTYPE_UINT16 /\ (val_ui v = 0 \/ val_ui v = 1)
  | call_gpiod_line_request l cfg v =>
      binding_call watch svc (call_gpiod_line_request l cfg v)
  | call_gpiod_line_event_read _ => watch = true
  | call_gpiod_line_set_value _ v => watch = false /\ (v = 0 \/ v = 1)
  | call_VAR_Notify h k =>
      watch = false /\
      (k = NOTIFY_CALC \/ k = NOTIFY_MODIFIED \/ k = NOTIFY_PRINT)
  | call_gpiod_line_get_value _ | call_pthread_create _
  | call_VAR_OpenPrintSession _ | call_VAR_ClosePrintSession _ _
  | call_gpiod_line_name _ | call_syslog _ => watch = false
  | call_sigprocmask_block _ | call_usleep _ => False
  end.

(** The calls of a shutdown, chip by chip: the release of every line held,
    then the closing of the chip when one is held. *)
Definition shutdown_calls (cs : list GPIOChip) : list Call :=
  concat (map (fun c =>
                 map call_gpiod_line_release
                     (List.filter (fun l => negb (l =? NULL))
                                  (map pLine (chip_lines c))) ++
                 (if pChip c =? NULL then []
                  else [call_gpiod_chip_close (pChip c)]))
              cs).

(** Messages: what goes to the standard output or to a file descriptor. *)
Definition message_call (c : Call) : Prop :=
  match c with
  | call_printf _ | call_write _ _ => True
  | _ => False
  end.

(** The state of a process that was given arguments, when
    [VARSERVER_Open] has returned; the configuration array it then binds;
    and the messages up to that point. *)
Definition started_state (inv : Invocation) : GPIOCtrlState :=
  let s1 := set_service zero_state (Some (argv0 inv)) in
  let s2 := if (argv0 inv =? "gpiowatch")%string
            then set_gpiowatch s1 true else s1 in
  set_hVarServer
    (state_of (ProcessOptions (argv0 inv) (getopt_results inv) s2))
    (VARSERVER_Open inv).

Definition started_gpiodef (inv : Invocation) : option JNode :=
  match JSON_Process inv (pFileName (started_state inv)) with
  | Some c => JSON_Find c "gpiodef"
  | None => None
  end.

Definition startup_calls (inv : Invocation) : list Call :=
  let s1 := set_service zero_state (Some (argv0 inv)) in
  let s2 := if (argv0 inv =? "gpiowatch")%string
            then set_gpiowatch s1 true else s1 in
  [call_printf ("Starting " +:+ argv0 inv +:+ nl)] ++
  calls_of (ProcessOptions (argv0 inv) (getopt_results inv) s2) ++
  (if verbose (started_state inv)
   then [call_printf
           (JSON_Print inv (JSON_Process inv (pFileName (started_state inv))));
         call_printf nl]
   else []).

(** * Properties *)

Ltac run_monad :=
  unfold bind, ret, get, put, modify, emit, VAR_Get, VAR_Set, VAR_Notify,
    gpiod_line_set_value, gpiod_line_get_value, gpiod_line_event_read,
    gpiod_line_request, result_of, state_of, calls_of; simpl.

Ltac run_proj :=
  repeat match goal with
         | |- context [state_of (?a, ?s, ?t)] =>
             change (state_of (a, s, t)) with s
         | |- context [calls_of (?a, ?s, ?t)] =>
             change (calls_of (a, s, t)) with t
         | |- context [result_of (?a, ?s, ?t)] =>
             change (result_of (a, s, t)) with a
         end.

(** ** Lookups *)

Lemma FindGPIO_lines_found h ls i j :
  FindGPIO_lines h ls i = Some j ->
  exists g, (i <= j)%nat /\ ls !! (j - i)%nat = Some g /\ hVar g = h.
Proof.
  revert i. induction ls as [|g ls IH]; intros i Hf; simpl in Hf.
  - discriminate.
  - destruct (hVar g =? h) eqn:E.
    + inversion Hf; subst. exists g. rewrite Nat.sub_diag.
      split; [lia | split; [reflexivity | now apply Z.eqb_eq]].
    + destruct (IH _ Hf) as (g' & Hle & Hl & Hh).
      exists g'. split; [lia | split; [| exact Hh]].
      replace (j - i)%nat with (S (j - S i)) by lia. exact Hl.
Qed.

Lemma FindGPIO_chips_found h cs ci r :
  FindGPIO_chips h cs ci = Some r ->
  exists c g, (ci <= fst r)%nat /\ cs !! (fst r - ci)%nat = Some c /\
              chip_lines c !! snd r = Some g /\ hVar g = h.
Proof.
  revert ci. induction cs as [|c cs IH]; intros ci Hf; simpl in Hf.
  - discriminate.
  - destruct (FindGPIO_lines h (chip_lines c) 0) as [li|] eqn:E.
    + inversion Hf; subst; simpl.
      destruct (FindGPIO_lines_found _ _ _ _ E) as (g & _ & Hl & Hh).
      exists c, g. rewrite Nat.sub_diag. rewrite Nat.sub_0_r in Hl.
      split; [lia | split; [reflexivity | split; assumption]].
    + destruct (IH _ Hf) as (c' & g & Hle & Hc & Hl & Hh).
      exists c', g. split; [lia | split; [| split; assumption]].
      replace (fst r - ci)%nat with (S (fst r - S ci)) by lia. exact Hc.
Qed.

(** What [FindGPIO] returns points at a descriptor bound to the variable. *)
Lemma FindGPIO_found st h r :
  FindGPIO st h = Some r ->
  h <> VAR_INVALID /\ exists g, deref st r = Some g /\ hVar g = h.
Proof.
  unfold FindGPIO. destruct (h =? VAR_INVALID) eqn:E; [discriminate|].
  intros Hf. split; [now apply Z.eqb_neq|].
  destruct (FindGPIO_chips_found _ _ _ _ Hf) as (c & g & _ & Hc & Hl & Hh).
  exists g. unfold deref. rewrite Nat.sub_0_r in Hc. rewrite Hc. auto.
Qed.

Lemma FindGPIO_lines_absent h ls i :
  (forall g, In g ls -> hVar g <> h) -> FindGPIO_lines h ls i = None.
Proof.
  revert i. induction ls as [|g ls IH]; intros i Hno; [reflexivity|].
  cbn [FindGPIO_lines].
  assert (Hg : (hVar g =? h) = false)
    by (apply Z.eqb_neq, Hno; left; reflexivity).
  rewrite Hg. apply IH. intros g' Hin. apply Hno. right. exact Hin.
Qed.

Lemma FindGPIO_lines_nodup ls : forall i k g,
  NoDup (map hVar ls) -> ls !! k = Some g ->
  FindGPIO_lines (hVar g) ls i = Some (i + k)%nat.
Proof.
  induction ls as [|g0 ls IH]; intros i k g Hnd Hk; [discriminate|].
  cbn [map] in Hnd. apply NoDup_cons in Hnd as [Hnotin Hnd].
  destruct k as [|k]; cbn in Hk.
  - injection Hk as ->. cbn [FindGPIO_lines]. rewrite Z.eqb_refl.
    f_equal. lia.
  - cbn [FindGPIO_lines].
    assert (Hne : (hVar g0 =? hVar g) = false).
    { apply Z.eqb_neq. intros Heq. apply Hnotin. rewrite Heq.
      apply list_elem_of_In, in_map, list_elem_of_In.
      eapply list_elem_of_lookup_2. exact Hk. }
    rewrite Hne, (IH (S i) k g Hnd Hk). f_equal. lia.
Qed.

Lemma FindGPIO_chips_nodup cs : forall base ci li c g,
  NoDup (map hVar (concat (map chip_lines cs))) ->
  cs !! ci = Some c -> chip_lines c !! li = Some g ->
  FindGPIO_chips (hVar g) cs base = Some ((base + ci)%nat, li).
Proof.
  induction cs as [|c0 cs IH]; intros base ci li c g Hnd Hc Hl; [discriminate|].
  cbn [map concat] in Hnd. rewrite map_app in Hnd.
  apply NoDup_app in Hnd as (Hnd0 & Hdisj & Hnd1).
  destruct ci as [|ci]; cbn in Hc.
  - injection Hc as ->. cbn [FindGPIO_chips].
    rewrite (FindGPIO_lines_nodup _ 0%nat li g Hnd0 Hl). cbn.
    f_equal. f_equal. lia.
  - cbn [FindGPIO_chips].
    rewrite FindGPIO_lines_absent.
    + rewrite (IH (S base) ci li c g Hnd1 Hc Hl). f_equal. f_equal. lia.
    + intros g' Hin Heq. apply (Hdisj (hVar g')).
      * apply list_elem_of_In, in_map. exact Hin.
      * rewrite Heq. apply list_elem_of_In, in_map, in_concat.
        exists (chip_lines c). split.
        -- apply in_map, list_elem_of_In.
           eapply list_elem_of_lookup_2. exact Hc.
        -- apply list_elem_of_In. eapply list_elem_of_lookup_2. exact Hl.
Qed.

(** When no two lines are bound to the same variable, the lookup of a
    line's variable finds that very line. *)
Lemma FindGPIO_of_bound_line st r g :
  NoDup (map hVar (all_lines st)) ->
  deref st r = Some g ->
  hVar g <> VAR_INVALID ->
  FindGPIO st (hVar g) = Some r.
Proof.
  intros Hnd Hd Hh. unfold FindGPIO.
  apply Z.eqb_neq in Hh. rewrite Hh.
  unfold deref in Hd. destruct (chips st !! fst r) as [c|] eqn:Hc; [|discriminate].
  rewrite (FindGPIO_chips_nodup (chips st) 0%nat (fst r) (snd r) c g Hnd Hc Hd).
  destruct r; reflexivity.
Qed.

(** ** [UpdateOutput] *)

(** The run of [UpdateOutput] on an output line whose variable reads as a
    UINT16: the PWM branch and the plain branch. *)
Lemma UpdateOutput_run st h r g var :
  FindGPIO st h = Some r ->
  deref st r = Some g ->
  direction g = GPIOD_LINE_DIRECTION_OUTPUT ->
  env_VAR_Get env h = (EOK, var) ->
  var_type var = VARTYPE_UINT16 ->
  UpdateOutput env h st =
    if PWM g then
      (EINVAL,
       store st r (set_value g (if uint16 (val_ui var) <=? 255
                                then uint16 (val_ui var) else 255)),
       [call_VAR_Get h])
    else
      let v := if uint16 (val_ui var) >? 0 then 1 else 0 in
      let rc := fst (env_gpiod_line_set_value env (pLine g) v) in
      let errno := snd (env_gpiod_line_set_value env (pLine g) v) in
      let result := if rc =? EOK then EOK else errno in
      (EOK, store st r (set_value g v),
       [call_VAR_Get h; call_gpiod_line_set_value (pLine g) v] ++
       (if negb (result =? EOK)
        then [call_syslog ("UpdateOutput: " +:+ fmt_d result +:+ " "
                           +:+ env_strerror env result)]
        else [])).
Proof.
  intros Hf Hd Hdir Hget Hty.
  destruct (FindGPIO_found _ _ _ Hf) as (Hne & _).
  unfold UpdateOutput, at_ref.
  apply Z.eqb_neq in Hne. rewrite Hne.
  run_monad. rewrite Hf, Hd, Hdir, Z.eqb_refl, Hget. simpl.
  rewrite Z.eqb_refl, Hty, Z.eqb_refl.
  destruct (PWM g); simpl; [reflexivity|].
  destruct (negb _); reflexivity.
Qed.

(** A descriptor stored at a valid pointer is read back, and no other
    descriptor is affected. *)
Lemma deref_store_same st r g g' :
  deref st r = Some g -> deref (store st r g') r = Some g'.
Proof.
  unfold deref, store; simpl. intros H.
  destruct (chips st !! fst r) as [c|] eqn:Hc; [|discriminate].
  rewrite list_lookup_alter_eq, Hc; simpl.
  apply list_lookup_insert_eq. eapply lookup_lt_Some; eauto.
Qed.

Lemma deref_store_other st r r' g' :
  r' <> r -> deref (store st r g') r' = deref st r'.
Proof.
  unfold deref, store; simpl. intros Hne.
  destruct (decide (fst r = fst r')) as [Heq|Hneq].
  - rewrite <- Heq, list_lookup_alter_eq.
    destruct (chips st !! fst r) as [c|]; simpl; [|reflexivity].
    apply list_lookup_insert_ne. intros Hs. apply Hne.
    destruct r, r'; simpl in *; congruence.
  - rewrite list_lookup_alter_ne by exact Hneq. reflexivity.
Qed.

Lemma store_same st r g : deref st r = Some g -> store st r g = st.
Proof.
  unfold deref, store. intros H.
  destruct (chips st !! fst r) as [c|] eqn:Hc; [|discriminate].
  assert (Hal : alter (fun c => set_chip_lines c (<[snd r:=g]> (chip_lines c)))
                  (fst r) (chips st) = chips st).
  { apply list_eq. intros i. destruct (decide (i = fst r)) as [->|Hne].
    - rewrite list_lookup_alter_eq, Hc; simpl. f_equal.
      rewrite list_insert_id by exact H. destruct c; reflexivity.
    - rewrite list_lookup_alter_ne by congruence. reflexivity. }
  rewrite Hal. destruct st; reflexivity.
Qed.

Lemma uint16_small V : 0 <= V < 65536 -> uint16 V = V.
Proof. intros H. unfold uint16. apply Z.mod_small. exact H. Qed.

(** The dispatch of [WaitVarSignal]: a modified signal runs [UpdateOutput]
    and a calc signal runs [UpdateInput]; their results are dropped. *)
Lemma WaitVarSignal_modified h st :
  WaitVarSignal env SIG_VAR_MODIFIED h st
  = (EOK, state_of (UpdateOutput env h st), calls_of (UpdateOutput env h st)).
Proof.
  unfold WaitVarSignal. rewrite Z.eqb_refl.
  unfold bind, ret, state_of, calls_of.
  destruct (UpdateOutput env h st) as [[rc s1] t1]. cbn [fst snd].
  rewrite app_nil_r. reflexivity.
Qed.

Lemma WaitVarSignal_calc h st :
  WaitVarSignal env SIG_VAR_CALC h st
  = (EOK, state_of (UpdateInput env h st), calls_of (UpdateInput env h st)).
Proof.
  unfold WaitVarSignal.
  pose proof calc_not_modified as Hne. apply Z.eqb_neq in Hne.
  rewrite Hne, Z.eqb_refl.
  unfold bind, ret, state_of, calls_of.
  destruct (UpdateInput env h st) as [[rc s1] t1]. cbn [fst snd].
  rewrite app_nil_r. reflexivity.
Qed.

(** C1: for the output, non-PWM line that variable [h] is bound to, a
    modified event whose variable reads as the UINT16 [V] makes exactly one
    hardware write, to that line, of 1 when [V] is not zero and of 0 when
    it is. *)
Theorem UpdateOutput_writes_level_once st h r g len V :
  FindGPIO st h = Some r ->
  deref st r = Some g ->
  direction g = GPIOD_LINE_DIRECTION_OUTPUT ->
  PWM g = false ->
  env_VAR_Get env h = (EOK, mkVarObject VARTYPE_UINT16 len V) ->
  0 <= V < 65536 ->
  hw_writes (calls_of (UpdateOutput env h st))
    = [(pLine g, if V =? 0 then 0 else 1)] /\
  hw_writes (calls_of (WaitVarSignal env SIG_VAR_MODIFIED h st))
    = [(pLine g, if V =? 0 then 0 else 1)].
Proof.
  intros Hf Hd Hdir Hpwm Hget HV.
  rewrite WaitVarSignal_modified. unfold calls_of at 2. cbn [snd].
  cut (hw_writes (calls_of (UpdateOutput env h st))
       = [(pLine g, if V =? 0 then 0 else 1)]); [intros H; split; exact H|].
  rewrite (UpdateOutput_run st h r g _ Hf Hd Hdir Hget eq_refl).
  rewrite Hpwm. cbn [val_ui]. rewrite (uint16_small V HV).
  replace (V >? 0) with (negb (V =? 0))
    by (destruct (Z.eqb_spec V 0); destruct (Z.gtb_spec V 0); simpl; lia).
  unfold calls_of; cbn [snd hw_writes app].
  destruct (V =? 0); cbn [negb]; destruct (negb _); reflexivity.
Qed.

(** C4: on a PWM line a modified event whose variable reads as the UINT16
    [V] stores min(V,255) in the descriptor's value field, leaves every
    other field and every other descriptor as it was, and writes nothing to
    a hardware line. *)
Theorem UpdateOutput_pwm_stores_clamped_duty st h r g len V :
  FindGPIO st h = Some r ->
  deref st r = Some g ->
  direction g = GPIOD_LINE_DIRECTION_OUTPUT ->
  PWM g = true ->
  env_VAR_Get env h = (EOK, mkVarObject VARTYPE_UINT16 len V) ->
  0 <= V < 65536 ->
  let st' := state_of (UpdateOutput env h st) in
  deref st' r = Some (mkGPIO (pLine g) (hVar g) (line_num g) (name g)
                             (Z.min V 255) (direction g) (PWM g)
                             (event_type g) (request g)) /\
  (forall r', r' <> r -> deref st' r' = deref st r') /\
  hw_writes (calls_of (UpdateOutput env h st)) = [].
Proof.
  intros Hf Hd Hdir Hpwm Hget HV st'. subst st'.
  rewrite (UpdateOutput_run st h r g _ Hf Hd Hdir Hget eq_refl).
  rewrite Hpwm. cbn [val_ui]. rewrite (uint16_small V HV).
  unfold state_of, calls_of; cbn [fst snd hw_writes].
  replace (if V <=? 255 then V else 255) with (Z.min V 255)
    by (destruct (Z.leb_spec V 255); lia).
  split; [|split].
  - rewrite (deref_store_same _ _ _ _ Hd). unfold set_value.
    rewrite Hpwm. reflexivity.
  - intros r' Hne. apply deref_store_other. exact Hne.
  - reflexivity.
Qed.

(** C10: on an output, non-PWM line whose variable reads as a UINT16, a
    failing hardware write does not show in the result of [UpdateOutput]:
    the result is [EOK], the value field of the descriptor holds the new
    0/1 (1 when the variable is not zero, 0 when it is) while every other
    field is as it was, and the only trace of the failure is the syslog
    line. *)
Theorem UpdateOutput_hides_write_failure st h r g len V rc errno :
  FindGPIO st h = Some r ->
  deref st r = Some g ->
  direction g = GPIOD_LINE_DIRECTION_OUTPUT ->
  PWM g = false ->
  env_VAR_Get env h = (EOK, mkVarObject VARTYPE_UINT16 len V) ->
  0 <= V < 65536 ->
  env_gpiod_line_set_value env (pLine g) (if V =? 0 then 0 else 1)
    = (rc, errno) ->
  rc <> EOK ->
  result_of (UpdateOutput env h st) = EOK /\
  deref (state_of (UpdateOutput env h st)) r
    = Some (mkGPIO (pLine g) (hVar g) (line_num g) (name g)
                   (if V =? 0 then 0 else 1) (direction g) (PWM g)
                   (event_type g) (request g)) /\
  value <$> deref (state_of (UpdateOutput env h st)) r
    = Some (if V =? 0 then 0 else 1) /\
  calls_of (UpdateOutput env h st)
    = [call_VAR_Get h;
       call_gpiod_line_set_value (pLine g) (if V =? 0 then 0 else 1)]
      ++ (if errno =? EOK then []
          else [call_syslog ("UpdateOutput: " +:+ fmt_d errno +:+ " "
                             +:+ env_strerror env errno)]).
Proof.
  intros Hf Hd Hdir Hpwm Hget HV Hset Hrc.
  rewrite (UpdateOutput_run st h r g _ Hf Hd Hdir Hget eq_refl).
  rewrite Hpwm. cbn [val_ui]. rewrite (uint16_small V HV).
  replace (V >? 0) with (negb (V =? 0))
    by (destruct (Z.eqb_spec V 0); destruct (Z.gtb_spec V 0); simpl; lia).
  assert (Hb : (if negb (V =? 0) then 1 else 0) = (if V =? 0 then 0 else 1))
    by (destruct (V =? 0); reflexivity).
  cbv zeta. rewrite Hb, Hset. cbn [fst snd].
  apply Z.eqb_neq in Hrc. rewrite Hrc.
  unfold result_of, state_of, calls_of; cbn [fst snd].
  rewrite (deref_store_same _ _ _ _ Hd). unfold set_value.
  rewrite Hpwm.
  split; [reflexivity|split; [reflexivity|split; [reflexivity|]]].
  destruct (errno =? EOK); reflexivity.
Qed.

(** ** [UpdateInput] *)

(** C3: a query event for a variable bound to an input line makes one
    instantaneous read of that line and writes the level read, 1 when it is
    positive and 0 otherwise, into the variable as a UINT16 (a failed read,
    -1, is no level: nothing is written and the result is [EIO]); when the
    bound line is not an input there is no hardware read and no variable
    write, and the result is [ENOTSUP]. *)
Theorem UpdateInput_reads_line_writes_variable st h r g :
  FindGPIO st h = Some r ->
  deref st r = Some g ->
  let level := env_gpiod_line_get_value env (pLine g) in
  let var := mkVarObject VARTYPE_UINT16 2 (if level >? 0 then 1 else 0) in
  UpdateInput env h st
    = (if direction g =? GPIOD_LINE_DIRECTION_INPUT then
        if level =? -1
        then (EIO, st, [call_gpiod_line_get_value (pLine g)])
        else (env_VAR_Set env h var, st,
              [call_gpiod_line_get_value (pLine g); call_VAR_Set h var])
      else (ENOTSUP, st, [])) /\
  calls_of (WaitVarSignal env SIG_VAR_CALC h st)
    = calls_of (UpdateInput env h st).
Proof.
  intros Hf Hd level var. subst level var.
  split; [|rewrite WaitVarSignal_calc; reflexivity].
  destruct (FindGPIO_found _ _ _ Hf) as (Hne & _).
  apply Z.eqb_neq in Hne.
  unfold UpdateInput, at_ref. rewrite Hne.
  run_monad. rewrite Hf, Hd.
  destruct (direction g =? GPIOD_LINE_DIRECTION_INPUT); simpl.
  - destruct (env_gpiod_line_get_value env (pLine g) =? -1); simpl;
      rewrite (store_same _ _ _ Hd); reflexivity.
  - rewrite (store_same _ _ _ Hd). reflexivity.
Qed.

(** ** [FindVar] and [HandleGPIOEvent] *)

Lemma FindVar_lines_find l ls :
  FindVar_lines l ls = hVar <$> find (fun g => pLine g =? l) ls.
Proof.
  induction ls as [|g ls IH]; simpl; [reflexivity|].
  destruct (pLine g =? l); [reflexivity | exact IH].
Qed.

(** The reverse lookup returns the variable of the first descriptor, in
    chip-then-line order, that holds the hardware line. *)
Lemma FindVar_first st l :
  l <> NULL ->
  FindVar st l = match find (fun g => pLine g =? l) (all_lines st) with
                 | Some g => hVar g
                 | None => VAR_INVALID
                 end.
Proof.
  intros Hl. unfold FindVar, all_lines.
  apply Z.eqb_neq in Hl. rewrite Hl.
  induction (chips st) as [|c cs IH]; simpl; [reflexivity|].
  rewrite FindVar_lines_find.
  assert (Hfa : forall (a b : list GPIO) f,
             find f (a ++ b) = match find f a with
                               | Some x => Some x
                               | None => find f b
                               end).
  { intros a b f. induction a as [|x a IHa]; simpl; [reflexivity|].
    destruct (f x); [reflexivity | exact IHa]. }
  rewrite Hfa.
  destruct (find _ (chip_lines c)); simpl; [reflexivity | exact IH].
Qed.

(** ** [RequestLine] *)

(** The test of [RequestLine], in words. *)
Lemma request_due_spec watch ev :
  request_due watch ev = true <->
  (watch = true /\ ev <> 0) \/ (watch = false /\ ev = 0).
Proof.
  unfold request_due.
  destruct watch; simpl; destruct (Z.eqb_spec ev 0); simpl;
    split; intros H; try discriminate; try reflexivity; auto;
    destruct H as [[? ?]|[? ?]]; congruence.
Qed.

(** The run of [RequestLine] once the service name is set. *)
Lemma RequestLine_run pState svc g :
  service pState = Some svc ->
  let cfg := mkRequest (Some svc)
               (if event_type g =? 0 then request_type (request g)
                else event_type g) 0 in
  let g' := set_request g cfg in
  RequestLine env pState g =
    if request_due (gpiowatch pState) (event_type g) then
      let v := if PWM g then 0 else value g in
      let r := env_gpiod_line_request env (pLine g) cfg v in
      (if fst r =? -1 then snd r else EOK, g',
       [call_gpiod_line_request (pLine g) cfg v])
    else (EOK, g', []).
Proof.
  intros Hs cfg g'. subst cfg g'.
  unfold RequestLine. rewrite Hs. run_monad.
  destruct (event_type g =? 0) eqn:E; simpl; rewrite ?E;
    destruct (request_due (gpiowatch pState) (event_type g)); reflexivity.
Qed.


(** ** [PWMThread] *)

Lemma pwm_clamp_range v : 0 <= pwm_clamp v <= 255.
Proof.
  unfold pwm_clamp.
  destruct (Z.ltb_spec v 0); [lia|]. destruct (Z.gtb_spec v 255); lia.
Qed.

Lemma int32_small x : -2147483648 <= x < 2147483648 -> int32 x = x.
Proof.
  intros H. unfold int32. rewrite Z.mod_small by lia. lia.
Qed.

(** One turn of the loop, whatever the main thread stores during it: the
    high phase at the duty read for the on time, the low phase at the duty
    read for the off time, which is also what the field holds afterwards. *)
Lemma PWMThread_cycle_raw w g :
  PWMThread_cycle env w g
    = (tt, set_value g (off_duty w (value g)),
       (let t := int32 (on_duty w (value g) * 40) in
        if t >? 0 then [call_gpiod_line_set_value (pLine g) 1; call_usleep t]
        else []) ++
       (let t := int32 ((255 - off_duty w (value g)) * 40) in
        if t >? 0 then [call_gpiod_line_set_value (pLine g) 0; call_usleep t]
        else [])).
Proof.
  destruct g as [l hv ln nm v d pw ev rq].
  destruct w as [a b c d' e f].
  unfold PWMThread_cycle, off_duty, on_duty, store_value, usleep,
    gpiod_line_set_value.
  unfold bind, ret, get, modify, emit.
  cbn [before_low_test after_low_test before_high_test after_high_test
       before_on_time before_off_time].
  unfold set_value.
  destruct a as [a|], b as [b|], c as [c|], d' as [d'|], e as [e|],
    f as [f|];
    repeat (cbn [landed value pLine hVar line_num name direction PWM
                 event_type request fst snd app];
            match goal with
            | |- context [if ?x <? 0 then _ else _] => destruct (x <? 0)
            | |- context [if ?x >? 255 then _ else _] => destruct (x >? 255)
            | |- context [if int32 ?x >? 0 then _ else _] =>
                destruct (int32 x >? 0)
            end);
    reflexivity.
Qed.

Lemma on_duty_range w v : stores_in_range w -> 0 <= on_duty w v <= 255.
Proof.
  destruct w as [a b c d e f].
  intros (Ha & Hb & Hc & Hd & He & _). unfold on_duty.
  cbn [before_low_test after_low_test before_high_test after_high_test
       before_on_time before_off_time] in *.
  destruct a as [a|], b as [b|], c as [c|], d as [d|], e as [e|];
    cbn [landed duty_stored] in *;
    repeat match goal with
           | |- context [if ?x <? 0 then _ else _] =>
               destruct (Z.ltb_spec x 0)
           | |- context [if ?x >? 255 then _ else _] =>
               destruct (Z.gtb_spec x 255)
           end; lia.
Qed.

Lemma off_duty_range w v : stores_in_range w -> 0 <= off_duty w v <= 255.
Proof.
  intros Hw. pose proof (on_duty_range w v Hw) as Hon.
  destruct Hw as (_ & _ & _ & _ & _ & Hf). unfold off_duty.
  destruct (before_off_time w); cbn [landed duty_stored] in *; lia.
Qed.

Lemma pwm_high_in_range l D :
  0 <= D <= 255 ->
  (let t := int32 (D * 40) in
   if t >? 0 then [call_gpiod_line_set_value l 1; call_usleep t] else [])
  = pwm_high l D.
Proof.
  intros HD. cbv zeta. unfold pwm_high. rewrite int32_small by lia.
  destruct (Z.gtb_spec (D * 40) 0); destruct (Z.eqb_spec (D * 40) 0);
    try lia; reflexivity.
Qed.

Lemma pwm_low_in_range l D :
  0 <= D <= 255 ->
  (let t := int32 ((255 - D) * 40) in
   if t >? 0 then [call_gpiod_line_set_value l 0; call_usleep t] else [])
  = pwm_low l D.
Proof.
  intros HD. cbv zeta. unfold pwm_low. rewrite int32_small by lia.
  destruct (Z.gtb_spec ((255 - D) * 40) 0);
    destruct (Z.eqb_spec ((255 - D) * 40) 0); try lia; reflexivity.
Qed.

(** A turn during which the main thread stores duties only. *)
Lemma PWMThread_cycle_stores w g :
  stores_in_range w ->
  PWMThread_cycle env w g
    = (tt, set_value g (off_duty w (value g)),
       pwm_high (pLine g) (on_duty w (value g)) ++
       pwm_low (pLine g) (off_duty w (value g))).
Proof.
  intros Hw. rewrite PWMThread_cycle_raw.
  rewrite (pwm_high_in_range _ _ (on_duty_range w (value g) Hw)).
  rewrite (pwm_low_in_range _ _ (off_duty_range w (value g) Hw)).
  reflexivity.
Qed.

Lemma on_duty_no_stores v : on_duty no_stores v = pwm_clamp v.
Proof.
  unfold on_duty, pwm_clamp. cbn.
  destruct (Z.ltb_spec v 0); [reflexivity|reflexivity].
Qed.

Lemma no_stores_in_range : stores_in_range no_stores.
Proof. repeat split. Qed.

(** One PWM cycle left alone: the value is clamped, the two phases
    follow. *)
Lemma PWMThread_cycle_run g :
  PWMThread_cycle env no_stores g
    = (tt, set_value g (pwm_clamp (value g)),
       pwm_phases (pLine g) (pwm_clamp (value g))).
Proof.
  rewrite (PWMThread_cycle_stores _ _ no_stores_in_range).
  unfold off_duty. cbn [before_off_time no_stores landed].
  rewrite on_duty_no_stores. reflexivity.
Qed.

(** One PWM cycle that meets one store, of the duty [D2], between the read
    for the on time and the read for the off time. *)
Lemma PWMThread_cycle_store_in_high_phase g D2 :
  0 <= D2 <= 255 ->
  PWMThread_cycle env (store_in_high_phase D2) g
    = (tt, set_value g D2,
       pwm_high (pLine g) (pwm_clamp (value g)) ++ pwm_low (pLine g) D2).
Proof.
  intros HD.
  assert (Hw : stores_in_range (store_in_high_phase D2))
    by (repeat split; exact HD || apply HD).
  rewrite (PWMThread_cycle_stores _ _ Hw).
  unfold off_duty. cbn [before_off_time store_in_high_phase landed].
  change (on_duty (store_in_high_phase D2) (value g))
    with (on_duty no_stores (value g)).
  rewrite on_duty_no_stores. reflexivity.
Qed.

Lemma pwm_clamp_idem v : pwm_clamp (pwm_clamp v) = pwm_clamp v.
Proof.
  pose proof (pwm_clamp_range v) as H. revert H.
  generalize (pwm_clamp v) as D. intros D H. unfold pwm_clamp.
  destruct (Z.ltb_spec D 0); [lia|]. destruct (Z.gtb_spec D 255); [lia|].
  reflexivity.
Qed.

(** Left alone, the thread repeats the same cycle: [n] turns of the loop
    make [n] times the calls of one cycle. *)
Lemma PWMThread_loop_run n : forall g,
  PWMThread_loop env (replicate n no_stores) g
  = (tt, match n with O => g | S _ => set_value g (pwm_clamp (value g)) end,
     concat (replicate n (pwm_phases (pLine g) (pwm_clamp (value g))))).
Proof.
  induction n as [|n IH]; intros g; [reflexivity|].
  cbn [replicate PWMThread_loop]. unfold bind at 1.
  rewrite PWMThread_cycle_run, IH.
  cbn [pLine value set_value replicate concat].
  rewrite pwm_clamp_idem.
  destruct n; reflexivity.
Qed.

Lemma PWMThread_run n g :
  calls_of (PWMThread env (replicate n no_stores) g)
    = call_sigprocmask_block
        [SIG_VAR_MODIFIED; SIG_VAR_CALC; SIG_VAR_PRINT; SIG_VAR_VALIDATE]
      :: concat (replicate n (pwm_phases (pLine g) (pwm_clamp (value g)))).
Proof.
  unfold PWMThread, bind, emit. rewrite PWMThread_loop_run. reflexivity.
Qed.

(** C5: a cycle of the PWM task during which the main thread stores no
    duty clamps the stored value to D in [0,255], then drives the line high
    and sleeps D*40 microseconds when that duration is not zero, then
    drives it low and sleeps (255-D)*40 microseconds when that duration is
    not zero; at D = 0 such a cycle has no high phase and at D = 255 it has
    no low phase, and turns left alone repeat the cycle.  The off time is
    computed from the field read again: when the main thread stores the
    duty D2 after the on time is read, the low phase is that of D2 and lasts
    (255-D2)*40 microseconds, and the field holds D2 afterwards. *)
Theorem PWMThread_cycle_duty_phases g :
  let D := pwm_clamp (value g) in
  let l := pLine g in
  D = Z.max 0 (Z.min 255 (value g)) /\
  state_of (PWMThread_cycle env no_stores g) = set_value g D /\
  calls_of (PWMThread_cycle env no_stores g)
    = (if D * 40 =? 0 then []
       else [call_gpiod_line_set_value l 1; call_usleep (D * 40)]) ++
      (if (255 - D) * 40 =? 0 then []
       else [call_gpiod_line_set_value l 0; call_usleep ((255 - D) * 40)]) /\
  calls_of (PWMThread_cycle env no_stores (set_value g 0))
    = [call_gpiod_line_set_value l 0; call_usleep 10200] /\
  calls_of (PWMThread_cycle env no_stores (set_value g 255))
    = [call_gpiod_line_set_value l 1; call_usleep 10200] /\
  (forall n : nat,
     calls_of (PWMThread env (replicate n no_stores) g)
     = call_sigprocmask_block
         [SIG_VAR_MODIFIED; SIG_VAR_CALC; SIG_VAR_PRINT; SIG_VAR_VALIDATE]
       :: concat (replicate n (pwm_phases l D))) /\
  (forall D2 : Z, 0 <= D2 <= 255 ->
     state_of (PWMThread_cycle env (store_in_high_phase D2) g)
     = set_value g D2 /\
     calls_of (PWMThread_cycle env (store_in_high_phase D2) g)
     = (if D * 40 =? 0 then []
        else [call_gpiod_line_set_value l 1; call_usleep (D * 40)]) ++
       (if (255 - D2) * 40 =? 0 then []
        else [call_gpiod_line_set_value l 0;
              call_usleep ((255 - D2) * 40)])).
Proof.
  intros D l. subst D l. rewrite !PWMThread_cycle_run.
  unfold state_of, calls_of; cbn [fst snd].
  split.
  { unfold pwm_clamp. destruct (Z.ltb_spec (value g) 0); [lia|].
    destruct (Z.gtb_spec (value g) 255); lia. }
  split; [reflexivity|]. split; [reflexivity|].
  split; [reflexivity|]. split; [reflexivity|].
  split; [intros n; apply PWMThread_run|].
  intros D2 HD2. rewrite (PWMThread_cycle_store_in_high_phase _ _ HD2).
  split; reflexivity.
Qed.

(** ** The steps of [ParseLine] on one descriptor *)

Lemma set_flags_id g : set_flags g (flags (request g)) = g.
Proof. destruct g as [? ? ? ? ? ? ? ? [? ? ?]]. reflexivity. Qed.

Lemma ParseLineActiveState_frame pNode g :
  exists rc f, ParseLineActiveState pNode g = (rc, set_flags g f, []).
Proof.
  unfold ParseLineActiveState. run_monad.
  destruct (JSON_GetStr pNode "active_state") as [a|].
  - destruct (a =? "low")%string; [eexists _, _; reflexivity|].
    destruct (a =? "high")%string; [eexists _, _; reflexivity|].
    exists ENOTSUP, (flags (request g)). now rewrite set_flags_id.
  - exists EOK, (flags (request g)). now rewrite set_flags_id.
Qed.

Lemma ParseLineBias_frame pNode g :
  exists rc f, ParseLineBias pNode g = (rc, set_flags g f, []).
Proof.
  unfold ParseLineBias. run_monad.
  destruct (JSON_GetStr pNode "bias") as [a|].
  - destruct (a =? "disabled")%string; [eexists _, _; reflexivity|].
    destruct (a =? "pull-down")%string; [eexists _, _; reflexivity|].
    destruct (a =? "pull-up")%string; [eexists _, _; reflexivity|].
    exists ENOTSUP, (flags (request g)). now rewrite set_flags_id.
  - exists EOK, (flags (request g)). now rewrite set_flags_id.
Qed.

Lemma ParseLineDrive_frame pNode g :
  exists rc f, ParseLineDrive pNode g = (rc, set_flags g f, []).
Proof.
  unfold ParseLineDrive. run_monad.
  destruct (JSON_GetStr pNode "drive") as [a|].
  - destruct (a =? "push-pull")%string; [eexists _, _; reflexivity|].
    destruct (a =? "open-source")%string; [eexists _, _; reflexivity|].
    destruct (a =? "open-drain")%string; [eexists _, _; reflexivity|].
    exists ENOTSUP, (flags (request g)). now rewrite set_flags_id.
  - exists EOK, (flags (request g)). now rewrite set_flags_id.
Qed.

Lemma ParseLineEvent_run pNode g :
  ParseLineEvent pNode g
    = (result_of (ParseLineEvent pNode calloc_GPIO),
       set_event_type g (parsed_event pNode), []).
Proof.
  unfold parsed_event, ParseLineEvent. run_monad.
  destruct (JSON_GetStr pNode "event") as [a|]; [|reflexivity].
  destruct (a =? "RISING_EDGE")%string; [reflexivity|].
  destruct (a =? "FALLING_EDGE")%string; [reflexivity|].
  destruct (a =? "BOTH_EDGES")%string; reflexivity.
Qed.

(** An unrecognised direction: [ENOTSUP], and the descriptor is left as it
    was. *)
Lemma ParseLineDirection_unrecognised pState pNode g d :
  pLine g <> NULL ->
  JSON_GetStr pNode "direction" = Some d ->
  d <> "input" -> d <> "output" -> d <> "pwm" ->
  ParseLineDirection env pState pNode g = (ENOTSUP, g, []).
Proof.
  intros Hl Hd Hi Ho Hp. unfold ParseLineDirection. run_monad.
  apply Z.eqb_neq in Hl. rewrite Hl, Hd.
  apply String.eqb_neq in Hi, Ho, Hp. rewrite Hi, Ho, Hp. reflexivity.
Qed.

(** A missing direction is read as input. *)
Lemma ParseLineDirection_missing pState pNode g :
  pLine g <> NULL ->
  JSON_GetStr pNode "direction" = None ->
  ParseLineDirection env pState pNode g
    = (EOK,
       set_request_type (set_direction g GPIOD_LINE_DIRECTION_INPUT)
                        GPIOD_LINE_REQUEST_DIRECTION_INPUT,
       []).
Proof.
  intros Hl Hd. unfold ParseLineDirection. run_monad.
  apply Z.eqb_neq in Hl. rewrite Hl, Hd. reflexivity.
Qed.

(** Whatever the direction, [ParseLineDirection] keeps the identity of the
    descriptor and its event subscription, and asks the hardware for
    nothing. *)
Lemma ParseLineDirection_frame pState pNode g :
  let r := ParseLineDirection env pState pNode g in
  pLine (state_of r) = pLine g /\ hVar (state_of r) = hVar g /\
  line_num (state_of r) = line_num g /\ name (state_of r) = name g /\
  event_type (state_of r) = event_type g /\
  hw_requests (calls_of r) = [].
Proof.
  unfold ParseLineDirection, GetLineOutputValue. run_monad.
  repeat match goal with
         | |- context [if ?b then _ else _] => destruct b; simpl
         | |- context [match ?x with Some _ => _ | None => _ end] =>
             destruct x; simpl
         end; repeat split; reflexivity.
Qed.

Lemma hw_requests_app t1 t2 :
  hw_requests (t1 ++ t2) = hw_requests t1 ++ hw_requests t2.
Proof.
  induction t1 as [|c t1 IH]; [reflexivity|].
  destruct c; simpl; rewrite ?IH; reflexivity.
Qed.

(** The descriptor after the six steps, and the calls made: those of
    [ParseLineDirection], then the line request when it is due. *)
Lemma ParseLine_configure_run pState svc pNode g :
  service pState = Some svc ->
  let gd := state_of (ParseLineDirection env pState pNode g) in
  let ev := parsed_event pNode in
  let cfg := mkRequest (Some svc)
               (if ev =? 0 then request_type (request gd) else ev) 0 in
  let v := if PWM gd then 0 else value gd in
  ParseLine_configure pState pNode g
    = (tt, set_request (set_event_type gd ev) cfg,
       calls_of (ParseLineDirection env pState pNode g) ++
       (if request_due (gpiowatch pState) ev
        then [call_gpiod_line_request (pLine gd) cfg v]
        else [])).
Proof.
  intros Hs gd ev cfg v. subst gd ev cfg v.
  unfold ParseLine_configure, bind, state_of, calls_of.
  destruct (ParseLineDirection env pState pNode g) as [[rc0 gd] t0].
  cbn [fst snd].
  destruct (ParseLineActiveState_frame pNode gd) as (rc1 & f1 & E1).
  rewrite E1, ParseLineEvent_run.
  destruct (ParseLineBias_frame pNode
              (set_event_type (set_flags gd f1) (parsed_event pNode)))
    as (rc3 & f3 & E3).
  rewrite E3.
  destruct (ParseLineDrive_frame pNode
              (set_flags (set_event_type (set_flags gd f1)
                                         (parsed_event pNode)) f3))
    as (rc4 & f4 & E4).
  rewrite E4, (RequestLine_run pState svc _ Hs).
  cbv zeta. cbn [event_type set_flags set_event_type set_request request
                 request_type PWM value pLine consumer flags].
  destruct (request_due (gpiowatch pState) (parsed_event pNode));
    cbn [ret app]; rewrite ?app_nil_r; reflexivity.
Qed.

Lemma ParseLine_notify_frame pState g0 g :
  state_of (ParseLine_notify pState g0 g) = g /\
  hw_requests (calls_of (ParseLine_notify pState g0 g)) = [].
Proof.
  unfold ParseLine_notify, SetupNotification, CreatePWM. run_monad.
  repeat match goal with
         | |- context [if ?b then _ else _] => destruct b; simpl
         end; split; reflexivity.
Qed.

(** ** [CreateLine] and [ParseLine] on the registry *)

Lemma deref_snoc st cs c ls g :
  chips st = cs ++ [set_chip_lines c (ls ++ [g])] ->
  deref st (length cs, length ls) = Some g.
Proof.
  intros H. unfold deref; cbn [fst snd]. rewrite H.
  rewrite lookup_app_r by lia. rewrite Nat.sub_diag. cbn.
  rewrite lookup_app_r by lia. rewrite Nat.sub_diag. reflexivity.
Qed.

Lemma store_snoc st cs c ls g g' :
  store (set_chips st (cs ++ [set_chip_lines c (ls ++ [g])]))
        (length cs, length ls) g'
  = set_chips st (cs ++ [set_chip_lines c (ls ++ [g'])]).
Proof.
  unfold store, set_chips; cbn [fst snd chips service gpiowatch hVarServer
                                verbose pFileName running monitoredLines].
  rewrite alter_app_r_alt by lia. rewrite Nat.sub_diag. cbn.
  rewrite insert_app_r_alt by lia. rewrite Nat.sub_diag. reflexivity.
Qed.

(** [CreateLine] links exactly the descriptor [created_line] describes, at
    the tail of the last chip, and asks the hardware for nothing. *)
Lemma CreateLine_run st cs c pNode :
  chips st = cs ++ [c] ->
  fst (CreateLine env pNode st)
    = match created_line (hVarServer st) (pChip c) pNode with
      | Some g0 =>
          (Some (length cs, length (chip_lines c)),
           set_chips st (cs ++ [set_chip_lines c (chip_lines c ++ [g0])]))
      | None => (None, st)
      end /\
  hw_requests (calls_of (CreateLine env pNode st)) = [].
Proof.
  intros Hc. unfold CreateLine, created_line, GetVarHandle, VAR_FindByName,
    gpiod_chip_get_line, printf. run_monad.
  rewrite Hc, last_snoc.
  assert (Hal : forall g0 : GPIO,
            alter (fun c0 => set_chip_lines c0 (chip_lines c0 ++ [g0]))
                  (length (cs ++ [c]) - 1)%nat (cs ++ [c])
            = cs ++ [set_chip_lines c (chip_lines c ++ [g0])]).
  { intros g0. rewrite length_app; cbn [length].
    replace (length cs + 1 - 1)%nat with (length cs) by lia.
    rewrite alter_app_r_alt by lia. rewrite Nat.sub_diag. reflexivity. }
  destruct (hVarServer st =? NULL).
  { cbn [fst snd]. rewrite Z.eqb_refl. split; reflexivity. }
  destruct (JSON_GetStr pNode "var") as [vn|].
  2:{ cbn [fst snd]. rewrite Z.eqb_refl.
      destruct (JSON_GetStr pNode "line"); split; reflexivity. }
  cbn [fst snd app].
  destruct (env_VAR_FindByName env vn =? VAR_INVALID) eqn:Eh.
  { cbn [negb fst snd]. rewrite Eh.
    destruct (JSON_GetStr pNode "line"); split; reflexivity. }
  cbn [negb fst snd orb]. rewrite Eh. cbn [negb].
  destruct (JSON_GetStr pNode "line") as [ls|]; [|split; reflexivity].
  cbn [fst snd app].
  destruct (env_gpiod_chip_get_line env (pChip c)
              (uint32 (env_strtoul env ls)) =? NULL); cbn [negb orb];
    [split; reflexivity|].
  destruct (env_calloc_GPIO env _); cbn [negb]; [|split; reflexivity].
  cbn [fst snd app]. rewrite Hal.
  replace (length (cs ++ [c]) - 1)%nat with (length cs)
    by (rewrite length_app; cbn [length]; lia).
  split; reflexivity.
Qed.

Lemma at_ref_run {A} st r g (d : A) (m : M GPIO A) :
  deref st r = Some g ->
  at_ref r d m st = (result_of (m g), store st r (state_of (m g)), calls_of (m g)).
Proof.
  intros H. unfold at_ref, result_of, state_of, calls_of. rewrite H.
  destruct (m g) as [[a g'] t]. reflexivity.
Qed.

Lemma ParseLine_unfold pNode :
  ParseLine env pNode =
    (p <- CreateLine env pNode ;;
     match p with
     | None => ret EOK
     | Some pGPIO =>
         pState <- get ;;
         at_ref pGPIO tt (ParseLine_configure pState pNode) ;;;
         pState <- get ;;
         match deref pState pGPIO with
         | None => ret EOK
         | Some g =>
             (if negb (event_type g =? 0) then
                let n := Z.of_nat (length (monitoredLines pState)) in
                if n <? GPIOD_LINE_BULK_MAX_LINES then
                  put (set_monitoredLines pState
                         (monitoredLines pState ++ [pLine g]))
                else ret tt
              else ret tt) ;;;
             pState <- get ;;
             at_ref pGPIO tt (ParseLine_notify pState g) ;;;
             ret EOK
         end
     end).
Proof. reflexivity. Qed.

(** The whole run of [ParseLine] under the last chip [c]. *)
Lemma ParseLine_run st cs c pNode :
  chips st = cs ++ [c] ->
  ParseLine env pNode st =
    match created_line (hVarServer st) (pChip c) pNode with
    | None => (EOK, st, calls_of (CreateLine env pNode st))
    | Some g0 =>
        let st1 := set_chips st
                     (cs ++ [set_chip_lines c (chip_lines c ++ [g0])]) in
        let g1 := state_of (ParseLine_configure st1 pNode g0) in
        let st2 := set_chips st
                     (cs ++ [set_chip_lines c (chip_lines c ++ [g1])]) in
        let st3 := track_monitored st2 g1 in
        (EOK, st3,
         calls_of (CreateLine env pNode st) ++
         calls_of (ParseLine_configure st1 pNode g0) ++
         calls_of (ParseLine_notify st3 g1 g1))
    end.
Proof.
  intros Hc. rewrite ParseLine_unfold.
  destruct (CreateLine_run st cs c pNode Hc) as [HC _].
  unfold bind at 1.
  change (calls_of (CreateLine env pNode st))
    with (snd (CreateLine env pNode st)).
  destruct (CreateLine env pNode st) as [[p st1'] t1]. cbn [fst snd] in *.
  destruct (created_line (hVarServer st) (pChip c) pNode) as [g0|];
    inversion HC; subst p st1'; clear HC.
  2:{ unfold ret. rewrite app_nil_r. reflexivity. }
  cbv zeta.
  set (st1 := set_chips st (cs ++ [set_chip_lines c (chip_lines c ++ [g0])])).
  assert (Hd1 : deref st1 (length cs, length (chip_lines c)) = Some g0)
    by (apply (deref_snoc st1 cs c); reflexivity).
  unfold bind at 1. unfold get at 1. unfold bind at 1.
  rewrite (at_ref_run _ _ _ _ _ Hd1).
  set (g1 := state_of (ParseLine_configure st1 pNode g0)).
  assert (Hst : store st1 (length cs, length (chip_lines c)) g1
                = set_chips st
                    (cs ++ [set_chip_lines c (chip_lines c ++ [g1])]))
    by apply store_snoc.
  rewrite Hst. clear Hst.
  set (st2 := set_chips st (cs ++ [set_chip_lines c (chip_lines c ++ [g1])])).
  assert (Hd2 : deref st2 (length cs, length (chip_lines c)) = Some g1)
    by (apply (deref_snoc st2 cs c); reflexivity).
  unfold bind at 1. unfold get at 1. rewrite Hd2.
  unfold bind at 1.
  assert (Htm : (if negb (event_type g1 =? 0)
                 then
                   if Z.of_nat (length (monitoredLines st2))
                      <? GPIOD_LINE_BULK_MAX_LINES
                   then put (set_monitoredLines st2
                               (monitoredLines st2 ++ [pLine g1]))
                   else ret tt
                 else ret tt) st2 = (tt, track_monitored st2 g1, [])).
  { unfold track_monitored.
    destruct (negb (event_type g1 =? 0)); cbn [andb]; [|reflexivity].
    destruct (_ <? _); reflexivity. }
  rewrite Htm.
  set (st3 := track_monitored st2 g1).
  assert (Hd3 : deref st3 (length cs, length (chip_lines c)) = Some g1).
  { unfold st3, track_monitored.
    destruct (_ && _); [|exact Hd2].
    apply (deref_snoc _ cs c). reflexivity. }
  unfold bind at 1. unfold get at 1. unfold bind at 1.
  rewrite (at_ref_run _ _ _ _ _ Hd3).
  destruct (ParseLine_notify_frame st3 g1 g1) as [Hn _]. rewrite Hn.
  rewrite (store_same _ _ _ Hd3).
  unfold ret. cbn [app]. rewrite !app_nil_r. reflexivity.
Qed.

(** What [CreateLine] puts in a fresh descriptor. *)
Lemma created_line_fresh hvs pchip pNode g0 :
  created_line hvs pchip pNode = Some g0 ->
  pLine g0 <> NULL /\ hVar g0 <> VAR_INVALID /\ value g0 = 0 /\
  direction g0 = 0 /\ PWM g0 = false /\ event_type g0 = 0 /\
  request g0 = mkRequest None 0 0.
Proof.
  unfold created_line.
  destruct (hvs =? NULL); [discriminate|].
  destruct (JSON_GetStr pNode "var") as [vn|]; [|discriminate].
  destruct (JSON_GetStr pNode "line") as [ls|]; [|discriminate].
  destruct (env_VAR_FindByName env vn =? VAR_INVALID) eqn:Eh; [discriminate|].
  destruct (env_gpiod_chip_get_line env pchip (uint32 (env_strtoul env ls))
            =? NULL) eqn:El; [discriminate|].
  destruct (env_calloc_GPIO env _); [|discriminate].
  cbn [orb negb]. intros H. inversion H; subst; cbn.
  apply Z.eqb_neq in Eh, El. repeat split; assumption.
Qed.

(** C7 (as the code has it): a line definition whose direction is present
    but is none of input, output and pwm makes [ParseLineDirection] return
    [ENOTSUP] and leave the descriptor untouched; [ParseLine] reads no
    result of that step, so the line is still asked from the hardware
    whenever the operating mode matches its event subscription, with the
    subscription as request type.  A missing direction is read as input. *)
Theorem ParseLine_unrecognised_direction_still_requests
    st cs c pNode svc g0 d :
  chips st = cs ++ [c] ->
  service st = Some svc ->
  created_line (hVarServer st) (pChip c) pNode = Some g0 ->
  JSON_GetStr pNode "direction" = Some d ->
  d <> "input" -> d <> "output" -> d <> "pwm" ->
  ParseLineDirection env st pNode g0 = (ENOTSUP, g0, []) /\
  hw_requests (calls_of (ParseLine env pNode st))
    = (if request_due (gpiowatch st) (parsed_event pNode)
       then [(pLine g0, mkRequest (Some svc) (parsed_event pNode) 0, 0)]
       else []) /\
  (forall pNode' g,
     pLine g <> NULL ->
     JSON_GetStr pNode' "direction" = None ->
     ParseLineDirection env st pNode' g
       = (EOK,
          set_request_type (set_direction g GPIOD_LINE_DIRECTION_INPUT)
                           GPIOD_LINE_REQUEST_DIRECTION_INPUT,
          [])).
Proof.
  intros Hc Hs Hcr Hd Hi Ho Hp.
  destruct (created_line_fresh _ _ _ _ Hcr)
    as (Hl & _ & Hv & _ & Hpwm & _ & Hreq).
  split; [|split].
  - apply (ParseLineDirection_unrecognised st pNode g0 d); assumption.
  - rewrite (ParseLine_run st cs c pNode Hc), Hcr. cbv zeta.
    unfold calls_of at 1. cbn [snd].
    rewrite !hw_requests_app.
    destruct (CreateLine_run st cs c pNode Hc) as [_ HcrC]. rewrite HcrC.
    match goal with
    | |- context [ParseLine_notify ?a ?b ?b] =>
        destruct (ParseLine_notify_frame a b b) as [_ Hn]; rewrite Hn
    end.
    rewrite app_nil_r. cbn [app].
    rewrite (ParseLine_configure_run _ svc pNode g0) by exact Hs.
    rewrite (ParseLineDirection_unrecognised _ pNode g0 d) by assumption.
    unfold state_of, calls_of. cbn [fst snd app gpiowatch set_chips].
    rewrite Hpwm, Hv, Hreq. cbn [request_type].
    replace (if parsed_event pNode =? 0 then 0 else parsed_event pNode)
      with (parsed_event pNode)
      by (destruct (Z.eqb_spec (parsed_event pNode) 0); congruence).
    destruct (request_due (gpiowatch st) (parsed_event pNode)); reflexivity.
  - intros pNode' g Hg Hn. apply ParseLineDirection_missing; assumption.
Qed.

(** ** Binding a whole chip *)

Lemma RequestLine_identity pState g :
  line_identity (state_of (RequestLine env pState g)) = line_identity g.
Proof.
  unfold RequestLine. destruct (service pState); [|reflexivity].
  run_monad.
  repeat match goal with
         | |- context [if ?b then _ else _] => destruct b; simpl
         end; reflexivity.
Qed.

(** The six configuration steps never change the identity of the
    descriptor. *)
Lemma ParseLine_configure_identity pState pNode g :
  line_identity (state_of (ParseLine_configure pState pNode g))
  = line_identity g.
Proof.
  unfold ParseLine_configure, bind, state_of.
  destruct (ParseLineDirection_frame pState pNode g)
    as (H1 & H2 & H3 & H4 & _).
  unfold state_of in *.
  destruct (ParseLineDirection env pState pNode g) as [[rc0 gd] t0].
  cbn [fst snd] in *.
  destruct (ParseLineActiveState_frame pNode gd) as (rc1 & f1 & E1).
  rewrite E1, ParseLineEvent_run.
  destruct (ParseLineBias_frame pNode
              (set_event_type (set_flags gd f1) (parsed_event pNode)))
    as (rc3 & f3 & E3).
  rewrite E3.
  destruct (ParseLineDrive_frame pNode
              (set_flags (set_event_type (set_flags gd f1)
                                         (parsed_event pNode)) f3))
    as (rc4 & f4 & E4).
  rewrite E4.
  match goal with
  | |- context [RequestLine env pState ?x] =>
      pose proof (RequestLine_identity pState x) as HR;
      unfold state_of in HR;
      destruct (RequestLine env pState x) as [[rc5 g5] t5]
  end.
  cbn [fst snd ret] in *. rewrite HR.
  unfold line_identity; cbn. congruence.
Qed.

Lemma result_of_bind {S A B} (m : M S A) (k : A -> M S B) s :
  result_of (bind m k s) = result_of (k (result_of (m s)) (state_of (m s))).
Proof.
  unfold result_of, state_of, bind.
  destruct (m s) as [[a s1] t1]. cbn [fst snd].
  destruct (k a s1) as [[b s2] t2]. reflexivity.
Qed.

(** The per-line callback reports success whatever happens to the line. *)
Lemma ParseLine_returns_EOK pNode st :
  result_of (ParseLine env pNode st) = EOK.
Proof.
  unfold ParseLine. rewrite result_of_bind.
  destruct (result_of (CreateLine env pNode st)) as [pGPIO|]; [|reflexivity].
  rewrite !result_of_bind.
  match goal with
  | |- context [match deref ?s ?r with _ => _ end] => destruct (deref s r)
  end; [|reflexivity].
  rewrite !result_of_bind. reflexivity.
Qed.

Lemma JSON_Iterate_items_step {S} (fn : JNode -> M S Z) pNode rest s s1 t1 :
  fn pNode s = (EOK, s1, t1) ->
  JSON_Iterate_items env (pNode :: rest) fn EOK s
  = let '(b, s2, t2) := JSON_Iterate_items env rest fn EOK s1 in
    (b, s2, t1 ++ t2).
Proof.
  intros H. cbn [JSON_Iterate_items]. unfold bind. rewrite H.
  rewrite Z.eqb_refl. reflexivity.
Qed.

(** Iterating [ParseLine] over the line definitions of the last chip links,
    in document order, one descriptor for every definition that resolves
    and none for the others; no definition stops the iteration. *)
Lemma JSON_Iterate_ParseLine items : forall st cs c,
  chips st = cs ++ [c] ->
  let r := JSON_Iterate_items env items (ParseLine env) EOK st in
  result_of r = EOK /\
  exists new,
    chips (state_of r) = cs ++ [set_chip_lines c (chip_lines c ++ new)] /\
    map line_identity new
    = map line_identity (omap (created_line (hVarServer st) (pChip c)) items).
Proof.
  induction items as [|pNode rest IH]; intros st cs c Hc r; subst r.
  - cbn. split; [reflexivity|]. exists []. rewrite app_nil_r.
    split; [|reflexivity]. rewrite Hc. destruct c; reflexivity.
  - pose proof (ParseLine_run st cs c pNode Hc) as Hrun.
    cbn [omap list_omap].
    destruct (created_line (hVarServer st) (pChip c) pNode) as [g0|] eqn:Ecr.
    + cbv zeta in Hrun.
      rewrite (JSON_Iterate_items_step _ _ _ _ _ _ Hrun).
      set (g1 := state_of (ParseLine_configure _ pNode g0)) in *.
      set (c1 := set_chip_lines c (chip_lines c ++ [g1])) in *.
      set (st3 := track_monitored _ g1) in *.
      assert (Hc3 : chips st3 = cs ++ [c1]).
      { unfold st3, track_monitored. destruct (_ && _); reflexivity. }
      assert (Hv3 : hVarServer st3 = hVarServer st).
      { unfold st3, track_monitored. destruct (_ && _); reflexivity. }
      destruct (IH st3 cs c1 Hc3) as (Hres & new & Hch & Hid).
      unfold result_of, state_of in *.
      destruct (JSON_Iterate_items env rest (ParseLine env) EOK st3)
        as [[b s2] t2].
      cbn [fst snd] in *. split; [exact Hres|].
      exists (g1 :: new). split.
      * rewrite Hch. unfold c1. cbn [set_chip_lines chip_lines chip_name pChip].
        rewrite <- app_assoc. reflexivity.
      * cbn [map]. rewrite Hid, Hv3. f_equal.
        apply ParseLine_configure_identity.
    + rewrite (JSON_Iterate_items_step _ _ _ _ _ _ Hrun).
      destruct (IH st cs c Hc) as (Hres & new & Hch & Hid).
      unfold result_of, state_of in *.
      destruct (JSON_Iterate_items env rest (ParseLine env) EOK st)
        as [[b s2] t2].
      cbn [fst snd] in *. split; [exact Hres|].
      exists new. split; assumption.
Qed.

(** A chip that opens is linked at the tail of the chip list, with no
    line yet. *)
Lemma CreateChip_run st pNode chipName :
  JSON_GetStr pNode "chip" = Some chipName ->
  env_gpiod_chip_open env ("/dev/" +:+ chipName) <> NULL ->
  env_calloc_GPIOChip env (env_gpiod_chip_open env ("/dev/" +:+ chipName))
    = true ->
  CreateChip env pNode st
    = (true,
       set_chips st
         (chips st ++
          [mkGPIOChip chipName
             (env_gpiod_chip_open env ("/dev/" +:+ chipName)) []]),
       [call_gpiod_chip_open ("/dev/" +:+ chipName)]).
Proof.
  intros Hn Hopen Hcal. unfold CreateChip, gpiod_chip_open. rewrite Hn.
  run_monad. apply Z.eqb_neq in Hopen. rewrite Hopen, Hcal. reflexivity.
Qed.

(** C8 (as the code has it): binding a chip is best-effort.  The per-line
    callback always reports [EOK]; a chip that opens gets, in document
    order, one descriptor for every line definition whose variable and
    hardware line resolve, whatever its direction and other attributes say,
    and none for a definition that does not resolve; [ParseChip] then
    reports [EOK], so the rest of the configuration is processed too. *)
Theorem ParseChip_binds_every_resolvable_line st pNode chipName items rest :
  JSON_GetStr pNode "chip" = Some chipName ->
  env_gpiod_chip_open env ("/dev/" +:+ chipName) <> NULL ->
  env_calloc_GPIOChip env (env_gpiod_chip_open env ("/dev/" +:+ chipName))
    = true ->
  JSON_Find pNode "lines" = Some (JArray items) ->
  let chip := env_gpiod_chip_open env ("/dev/" +:+ chipName) in
  (forall pNode' st', result_of (ParseLine env pNode' st') = EOK) /\
  result_of (ParseChip env pNode st) = EOK /\
  (exists new,
     chips (state_of (ParseChip env pNode st))
       = chips st ++ [mkGPIOChip chipName chip new] /\
     map line_identity new
       = map line_identity (omap (created_line (hVarServer st) chip) items)) /\
  JSON_Iterate_items env (pNode :: rest) (ParseChip env) EOK st
    = (ParseChip env pNode ;;;
       JSON_Iterate_items env rest (ParseChip env) EOK) st.
Proof.
  intros Hn Hopen Hcal Hlines chip.
  assert (Hrun : exists s t new,
            ParseChip env pNode st = (EOK, s, t) /\
            chips s = chips st ++ [mkGPIOChip chipName chip new] /\
            map line_identity new
              = map line_identity
                  (omap (created_line (hVarServer st) chip) items)).
  { unfold ParseChip, bind.
    rewrite (CreateChip_run st pNode chipName Hn Hopen Hcal). fold chip.
    unfold CreateLines, JSON_Iterate. rewrite Hlines.
    set (st1 := set_chips st (chips st ++ [mkGPIOChip chipName chip []])).
    destruct (JSON_Iterate_ParseLine items st1 (chips st)
                (mkGPIOChip chipName chip []) eq_refl)
      as (Hres & new & Hch & Hid).
    unfold result_of, state_of in *.
    destruct (JSON_Iterate_items env items (ParseLine env) EOK st1)
      as [[b s2] t2].
    cbn [fst snd] in *. subst b.
    eexists _, _, new. split; [reflexivity|]. split; [exact Hch | exact Hid]. }
  destruct Hrun as (s & t & new & Hrun & Hch & Hid).
  split; [intros; apply ParseLine_returns_EOK|].
  split; [rewrite Hrun; reflexivity|].
  split; [exists new; rewrite Hrun; split; assumption|].
  cbn [JSON_Iterate_items]. unfold bind.
  rewrite Hrun. rewrite Z.eqb_refl. reflexivity.
Qed.

(** ** The status report *)

Lemma append_assoc (a b c : string) : (a +:+ b) +:+ c = a +:+ (b +:+ c).
Proof.
  induction a as [|x a IH]; [reflexivity|].
  change (String x ((a +:+ b) +:+ c) = String x (a +:+ (b +:+ c))).
  now rewrite IH.
Qed.

Lemma append_nil_r (a : string) : a +:+ EmptyString = a.
Proof.
  induction a as [|x a IH]; [reflexivity|].
  change (String x (a +:+ EmptyString) = String x a). now rewrite IH.
Qed.

Lemma written_app fd t1 t2 :
  written fd (t1 ++ t2) = written fd t1 +:+ written fd t2.
Proof.
  induction t1 as [|c t1 IH]; [reflexivity|].
  destruct c; cbn [app written]; try exact IH.
  destruct (_ =? fd); [|exact IH].
  rewrite IH, append_assoc. reflexivity.
Qed.

(** What [PrintLineInfo] writes for a descriptor that holds a line. *)
Lemma PrintLineInfo_run g fd st :
  fd <> -1 -> pLine g <> NULL ->
  PrintLineInfo env g fd st
    = (EOK, st, [call_gpiod_line_name (pLine g); call_write fd (render_line g)]).
Proof.
  intros Hfd Hl. unfold PrintLineInfo, gpiod_line_name, write.
  apply Z.eqb_neq in Hfd, Hl. rewrite Hfd, Hl. reflexivity.
Qed.

(** The inner loop writes the line objects with a comma before each one but
    the first. *)
Lemma PrintStatus_lines_written ls fd st : forall first,
  fd <> -1 ->
  Forall (fun g => pLine g <> NULL) ls ->
  state_of (PrintStatus_lines env ls first fd st) = st /\
  written fd (calls_of (PrintStatus_lines env ls first fd st))
    = match ls with
      | [] => EmptyString
      | _ => (if first then EmptyString else ",")
             +:+ String.concat "," (map render_line ls)
      end.
Proof.
  induction ls as [|g ls IH]; intros first Hfd Hall.
  - split; reflexivity.
  - inversion Hall as [|? ? Hg Hrest]; subst.
    destruct (IH false Hfd Hrest) as [IHs IHw].
    cbn [PrintStatus_lines]. unfold bind.
    assert (Hpre : (if negb first then write fd "," else ret tt) st
                   = (tt, st, if first then [] else [call_write fd ","])).
    { destruct first; reflexivity. }
    rewrite Hpre.
    rewrite (PrintLineInfo_run g fd) by assumption.
    unfold state_of, calls_of in *.
    destruct (PrintStatus_lines env ls false fd st) as [[u s2] t2].
    cbn [fst snd] in *. subst s2.
    split; [reflexivity|].
    rewrite !written_app, IHw.
    cbn [written]. rewrite Z.eqb_refl.
    cbn [map String.concat].
    destruct ls as [|g' ls'].
    + destruct first; cbn [written]; rewrite ?Z.eqb_refl, ?append_nil_r;
        reflexivity.
    + destruct first; cbn [written]; rewrite ?Z.eqb_refl, ?append_nil_r;
        reflexivity.
Qed.

(** The outer loop writes the chip objects with a comma before each one
    but the first. *)
Lemma PrintStatus_chips_written cs fd st : forall first,
  fd <> -1 ->
  Forall (fun g => pLine g <> NULL) (concat (map chip_lines cs)) ->
  state_of (PrintStatus_chips env cs first fd st) = st /\
  written fd (calls_of (PrintStatus_chips env cs first fd st))
    = match cs with
      | [] => EmptyString
      | _ => (if first then EmptyString else ",")
             +:+ String.concat "," (map render_chip cs)
      end.
Proof.
  induction cs as [|c cs IH]; intros first Hfd Hall.
  - split; reflexivity.
  - cbn [map concat] in Hall. apply Forall_app in Hall as [Hc Hrest].
    destruct (IH false Hfd Hrest) as [IHs IHw].
    destruct (PrintStatus_lines_written (chip_lines c) fd st true Hfd Hc)
      as [Hls Hlw].
    cbn [PrintStatus_chips]. unfold bind.
    assert (Hpre : (if negb first then write fd "," else ret tt) st
                   = (tt, st, if first then [] else [call_write fd ","])).
    { destruct first; reflexivity. }
    rewrite Hpre. unfold write, emit.
    unfold state_of, calls_of in *.
    destruct (PrintStatus_lines env (chip_lines c) true fd st) as [[u1 s1] t1].
    cbn [fst snd] in *. subst s1.
    destruct (PrintStatus_chips env cs false fd st) as [[u2 s2] t2].
    cbn [fst snd] in *. subst s2.
    split; [reflexivity|].
    rewrite !written_app, IHw, Hlw.
    cbn [written]. rewrite Z.eqb_refl.
    assert (Hlines : match chip_lines c with
                     | [] => EmptyString
                     | _ :: _ => EmptyString +:+
                         String.concat "," (map render_line (chip_lines c))
                     end
                     = String.concat "," (map render_line (chip_lines c))).
    { destruct (chip_lines c); reflexivity. }
    rewrite Hlines. unfold render_chip.
    cbn [map String.concat].
    destruct cs as [|c' cs'];
      destruct first; cbn [written]; rewrite ?Z.eqb_refl, ?append_nil_r;
      rewrite ?append_assoc; reflexivity.
Qed.

(** The report written by [PrintStatus] is the rendering of the registry:
    every chip and every line, in list order. *)
Lemma PrintStatus_written fd st :
  fd <> -1 ->
  Forall (fun g => pLine g <> NULL) (all_lines st) ->
  PrintStatus env fd st
    = (EOK, st, calls_of (PrintStatus env fd st)) /\
  written fd (calls_of (PrintStatus env fd st)) = render_status st.
Proof.
  intros Hfd Hall.
  destruct (PrintStatus_chips_written (chips st) fd st true Hfd Hall)
    as [Hs Hw].
  unfold PrintStatus. pose proof Hfd as Hfd'. apply Z.eqb_neq in Hfd'.
  rewrite Hfd'. unfold bind, write, emit, get, ret.
  unfold state_of, calls_of in *.
  destruct (PrintStatus_chips env (chips st) true fd st) as [[u s1] t1].
  cbn [fst snd] in *. subst s1. split; [reflexivity|].
  cbn [app written]. rewrite Z.eqb_refl, !written_app, Hw.
  cbn [written]. rewrite Z.eqb_refl. unfold render_status.
  destruct (chips st); rewrite ?append_nil_r; reflexivity.
Qed.

(** ** What binding guarantees about the registry *)

Lemma state_of_bind {S A B} (m : M S A) (k : A -> M S B) s :
  state_of (bind m k s) = state_of (k (result_of (m s)) (state_of (m s))).
Proof.
  unfold result_of, state_of, bind.
  destruct (m s) as [[a s1] t1]. cbn [fst snd].
  destruct (k a s1) as [[b s2] t2]. reflexivity.
Qed.

Lemma all_lines_snoc st cs c g :
  chips st = cs ++ [c] ->
  all_lines (set_chips st (cs ++ [set_chip_lines c (chip_lines c ++ [g])]))
  = all_lines st ++ [g].
Proof.
  intros Hc. unfold all_lines. cbn [chips set_chips]. rewrite Hc.
  rewrite !map_app, !concat_app. cbn. rewrite !app_nil_r.
  rewrite app_assoc. reflexivity.
Qed.

Lemma ParseLine_keeps_ok pNode st :
  registry_ok st -> registry_ok (state_of (ParseLine env pNode st)).
Proof.
  intros [Hl Hm].
  destruct (last (chips st)) as [c|] eqn:Hlast.
  - apply last_Some in Hlast as [cs Hc].
    rewrite (ParseLine_run st cs c pNode Hc).
    destruct (created_line (hVarServer st) (pChip c) pNode) as [g0|] eqn:Ecr;
      [|split; assumption].
    cbv zeta. unfold state_of at 1. cbn [fst snd].
    destruct (created_line_fresh _ _ _ _ Ecr) as (Hp & Hh & _).
    set (g1 := state_of (ParseLine_configure _ pNode g0)).
    assert (Hid : line_identity g1 = line_identity g0)
      by apply ParseLine_configure_identity.
    unfold line_identity in Hid. injection Hid as Hp1 Hh1 _ _.
    set (st2 := set_chips st _).
    assert (Hall : all_lines st2 = all_lines st ++ [g1])
      by (apply all_lines_snoc; exact Hc).
    assert (Hok2 : Forall (fun g => pLine g <> NULL /\ hVar g <> VAR_INVALID)
                     (all_lines st2)).
    { rewrite Hall. apply Forall_app. split; [exact Hl|].
      constructor; [|constructor]. rewrite Hp1, Hh1. split; assumption. }
    assert (Hm2 : Forall (fun l => In l (map pLine (all_lines st2)))
                    (monitoredLines st)).
    { rewrite Hall, map_app. eapply Forall_impl; [exact Hm|].
      intros l Hin. apply in_or_app. left. exact Hin. }
    unfold track_monitored. destruct (_ && _); split; try assumption.
    cbn [monitoredLines set_monitoredLines].
    change (all_lines (set_monitoredLines st2 _)) with (all_lines st2).
    apply Forall_app. split; [exact Hm2|].
    constructor; [|constructor].
    rewrite Hall, map_app. apply in_or_app. right. left. reflexivity.
  - assert (Hst : state_of (ParseLine env pNode st) = st).
    { assert (HC : CreateLine env pNode st = (None, st, [])).
      { unfold CreateLine, bind, get. rewrite Hlast. reflexivity. }
      unfold ParseLine, bind. rewrite HC. reflexivity. }
    rewrite Hst. split; assumption.
Qed.

Lemma JSON_Iterate_items_keeps {S} (P : S -> Prop) (fn : JNode -> M S Z) :
  (forall pNode s, P s -> P (state_of (fn pNode s))) ->
  forall items rc s, P s -> P (state_of (JSON_Iterate_items env items fn rc s)).
Proof.
  intros Hfn. induction items as [|pNode rest IH]; intros rc s Hs.
  - exact Hs.
  - cbn [JSON_Iterate_items]. rewrite state_of_bind.
    pose proof (Hfn pNode s Hs) as H1.
    destruct (_ =? EOK); [apply IH; exact H1|].
    destruct (env_JSON_Iterate_stops env); [exact H1 | apply IH; exact H1].
Qed.

Lemma ParseChip_keeps_ok pNode st :
  registry_ok st -> registry_ok (state_of (ParseChip env pNode st)).
Proof.
  intros Hok. unfold ParseChip. rewrite state_of_bind.
  assert (Hcc : registry_ok (state_of (CreateChip env pNode st))).
  { unfold CreateChip, gpiod_chip_open, printf.
    destruct (JSON_GetStr pNode "chip") as [nm|]; [|exact Hok].
    rewrite !state_of_bind.
    destruct (negb _); [|exact Hok].
    destruct (env_calloc_GPIOChip env _); [|exact Hok].
    rewrite !state_of_bind. unfold modify, emit, ret, state_of, result_of.
    cbn [fst snd]. destruct Hok as [Hl Hm].
    assert (Hall : forall cs c, all_lines (set_chips st (cs ++ [mkGPIOChip nm c []]))
                                = concat (map chip_lines cs)).
    { intros cs c. unfold all_lines. cbn [chips set_chips].
      rewrite map_app, concat_app. cbn. now rewrite app_nil_r. }
    split; cbn [monitoredLines set_chips]; rewrite Hall; assumption. }
  destruct (result_of (CreateChip env pNode st)); [|exact Hcc].
  unfold CreateLines.
  destruct (JSON_Find pNode "lines") as [[| |items|]|]; try exact Hcc.
  unfold JSON_Iterate.
  apply JSON_Iterate_items_keeps; [apply ParseLine_keeps_ok | exact Hcc].
Qed.

(** Binding a whole configuration, from any array of chip definitions,
    keeps the registry well formed. *)
Lemma binding_keeps_ok pArray st :
  registry_ok st ->
  registry_ok (state_of (JSON_Iterate env pArray (ParseChip env) st)).
Proof.
  intros Hok. unfold JSON_Iterate.
  destruct pArray as [[| |items|]|]; try exact Hok.
  apply JSON_Iterate_items_keeps; [apply ParseChip_keeps_ok | exact Hok].
Qed.

(** In a well-formed registry every monitored line has an owner with a
    valid variable handle: what [HandleGPIOEvent] relies on. *)
Lemma monitored_line_has_owner st l :
  registry_ok st -> In l (monitoredLines st) ->
  l <> NULL /\
  exists g, find (fun x => pLine x =? l) (all_lines st) = Some g /\
            hVar g <> VAR_INVALID.
Proof.
  intros [Hl Hm] Hin.
  rewrite Forall_forall in Hm. specialize (Hm l).
  assert (Hlin : In l (map pLine (all_lines st)))
    by (apply Hm; now apply list_elem_of_In).
  apply in_map_iff in Hlin as (g0 & Hg0 & Hin0).
  rewrite Forall_forall in Hl.
  assert (Hfind : exists g, find (fun x => pLine x =? l) (all_lines st) = Some g).
  { destruct (find (fun x => pLine x =? l) (all_lines st)) as [g|] eqn:E;
      [eauto|].
    exfalso. apply (find_none _ _ E) in Hin0. apply Z.eqb_neq in Hin0.
    congruence. }
  destruct Hfind as [g Hg]. pose proof (find_some _ _ Hg) as [Hgin Hgl].
  apply Z.eqb_eq in Hgl.
  destruct (Hl g) as [Hp Hh]; [now apply list_elem_of_In|].
  split; [congruence|]. exists g. split; assumption.
Qed.

(** C2: in a registry as binding leaves it, when the edge event of a
    monitored line is read successfully, the new level is 1 for a rising
    edge and 0 for a falling edge, the owning variable is found by the
    reverse lookup (the first descriptor holding the line), and that level
    is written to it as a UINT16; the run reads no variable. *)
Theorem HandleGPIOEvent_writes_edge_level st l (rising : bool) :
  registry_ok st ->
  In l (monitoredLines st) ->
  env_gpiod_line_event_read env l
    = (0, if rising then GPIOD_LINE_EVENT_RISING_EDGE
          else GPIOD_LINE_EVENT_FALLING_EDGE) ->
  exists g,
    find (fun x => pLine x =? l) (all_lines st) = Some g /\
    FindVar st l = hVar g /\
    let var := mkVarObject VARTYPE_UINT16 2 (if rising then 1 else 0) in
    HandleGPIOEvent env l st
      = (env_VAR_Set env (hVar g) var, st,
         [call_gpiod_line_event_read l; call_VAR_Set (hVar g) var]) /\
    var_reads (calls_of (HandleGPIOEvent env l st)) = [].
Proof.
  intros Hok Hin Hread.
  destruct (monitored_line_has_owner st l Hok Hin) as (Hl & g & Hfind & Hh).
  exists g. split; [exact Hfind|].
  assert (HFV : FindVar st l = hVar g)
    by (rewrite (FindVar_first st l Hl), Hfind; reflexivity).
  split; [exact HFV|]. cbv zeta.
  assert (Hrun : HandleGPIOEvent env l st
            = let v := mkVarObject VARTYPE_UINT16 2 (if rising then 1 else 0) in
              (env_VAR_Set env (hVar g) v, st,
               [call_gpiod_line_event_read l; call_VAR_Set (hVar g) v])).
  { unfold HandleGPIOEvent.
    pose proof Hl as Hl'. apply Z.eqb_neq in Hl'. rewrite Hl'.
    run_monad. rewrite Hread. simpl. rewrite HFV.
    apply Z.eqb_neq in Hh. rewrite Hh. simpl.
    destruct rising.
    - rewrite Z.eqb_refl. reflexivity.
    - pose proof rising_not_falling as Hrf.
      apply Z.eqb_neq in Hrf. rewrite Hrf. reflexivity. }
  rewrite Hrun. split; reflexivity.
Qed.

(** * More of the program

    The rest of this section is about the parts of the program and the
    paths through it that the properties above leave aside. *)

(** ** Runs and their logs *)

Lemma calls_of_bind {S A B} (m : M S A) (k : A -> M S B) s :
  calls_of (bind m k s)
  = calls_of (m s) ++ calls_of (k (result_of (m s)) (state_of (m s))).
Proof.
  unfold bind, result_of, state_of, calls_of.
  destruct (m s) as [[a s1] t1]; simpl.
  destruct (k a s1) as [[b s2] t2]; reflexivity.
Qed.

Lemma run_eta {S A} (r : A * S * list Call) :
  r = (result_of r, state_of r, calls_of r).
Proof. destruct r as [[a s] t]. reflexivity. Qed.

Lemma hw_writes_app t1 t2 : hw_writes (t1 ++ t2) = hw_writes t1 ++ hw_writes t2.
Proof.
  induction t1 as [|c t1 IH]; simpl; [reflexivity|].
  destruct c; simpl; rewrite ?IH; reflexivity.
Qed.

Lemma var_reads_app t1 t2 : var_reads (t1 ++ t2) = var_reads t1 ++ var_reads t2.
Proof.
  induction t1 as [|c t1 IH]; simpl; [reflexivity|].
  destruct c; simpl; rewrite ?IH; reflexivity.
Qed.

(** ** The lookups as searches *)

Lemma find_app_first {A} (f : A -> bool) l1 l2 :
  find f (l1 ++ l2)
  = match find f l1 with Some x => Some x | None => find f l2 end.
Proof.
  induction l1 as [|x l1 IH]; simpl; [reflexivity|].
  destruct (f x); auto.
Qed.

Lemma FindGPIO_lines_first h ls : forall i,
  match FindGPIO_lines h ls i with
  | Some j => exists k g, j = (i + k)%nat /\ ls !! k = Some g /\
                          find (fun g => hVar g =? h) ls = Some g
  | None => find (fun g => hVar g =? h) ls = None
  end.
Proof.
  induction ls as [|g ls IH]; intros i; simpl.
  - reflexivity.
  - destruct (hVar g =? h) eqn:E.
    + exists 0%nat, g. rewrite Nat.add_0_r. auto.
    + specialize (IH (S i)).
      destruct (FindGPIO_lines h ls (S i)) as [j|]; [|exact IH].
      destruct IH as (k & g' & -> & Hk & Hf).
      exists (S k), g'. split; [lia|]. split; assumption.
Qed.

Lemma FindGPIO_chips_first h cs : forall base,
  match FindGPIO_chips h cs base with
  | Some r => exists ci c g,
        fst r = (base + ci)%nat /\ cs !! ci = Some c /\
        chip_lines c !! snd r = Some g /\
        find (fun g => hVar g =? h) (concat (map chip_lines cs)) = Some g
  | None => find (fun g => hVar g =? h) (concat (map chip_lines cs)) = None
  end.
Proof.
  induction cs as [|c cs IH]; intros base; simpl.
  - reflexivity.
  - rewrite find_app_first.
    pose proof (FindGPIO_lines_first h (chip_lines c) 0) as Hl.
    destruct (FindGPIO_lines h (chip_lines c) 0) as [li|].
    + destruct Hl as (k & g & -> & Hk & Hf). rewrite Hf.
      exists 0%nat, c, g. simpl. rewrite Nat.add_0_r. auto.
    + rewrite Hl. specialize (IH (S base)).
      destruct (FindGPIO_chips h cs (S base)) as [r|]; [|exact IH].
      destruct IH as (ci & c' & g & Hci & Hc & Hg & Hf).
      exists (S ci), c', g. simpl. split; [lia|]. auto.
Qed.

(** X1: [FindGPIO] is a first-match search: the descriptor it points to is
    the first one, chip by chip and line by line, whose variable handle is
    the handle asked for; the invalid handle matches nothing; and the
    pointer returned is never dangling. *)
Theorem FindGPIO_returns_first_match st h :
  (FindGPIO st h ≫= deref st)
  = (if h =? VAR_INVALID then None
     else find (fun g => hVar g =? h) (all_lines st)) /\
  (FindGPIO st h = None <-> (FindGPIO st h ≫= deref st) = None).
Proof.
  unfold FindGPIO, all_lines.
  destruct (h =? VAR_INVALID); [split; [reflexivity|tauto]|].
  pose proof (FindGPIO_chips_first h (chips st) 0) as H.
  destruct (FindGPIO_chips h (chips st) 0) as [r|]; simpl.
  - destruct H as (ci & c & g & Hci & Hc & Hg & Hf).
    simpl in Hci. unfold deref. rewrite Hci, Hc, Hg, Hf.
    split; [reflexivity|]. split; discriminate.
  - rewrite H. split; [reflexivity|tauto].
Qed.

Lemma deref_In st r g : deref st r = Some g -> In g (all_lines st).
Proof.
  unfold deref, all_lines. intros H.
  destruct (chips st !! fst r) as [c|] eqn:Hc; [|discriminate].
  apply in_concat. exists (chip_lines c). split.
  - apply in_map. apply list_elem_of_In. eapply list_elem_of_lookup_2; eauto.
  - apply list_elem_of_In. eapply list_elem_of_lookup_2; eauto.
Qed.

Lemma find_unique_key {A} (k : A -> Z) l g :
  NoDup (map k l) -> In g l -> find (fun x => k x =? k g) l = Some g.
Proof.
  induction l as [|a l IH]; simpl; intros Hnd Hin; [contradiction|].
  apply NoDup_cons in Hnd. destruct Hnd as [Hna Hnd].
  destruct Hin as [->|Hin].
  - rewrite Z.eqb_refl. reflexivity.
  - destruct (k a =? k g) eqn:E.
    + apply Z.eqb_eq in E. exfalso. apply Hna. rewrite E.
      apply list_elem_of_In. apply in_map. exact Hin.
    + auto.
Qed.

(** X2: in a registry where no two descriptors share a hardware line or a
    variable, the two lookups are inverse to each other: the variable
    [FindVar] gives for the line of a descriptor is the descriptor's own,
    and [FindGPIO] on it leads back to that very descriptor. *)
Theorem FindVar_FindGPIO_round_trip st r g :
  NoDup (map pLine (all_lines st)) ->
  NoDup (map hVar (all_lines st)) ->
  deref st r = Some g ->
  pLine g <> NULL ->
  hVar g <> VAR_INVALID ->
  FindVar st (pLine g) = hVar g /\
  FindGPIO st (FindVar st (pLine g)) = Some r /\
  (FindGPIO st (hVar g) ≫= deref st) = Some g.
Proof.
  intros Hl Hv Hd Hnl Hnv.
  assert (Hfv : FindVar st (pLine g) = hVar g).
  { rewrite FindVar_first by exact Hnl.
    rewrite (find_unique_key pLine _ g Hl (deref_In _ _ _ Hd)). reflexivity. }
  rewrite Hfv, (FindGPIO_of_bound_line st r g Hv Hd Hnv). simpl.
  auto.
Qed.

(** ** The handlers on every path *)

Lemma UpdateOutput_not_found st h :
  FindGPIO st h = None ->
  UpdateOutput env h st
  = (if h =? VAR_INVALID then EINVAL else ENOENT, st, []).
Proof.
  intros Hf. unfold UpdateOutput.
  destruct (h =? VAR_INVALID); [reflexivity|].
  run_monad. rewrite Hf. reflexivity.
Qed.

Lemma UpdateOutput_found st h r g :
  FindGPIO st h = Some r ->
  deref st r = Some g ->
  UpdateOutput env h st =
    if direction g =? GPIOD_LINE_DIRECTION_OUTPUT then
      let var := snd (env_VAR_Get env h) in
      if fst (env_VAR_Get env h) =? EOK then
        if var_type var =? VARTYPE_UINT16 then
          if PWM g then
            (EINVAL,
             store st r (set_value g (if uint16 (val_ui var) <=? 255
                                      then uint16 (val_ui var) else 255)),
             [call_VAR_Get h])
          else
            let v := if uint16 (val_ui var) >? 0 then 1 else 0 in
            let rc := fst (env_gpiod_line_set_value env (pLine g) v) in
            let errno := snd (env_gpiod_line_set_value env (pLine g) v) in
            let result := if rc =? EOK then EOK else errno in
            (EOK, store st r (set_value g v),
             [call_VAR_Get h; call_gpiod_line_set_value (pLine g) v] ++
             (if negb (result =? EOK)
              then [call_syslog ("UpdateOutput: " +:+ fmt_d result +:+ " "
                                 +:+ env_strerror env result)]
              else []))
        else (ENOTSUP, st, [call_VAR_Get h])
      else (ENOENT, st, [call_VAR_Get h])
    else (ENOTSUP, st, []).
Proof.
  intros Hf Hd.
  destruct (FindGPIO_found _ _ _ Hf) as (Hne & _).
  apply Z.eqb_neq in Hne.
  unfold UpdateOutput, at_ref. rewrite Hne.
  run_monad. rewrite Hf, Hd.
  destruct (direction g =? GPIOD_LINE_DIRECTION_OUTPUT); simpl;
    [|rewrite (store_same _ _ _ Hd); reflexivity].
  destruct (fst (env_VAR_Get env h) =? EOK); simpl;
    [|rewrite (store_same _ _ _ Hd); reflexivity].
  destruct (var_type (snd (env_VAR_Get env h)) =? VARTYPE_UINT16); simpl;
    [|rewrite (store_same _ _ _ Hd); reflexivity].
  destruct (PWM g); simpl; [reflexivity|].
  destruct (negb _); reflexivity.
Qed.

Lemma hw_writes_syslog (b : bool) msg :
  hw_writes (if b then [call_syslog msg] else []) = [].
Proof. destruct b; reflexivity. Qed.

Lemma FindGPIO_deref st h r : FindGPIO st h = Some r -> exists g, deref st r = Some g.
Proof.
  intros Hf. destruct (FindGPIO_found _ _ _ Hf) as (_ & g & Hd & _).
  exists g. exact Hd.
Qed.

(** X3: whatever the variable and the registry, [UpdateOutput] writes to
    the hardware at most once, the level written is 0 or 1, and the line
    written is the line of the descriptor the variable is bound to, which is
    an output that is not a PWM output, after the variable was read as a
    UINT16. *)
Theorem UpdateOutput_drives_only_plain_outputs st h :
  (length (hw_writes (calls_of (UpdateOutput env h st))) <= 1)%nat /\
  Forall (fun w =>
            (snd w = 0 \/ snd w = 1) /\
            exists r g,
              FindGPIO st h = Some r /\ deref st r = Some g /\
              pLine g = fst w /\
              direction g = GPIOD_LINE_DIRECTION_OUTPUT /\ PWM g = false /\
              fst (env_VAR_Get env h) = EOK /\
              var_type (snd (env_VAR_Get env h)) = VARTYPE_UINT16)
         (hw_writes (calls_of (UpdateOutput env h st))).
Proof.
  destruct (FindGPIO st h) as [r|] eqn:Hf.
  - destruct (FindGPIO_deref _ _ _ Hf) as (g & Hd).
    rewrite (UpdateOutput_found _ _ _ _ Hf Hd).
    destruct (direction g =? GPIOD_LINE_DIRECTION_OUTPUT) eqn:Hdir;
      [|simpl; split; [lia|constructor]].
    cbv zeta.
    destruct (fst (env_VAR_Get env h) =? EOK) eqn:Hrc;
      [|simpl; split; [lia|constructor]].
    destruct (var_type (snd (env_VAR_Get env h)) =? VARTYPE_UINT16) eqn:Hty;
      [|simpl; split; [lia|constructor]].
    destruct (PWM g) eqn:Hpwm; [simpl; split; [lia|constructor]|].
    unfold calls_of. cbn [snd]. rewrite hw_writes_app.
    rewrite hw_writes_syslog. simpl. split; [lia|].
    constructor; [|constructor]. simpl. split.
    + destruct (uint16 _ >? 0); auto.
    + exists r, g. apply Z.eqb_eq in Hdir, Hrc, Hty. auto 10.
  - rewrite (UpdateOutput_not_found _ _ Hf). simpl. split; [lia|constructor].
Qed.

Lemma forget_values_store st r g v :
  deref st r = Some g ->
  forget_values (store st r (set_value g v)) = forget_values st.
Proof.
  unfold forget_values, store, deref. destruct r as [ci li]; simpl.
  intros H. destruct (chips st !! ci) as [c|] eqn:Hc; [|discriminate].
  unfold set_chips; simpl. f_equal.
  apply list_eq. intros i. rewrite !list_lookup_fmap.
  destruct (decide (i = ci)) as [->|Hne].
  - rewrite list_lookup_alter_eq, Hc. simpl. f_equal.
    unfold set_chip_lines; simpl. f_equal.
    rewrite list_fmap_insert. apply list_insert_id.
    rewrite list_lookup_fmap, H. reflexivity.
  - rewrite list_lookup_alter_ne by congruence. reflexivity.
Qed.

(** X5: a change of the variable of a PWM output is stored as the new duty
    and yet reported as [EINVAL]: the PWM path of [UpdateOutput] never
    assigns its result.  [WaitVarSignal] reports [EOK] all the same. *)
Theorem UpdateOutput_pwm_reports_EINVAL st h r g var :
  FindGPIO st h = Some r ->
  deref st r = Some g ->
  direction g = GPIOD_LINE_DIRECTION_OUTPUT ->
  PWM g = true ->
  env_VAR_Get env h = (EOK, var) ->
  var_type var = VARTYPE_UINT16 ->
  result_of (UpdateOutput env h st) = EINVAL /\
  value <$> deref (state_of (UpdateOutput env h st)) r
    = Some (Z.min (uint16 (val_ui var)) 255) /\
  result_of (WaitVarSignal env SIG_VAR_MODIFIED h st) = EOK.
Proof.
  intros Hf Hd Hdir Hpwm Hget Hty.
  rewrite WaitVarSignal_modified.
  rewrite (UpdateOutput_run _ _ _ _ _ Hf Hd Hdir Hget Hty), Hpwm.
  unfold result_of, state_of; cbn [fst snd].
  rewrite (deref_store_same _ _ _ _ Hd). simpl.
  split; [reflexivity|]. split; [|reflexivity].
  f_equal. destruct (Z.leb_spec (uint16 (val_ui var)) 255); lia.
Qed.

(** X6: when the variable is bound to no output line (it is the invalid
    handle, or bound to nothing, or bound to a line that is not an output),
    [UpdateOutput] makes no call at all, not even a read of the variable,
    and leaves the state as it is; the result is [EINVAL], [ENOENT] or
    [ENOTSUP] in these three cases. *)
Theorem UpdateOutput_rejects_quietly st h :
  (forall g, (FindGPIO st h ≫= deref st) = Some g ->
             direction g <> GPIOD_LINE_DIRECTION_OUTPUT) ->
  UpdateOutput env h st
  = (match FindGPIO st h with
     | None => if h =? VAR_INVALID then EINVAL else ENOENT
     | Some _ => ENOTSUP
     end, st, []).
Proof.
  intros Hno.
  destruct (FindGPIO st h) as [r|] eqn:Hf.
  - destruct (FindGPIO_deref _ _ _ Hf) as (g & Hd).
    rewrite (UpdateOutput_found _ _ _ _ Hf Hd).
    simpl in Hno. specialize (Hno g Hd).
    apply Z.eqb_neq in Hno. rewrite Hno. reflexivity.
  - apply UpdateOutput_not_found. exact Hf.
Qed.

Lemma UpdateInput_not_found st h :
  FindGPIO st h = None ->
  UpdateInput env h st
  = (if h =? VAR_INVALID then EINVAL else ENOENT, st, []).
Proof.
  intros Hf. unfold UpdateInput.
  destruct (h =? VAR_INVALID); [reflexivity|].
  run_monad. rewrite Hf. reflexivity.
Qed.

Lemma UpdateInput_found st h r g :
  FindGPIO st h = Some r ->
  deref st r = Some g ->
  UpdateInput env h st
  = let level := env_gpiod_line_get_value env (pLine g) in
    let var := mkVarObject VARTYPE_UINT16 2 (if level >? 0 then 1 else 0) in
    if direction g =? GPIOD_LINE_DIRECTION_INPUT then
      if level =? -1
      then (EIO, st, [call_gpiod_line_get_value (pLine g)])
      else (env_VAR_Set env h var, st,
            [call_gpiod_line_get_value (pLine g); call_VAR_Set h var])
    else (ENOTSUP, st, []).
Proof.
  intros Hf Hd.
  destruct (FindGPIO_found _ _ _ Hf) as (Hne & _).
  apply Z.eqb_neq in Hne.
  unfold UpdateInput, at_ref. rewrite Hne.
  run_monad. rewrite Hf, Hd.
  destruct (direction g =? GPIOD_LINE_DIRECTION_INPUT); simpl.
  - destruct (env_gpiod_line_get_value env (pLine g) =? -1); simpl;
      rewrite (store_same _ _ _ Hd); reflexivity.
  - rewrite (store_same _ _ _ Hd). reflexivity.
Qed.

(** X7: whatever the variable and the registry, [UpdateInput] leaves the
    state as it is, drives no line and reads no variable; it reads the level
    of at most one line, the line of the input descriptor the variable is
    bound to, and writes at most once, to that variable, a UINT16 that is 0
    or 1. *)
Theorem UpdateInput_observes_only st h :
  let t := calls_of (UpdateInput env h st) in
  state_of (UpdateInput env h st) = st /\
  hw_writes t = [] /\ var_reads t = [] /\
  (length (level_reads t) <= 1)%nat /\
  Forall (fun l => exists r g, FindGPIO st h = Some r /\ deref st r = Some g /\
                               pLine g = l /\
                               direction g = GPIOD_LINE_DIRECTION_INPUT)
         (level_reads t) /\
  (length (var_writes t) <= length (level_reads t))%nat /\
  Forall (fun w => fst w = h /\ var_type (snd w) = VARTYPE_UINT16 /\
                   (val_ui (snd w) = 0 \/ val_ui (snd w) = 1))
         (var_writes t).
Proof.
  intros t. subst t.
  destruct (FindGPIO st h) as [r|] eqn:Hf.
  - destruct (FindGPIO_deref _ _ _ Hf) as (g & Hd).
    rewrite (UpdateInput_found _ _ _ _ Hf Hd). cbv zeta.
    destruct (direction g =? GPIOD_LINE_DIRECTION_INPUT) eqn:Hdir;
      [|simpl; repeat split; auto].
    apply Z.eqb_eq in Hdir.
    assert (Hl : Forall (fun l => exists r0 g0, Some r = Some r0 /\
                   deref st r0 = Some g0 /\ pLine g0 = l /\
                   direction g0 = GPIOD_LINE_DIRECTION_INPUT) [pLine g]).
    { constructor; [|constructor]. exists r, g. auto. }
    destruct (env_gpiod_line_get_value env (pLine g) =? -1); simpl.
    + repeat split; auto.
    + repeat split; auto.
      constructor; [|constructor]. simpl.
      destruct (env_gpiod_line_get_value env (pLine g) >? 0); auto.
  - rewrite (UpdateInput_not_found _ _ Hf). simpl. repeat split; auto.
Qed.

(** X8: whatever the line and the registry, [HandleGPIOEvent] leaves the
    state as it is, drives no line, reads no level and no variable; it
    writes at most once, a UINT16 that is 0 or 1, to the variable [FindVar]
    gives for the line, and only after an event was read from the line with
    success. *)
Theorem HandleGPIOEvent_observes_only st l :
  let t := calls_of (HandleGPIOEvent env l st) in
  state_of (HandleGPIOEvent env l st) = st /\
  hw_writes t = [] /\ var_reads t = [] /\ level_reads t = [] /\
  (length (var_writes t) <= 1)%nat /\
  Forall (fun w => fst w = FindVar st l /\ fst w <> VAR_INVALID /\
                   l <> NULL /\
                   fst (env_gpiod_line_event_read env l) = 0 /\
                   var_type (snd w) = VARTYPE_UINT16 /\
                   (val_ui (snd w) = 0 \/ val_ui (snd w) = 1))
         (var_writes t).
Proof.
  intros t. subst t. unfold HandleGPIOEvent.
  destruct (l =? NULL) eqn:Hl; [simpl; repeat split; auto|].
  run_monad.
  destruct (fst (env_gpiod_line_event_read env l) =? 0) eqn:Hrc;
    [|simpl; repeat split; auto].
  simpl.
  destruct (FindVar st l =? VAR_INVALID) eqn:Hv; simpl;
    [repeat split; auto|].
  repeat split; auto.
  constructor; [|constructor]. simpl.
  apply Z.eqb_neq in Hl, Hv. apply Z.eqb_eq in Hrc.
  repeat split; auto.
  destruct (snd (env_gpiod_line_event_read env l)
            =? GPIOD_LINE_EVENT_RISING_EDGE); auto.
Qed.

(** ** The dispatchers and the main loop *)

Lemma UpdateInput_state st h : state_of (UpdateInput env h st) = st.
Proof.
  destruct (FindGPIO st h) as [r|] eqn:Hf.
  - destruct (FindGPIO_deref _ _ _ Hf) as (g & Hd).
    rewrite (UpdateInput_found _ _ _ _ Hf Hd). cbv zeta.
    destruct (direction g =? GPIOD_LINE_DIRECTION_INPUT); [|reflexivity].
    destruct (env_gpiod_line_get_value env (pLine g) =? -1); reflexivity.
  - rewrite (UpdateInput_not_found _ _ Hf). reflexivity.
Qed.

Lemma UpdateOutput_forget_values st h :
  forget_values (state_of (UpdateOutput env h st)) = forget_values st.
Proof.
  destruct (FindGPIO st h) as [r|] eqn:Hf.
  - destruct (FindGPIO_deref _ _ _ Hf) as (g & Hd).
    rewrite (UpdateOutput_found _ _ _ _ Hf Hd).
    cbv zeta.
    destruct (direction g =? GPIOD_LINE_DIRECTION_OUTPUT); [|reflexivity].
    destruct (fst (env_VAR_Get env h) =? EOK); [|reflexivity].
    destruct (var_type (snd (env_VAR_Get env h)) =? VARTYPE_UINT16);
      [|reflexivity].
    destruct (PWM g); unfold state_of; cbn [fst snd];
      apply forget_values_store; exact Hd.
  - rewrite (UpdateOutput_not_found _ _ Hf). reflexivity.
Qed.

Lemma HandleGPIOEvent_state st l : state_of (HandleGPIOEvent env l st) = st.
Proof.
  unfold HandleGPIOEvent.
  destruct (l =? NULL); [reflexivity|]. run_monad.
  destruct (fst (env_gpiod_line_event_read env l) =? 0); [|reflexivity].
  simpl. destruct (FindVar st l =? VAR_INVALID); reflexivity.
Qed.

Lemma PrintLineInfo_state g fd st : state_of (PrintLineInfo env g fd st) = st.
Proof.
  unfold PrintLineInfo, gpiod_line_name, write.
  destruct (fd =? -1); [reflexivity|].
  destruct (pLine g =? NULL); reflexivity.
Qed.

Lemma PrintStatus_lines_state ls fd : forall first st,
  state_of (PrintStatus_lines env ls first fd st) = st.
Proof.
  induction ls as [|g ls IH]; intros first st; simpl; [reflexivity|].
  rewrite !state_of_bind, IH, PrintLineInfo_state.
  destruct first; reflexivity.
Qed.

Lemma PrintStatus_chips_state cs fd : forall first st,
  state_of (PrintStatus_chips env cs first fd st) = st.
Proof.
  induction cs as [|c cs IH]; intros first st; simpl; [reflexivity|].
  rewrite !state_of_bind, IH. unfold write at 1. cbn [state_of emit fst snd].
  rewrite PrintStatus_lines_state. unfold write. cbn [state_of emit fst snd].
  destruct first; reflexivity.
Qed.

Lemma PrintStatus_state fd st : state_of (PrintStatus env fd st) = st.
Proof.
  unfold PrintStatus. destruct (fd =? -1); [reflexivity|].
  rewrite !state_of_bind. unfold write, get, ret.
  cbn [state_of result_of emit fst snd].
  apply PrintStatus_chips_state.
Qed.

Lemma WaitVarSignal_forget_values sig v st :
  forget_values (state_of (WaitVarSignal env sig v st)) = forget_values st.
Proof.
  unfold WaitVarSignal.
  destruct (sig =? SIG_VAR_MODIFIED).
  { rewrite state_of_bind. apply UpdateOutput_forget_values. }
  destruct (sig =? SIG_VAR_CALC).
  { rewrite state_of_bind. cbn [ret state_of fst snd].
    rewrite UpdateInput_state. reflexivity. }
  destruct (sig =? SIG_VAR_PRINT); [|reflexivity].
  rewrite !state_of_bind. cbn [ret emit state_of result_of fst snd].
  rewrite PrintStatus_state. reflexivity.
Qed.

(** X4: no signal changes anything in the state but [value] fields:
    after [UpdateOutput], and after [WaitVarSignal] on any signal, the
    operating mode, the monitored lines, the chips and, in every descriptor,
    the line, the variable, the direction, the PWM mark, the event
    subscription and the request are as before, on every path. *)
Theorem UpdateOutput_changes_values_only st h sig :
  forget_values (state_of (UpdateOutput env h st)) = forget_values st /\
  forget_values (state_of (WaitVarSignal env sig h st)) = forget_values st.
Proof.
  split; [apply UpdateOutput_forget_values|apply WaitVarSignal_forget_values].
Qed.

Lemma WaitGPIOEvent_lines_run events st :
  WaitGPIOEvent_lines env events st
  = (tt, st, concat (map (fun l => calls_of (HandleGPIOEvent env l st)) events)).
Proof.
  induction events as [|l events IH]; simpl; [reflexivity|].
  unfold bind. rewrite (run_eta (HandleGPIOEvent env l st)).
  rewrite HandleGPIOEvent_state, IH. reflexivity.
Qed.

Lemma WaitGPIOEvent_run rc errno events st :
  WaitGPIOEvent env rc errno events st
  = (if rc <? 0 then errno else EINVAL, st,
     if rc >? 0
     then concat (map (fun l => calls_of (HandleGPIOEvent env l st)) events)
     else []).
Proof.
  unfold WaitGPIOEvent.
  destruct (Z.ltb_spec rc 0) as [Hneg|Hpos].
  - destruct (Z.gtb_spec rc 0); [lia|]. reflexivity.
  - destruct (rc >? 0); [|reflexivity].
    unfold bind. rewrite WaitGPIOEvent_lines_run. simpl.
    rewrite app_nil_r. reflexivity.
Qed.

(** X9: [WaitGPIOEvent] handles the lines that fired one by one, in order,
    each on the same, unchanged state, and handles nothing when the wait
    failed or timed out; it reports [errno] when the wait failed and
    [EINVAL] otherwise, also after a wait that delivered events. *)
Theorem WaitGPIOEvent_handles_each_event rc errno events st :
  WaitGPIOEvent env rc errno events st
  = (if rc <? 0 then errno else EINVAL, st,
     if rc >? 0
     then concat (map (fun l => calls_of (HandleGPIOEvent env l st)) events)
     else []).
Proof. apply WaitGPIOEvent_run. Qed.

Lemma FindVar_owner st l :
  FindVar st l <> VAR_INVALID ->
  exists g, In g (all_lines st) /\ hVar g = FindVar st l /\ pLine g = l.
Proof.
  intros Hv. destruct (Z.eq_dec l NULL) as [->|Hl].
  { exfalso. apply Hv. unfold FindVar. rewrite Z.eqb_refl. reflexivity. }
  rewrite (FindVar_first _ _ Hl) in *.
  destruct (find (fun g => pLine g =? l) (all_lines st)) as [g|] eqn:Hf;
    [|congruence].
  apply find_some in Hf. destruct Hf as [Hin Hp]. apply Z.eqb_eq in Hp.
  exists g. auto.
Qed.

Lemma HandleGPIOEvent_calls st l :
  Forall (watch_mode_call st) (calls_of (HandleGPIOEvent env l st)).
Proof.
  unfold HandleGPIOEvent.
  destruct (l =? NULL); [constructor|]. run_monad.
  destruct (fst (env_gpiod_line_event_read env l) =? 0);
    [|repeat constructor].
  simpl. destruct (FindVar st l =? VAR_INVALID) eqn:Hv; simpl;
    [repeat constructor|].
  apply Z.eqb_neq in Hv.
  constructor; [exact I|]. constructor; [|constructor]. simpl.
  destruct (FindVar_owner _ _ Hv) as (g & Hin & Hh & _).
  split; [exists g; auto|]. split; [reflexivity|].
  destruct (snd (env_gpiod_line_event_read env l)
            =? GPIOD_LINE_EVENT_RISING_EDGE); auto.
Qed.

Lemma Forall_concat_map {A B} (P : B -> Prop) (f : A -> list B) l :
  (forall x, Forall P (f x)) -> Forall P (concat (map f l)).
Proof.
  intros H. induction l as [|x l IH]; simpl; [constructor|].
  apply Forall_app. split; [apply H|exact IH].
Qed.

Lemma WaitGPIOEvent_calls rc errno events st :
  Forall (watch_mode_call st) (calls_of (WaitGPIOEvent env rc errno events st)).
Proof.
  rewrite WaitGPIOEvent_run. unfold calls_of; cbn [snd].
  destruct (rc >? 0); [|constructor].
  apply Forall_concat_map. intros l. apply HandleGPIOEvent_calls.
Qed.

Lemma run_loop_watch ws st :
  gpiowatch st = true -> running st = true ->
  run_loop env ws st
  = (tt, st,
     concat (map (fun w => calls_of (WaitGPIOEvent env (wake_rc w)
                                       (wake_errno w) (wake_events w) st))
                 ws)).
Proof.
  intros Hw Hr. induction ws as [|w ws IH]; simpl; [reflexivity|].
  unfold bind at 1, get at 1. rewrite Hr, Hw. simpl.
  unfold bind. rewrite WaitGPIOEvent_run, IH. reflexivity.
Qed.

Lemma run_watch_run st ws :
  gpiowatch st = true ->
  run env ws st
  = (EOK, set_running st true,
     concat (map (fun w => calls_of (WaitGPIOEvent env (wake_rc w)
                                       (wake_errno w) (wake_events w)
                                       (set_running st true)))
                 ws)).
Proof.
  intros Hw. unfold run, bind, modify, ret.
  rewrite (run_loop_watch ws (set_running st true) Hw eq_refl). simpl.
  rewrite app_nil_r. reflexivity.
Qed.

Lemma run_watch_calls st ws :
  gpiowatch st = true ->
  Forall (watch_mode_call st) (calls_of (run env ws st)).
Proof.
  intros Hw. rewrite (run_watch_run _ _ Hw). run_proj.
  apply Forall_concat_map. intros w.
  apply (WaitGPIOEvent_calls _ _ _ (set_running st true)).
Qed.


Lemma all_lines_forget_values st :
  all_lines (forget_values st) = map (fun g => set_value g 0) (all_lines st).
Proof.
  unfold all_lines, forget_values. simpl.
  induction (chips st) as [|c cs IH]; simpl; [reflexivity|].
  rewrite map_app, IH. reflexivity.
Qed.

Lemma forget_values_line st st' g' :
  forget_values st' = forget_values st ->
  In g' (all_lines st') ->
  exists g, In g (all_lines st) /\ pLine g = pLine g' /\
            hVar g = hVar g' /\ direction g = direction g' /\
            PWM g = PWM g'.
Proof.
  intros Heq Hin.
  apply (in_map (fun g => set_value g 0)) in Hin.
  rewrite <- all_lines_forget_values, Heq, all_lines_forget_values in Hin.
  apply in_map_iff in Hin. destruct Hin as (g & Hg & Hin).
  exists g. split; [exact Hin|].
  split; [exact (f_equal pLine Hg)|]. split; [exact (f_equal hVar Hg)|].
  split; [exact (f_equal direction Hg)|exact (f_equal PWM Hg)].
Qed.

Lemma UpdateOutput_calls st0 st h :
  forget_values st = forget_values st0 ->
  Forall (signal_mode_call st0) (calls_of (UpdateOutput env h st)).
Proof.
  intros Heq.
  destruct (FindGPIO st h) as [r|] eqn:Hf.
  - destruct (FindGPIO_deref _ _ _ Hf) as (g & Hd).
    rewrite (UpdateOutput_found _ _ _ _ Hf Hd). cbv zeta.
    destruct (direction g =? GPIOD_LINE_DIRECTION_OUTPUT) eqn:Hdir;
      [|constructor].
    destruct (fst (env_VAR_Get env h) =? EOK); [|repeat constructor].
    destruct (var_type (snd (env_VAR_Get env h)) =? VARTYPE_UINT16);
      [|repeat constructor].
    destruct (PWM g) eqn:Hpwm; [repeat constructor|].
    unfold calls_of; cbn [snd]. apply Forall_app. split.
    + constructor; [exact I|]. constructor; [|constructor]. simpl.
      split; [destruct (uint16 _ >? 0); auto|].
      destruct (forget_values_line st0 st g Heq (deref_In _ _ _ Hd))
        as (g0 & Hin & Hp & _ & Hdr & Hpw).
      exists g0. apply Z.eqb_eq in Hdir. repeat split; congruence.
    + destruct (negb _); repeat constructor.
  - rewrite (UpdateOutput_not_found _ _ Hf). constructor.
Qed.

Lemma UpdateInput_calls st0 st h :
  forget_values st = forget_values st0 ->
  Forall (signal_mode_call st0) (calls_of (UpdateInput env h st)).
Proof.
  intros Heq.
  destruct (FindGPIO st h) as [r|] eqn:Hf.
  - destruct (FindGPIO_deref _ _ _ Hf) as (g & Hd).
    rewrite (UpdateInput_found _ _ _ _ Hf Hd). cbv zeta.
    destruct (direction g =? GPIOD_LINE_DIRECTION_INPUT) eqn:Hdir;
      [|constructor].
    assert (Hr : signal_mode_call st0 (call_gpiod_line_get_value (pLine g))).
    { simpl.
      destruct (forget_values_line st0 st g Heq (deref_In _ _ _ Hd))
        as (g0 & Hin & Hp & _ & Hdr & _).
      exists g0. apply Z.eqb_eq in Hdir. repeat split; congruence. }
    destruct (env_gpiod_line_get_value env (pLine g) =? -1).
    + constructor; [exact Hr|constructor].
    + constructor; [exact Hr|]. constructor; [|constructor]. simpl.
      split; [reflexivity|].
      destruct (env_gpiod_line_get_value env (pLine g) >? 0); auto.
  - rewrite (UpdateInput_not_found _ _ Hf). constructor.
Qed.

Lemma PrintLineInfo_calls st0 g fd st :
  Forall (signal_mode_call st0) (calls_of (PrintLineInfo env g fd st)).
Proof.
  unfold PrintLineInfo, gpiod_line_name, write.
  destruct (fd =? -1); [constructor|].
  destruct (pLine g =? NULL); repeat constructor.
Qed.

Lemma PrintStatus_lines_calls st0 ls fd : forall first st,
  Forall (signal_mode_call st0) (calls_of (PrintStatus_lines env ls first fd st)).
Proof.
  induction ls as [|g ls IH]; intros first st; simpl; [constructor|].
  rewrite !calls_of_bind. apply Forall_app. split.
  { destruct first; repeat constructor. }
  apply Forall_app. split; [apply PrintLineInfo_calls|apply IH].
Qed.

Lemma PrintStatus_chips_calls st0 cs fd : forall first st,
  Forall (signal_mode_call st0) (calls_of (PrintStatus_chips env cs first fd st)).
Proof.
  induction cs as [|c cs IH]; intros first st; simpl; [constructor|].
  rewrite !calls_of_bind. apply Forall_app. split.
  { destruct first; repeat constructor. }
  apply Forall_app. split; [repeat constructor|].
  apply Forall_app. split; [apply PrintStatus_lines_calls|].
  apply Forall_app. split; [repeat constructor|apply IH].
Qed.

Lemma PrintStatus_calls st0 fd st :
  Forall (signal_mode_call st0) (calls_of (PrintStatus env fd st)).
Proof.
  unfold PrintStatus. destruct (fd =? -1); [constructor|].
  rewrite !calls_of_bind. apply Forall_app. split; [repeat constructor|].
  apply Forall_app. split; [constructor|].
  apply Forall_app. split; [apply PrintStatus_chips_calls|].
  apply Forall_app. split; repeat constructor.
Qed.

Lemma WaitVarSignal_calls st0 sig v st :
  forget_values st = forget_values st0 ->
  Forall (signal_mode_call st0) (calls_of (WaitVarSignal env sig v st)).
Proof.
  intros Heq. unfold WaitVarSignal.
  destruct (sig =? SIG_VAR_MODIFIED).
  { rewrite calls_of_bind. apply Forall_app.
    split; [apply UpdateOutput_calls; exact Heq|constructor]. }
  destruct (sig =? SIG_VAR_CALC).
  { rewrite calls_of_bind. apply Forall_app.
    split; [apply UpdateInput_calls; exact Heq|constructor]. }
  destruct (sig =? SIG_VAR_PRINT); [|constructor].
  rewrite !calls_of_bind. apply Forall_app. split; [repeat constructor|].
  apply Forall_app. split; [apply PrintStatus_calls|].
  apply Forall_app. split; repeat constructor.
Qed.

Lemma run_loop_signal st0 ws : forall st,
  gpiowatch st0 = false ->
  forget_values st = forget_values st0 ->
  forget_values (state_of (run_loop env ws st)) = forget_values st0 /\
  Forall (signal_mode_call st0) (calls_of (run_loop env ws st)).
Proof.
  induction ws as [|w ws IH]; intros st Hw Heq; simpl.
  { split; [exact Heq|constructor]. }
  assert (Hg : gpiowatch st = false).
  { rewrite <- Hw. exact (f_equal gpiowatch Heq). }
  rewrite state_of_bind, calls_of_bind.
  cbn [get result_of state_of calls_of fst snd app].
  destruct (eqb (running st) true); [|split; [exact Heq|constructor]].
  rewrite Hg. cbn [eqb].
  rewrite state_of_bind, calls_of_bind.
  assert (Heq1 : forget_values (state_of (WaitVarSignal env (wake_sig w)
                                            (wake_sigval w) st))
                 = forget_values st0).
  { rewrite WaitVarSignal_forget_values. exact Heq. }
  destruct (IH _ Hw Heq1) as [Hs Hc].
  split; [exact Hs|].
  apply Forall_app. split; [apply WaitVarSignal_calls; exact Heq|exact Hc].
Qed.

Lemma run_signal_frame st ws :
  gpiowatch st = false ->
  forget_values (state_of (run env ws st))
  = forget_values (set_running st true) /\
  Forall (signal_mode_call st) (calls_of (run env ws st)).
Proof.
  intros Hw. unfold run.
  rewrite !state_of_bind, !calls_of_bind.
  cbn [modify ret result_of state_of calls_of fst snd app].
  destruct (run_loop_signal (set_running st true) ws (set_running st true)
              Hw eq_refl) as [Hs Hc].
  split; [exact Hs|]. rewrite app_nil_r. exact Hc.
Qed.

(** X11: in signal mode the main thread, from its entry into [run] to its
    return, changes nothing of the state but the [running] mark and [value]
    fields, and makes no call but these: reads of variables, writes of 0 or
    1 to output lines of the registry that are not PWM outputs, reads of the
    level of input lines of the registry, writes of a UINT16 0 or 1 to
    variables, messages to the log of the system and the calls of a status
    report; it never reads an edge event, never sleeps, never requests or
    releases a line, and never opens or closes a chip.  This is [run] on
    the main thread only: the threads that [CreatePWM] started at binding
    go on beside it, write to their PWM lines and sleep, and are no part of
    [run]. *)
Theorem run_in_signal_mode st ws :
  gpiowatch st = false ->
  result_of (run env ws st) = EOK /\
  forget_values (state_of (run env ws st))
  = forget_values (set_running st true) /\
  Forall (signal_mode_call st) (calls_of (run env ws st)).
Proof.
  intros Hw. split; [|apply run_signal_frame; exact Hw].
  unfold run. rewrite !result_of_bind. reflexivity.
Qed.

(** ** Invariants of a run and its log *)

Lemma keeps_ret {S A} (I : S -> list Call -> Prop) (a : A) : keeps I (ret a).
Proof. intros s t H. simpl. rewrite app_nil_r. exact H. Qed.

Lemma keeps_bind {S A B} (I : S -> list Call -> Prop) (m : M S A)
    (k : A -> M S B) :
  keeps I m -> (forall a, keeps I (k a)) -> keeps I (bind m k).
Proof.
  intros Hm Hk s t H.
  rewrite state_of_bind, calls_of_bind, app_assoc.
  apply Hk. apply Hm. exact H.
Qed.

Lemma keeps_iterate {S} (I : S -> list Call -> Prop) (fn : JNode -> M S Z) :
  (forall pNode, keeps I (fn pNode)) ->
  forall items rc, keeps I (JSON_Iterate_items env items fn rc).
Proof.
  intros Hfn. induction items as [|pNode items IH]; intros rc; simpl.
  - apply keeps_ret.
  - apply keeps_bind; [apply Hfn|]. intros a.
    destruct (a =? EOK); [apply IH|].
    destruct (env_JSON_Iterate_stops env); [apply keeps_ret|apply IH].
Qed.

Lemma keeps_JSON_Iterate {S} (I : S -> list Call -> Prop)
    (fn : JNode -> M S Z) pArray :
  (forall pNode, keeps I (fn pNode)) -> keeps I (JSON_Iterate env pArray fn).
Proof.
  intros Hfn. unfold JSON_Iterate.
  destruct pArray as [[| |items|]|]; try apply keeps_ret.
  apply keeps_iterate. exact Hfn.
Qed.

(** ** The calls of binding, step by step *)

Lemma snoc_cases {A} (l : list A) : l = [] \/ exists l' x, l = l' ++ [x].
Proof.
  destruct l as [|a l] using rev_ind; [left; reflexivity|].
  right. exists l, a. reflexivity.
Qed.

Lemma ParseLine_no_chip pNode st :
  chips st = [] -> ParseLine env pNode st = (EOK, st, []).
Proof.
  intros Hc. rewrite ParseLine_unfold. unfold CreateLine.
  unfold bind, get. rewrite Hc. reflexivity.
Qed.

Lemma ParseLineDirection_calls pState pNode g :
  calls_of (ParseLineDirection env pState pNode g) = [] \/
  calls_of (ParseLineDirection env pState pNode g) = [call_VAR_Get (hVar g)].
Proof.
  unfold ParseLineDirection, GetLineOutputValue. run_monad.
  repeat match goal with
         | |- context [if ?b then _ else _] => destruct b; simpl
         | |- context [match ?x with Some _ => _ | None => _ end] =>
             destruct x; simpl
         end; auto.
Qed.

Lemma ParseLineDirection_request pState pNode g :
  let gd := state_of (ParseLineDirection env pState pNode g) in
  request_type (request gd) = request_type (request g) \/
  request_type (request gd) = GPIOD_LINE_REQUEST_DIRECTION_INPUT \/
  request_type (request gd) = GPIOD_LINE_REQUEST_DIRECTION_OUTPUT.
Proof.
  unfold ParseLineDirection, GetLineOutputValue. run_monad.
  repeat match goal with
         | |- context [if ?b then _ else _] => destruct b; simpl
         | |- context [match ?x with Some _ => _ | None => _ end] =>
             destruct x; simpl
         end; auto.
Qed.

Lemma RequestLine_no_service pState g :
  service pState = None -> RequestLine env pState g = (EINVAL, g, []).
Proof. intros H. unfold RequestLine. rewrite H. reflexivity. Qed.

Lemma ParseLine_configure_no_service pState pNode g :
  service pState = None ->
  calls_of (ParseLine_configure pState pNode g)
  = calls_of (ParseLineDirection env pState pNode g).
Proof.
  intros Hs.
  unfold ParseLine_configure, bind, state_of, calls_of.
  destruct (ParseLineDirection env pState pNode g) as [[rc0 gd] t0].
  cbn [fst snd].
  destruct (ParseLineActiveState_frame pNode gd) as (rc1 & f1 & E1).
  rewrite E1, ParseLineEvent_run.
  destruct (ParseLineBias_frame pNode
              (set_event_type (set_flags gd f1) (parsed_event pNode)))
    as (rc3 & f3 & E3).
  rewrite E3.
  destruct (ParseLineDrive_frame pNode
              (set_flags (set_event_type (set_flags gd f1)
                                         (parsed_event pNode)) f3))
    as (rc4 & f4 & E4).
  rewrite E4, (RequestLine_no_service pState _ Hs).
  cbn [ret app]. rewrite ?app_nil_r. reflexivity.
Qed.

Lemma parsed_event_cases pNode :
  parsed_event pNode = 0 \/
  parsed_event pNode = GPIOD_LINE_REQUEST_EVENT_RISING_EDGE \/
  parsed_event pNode = GPIOD_LINE_REQUEST_EVENT_FALLING_EDGE \/
  parsed_event pNode = GPIOD_LINE_REQUEST_EVENT_BOTH_EDGES.
Proof.
  unfold parsed_event, ParseLineEvent. run_monad.
  repeat match goal with
         | |- context [if ?b then _ else _] => destruct b; simpl
         | |- context [match ?x with Some _ => _ | None => _ end] =>
             destruct x; simpl
         end; auto.
Qed.

Lemma ParseLine_configure_calls pState pNode g :
  request_type (request g) = 0 ->
  Forall (binding_call (gpiowatch pState) (service pState))
         (calls_of (ParseLine_configure pState pNode g)).
Proof.
  intros Hfresh.
  assert (Hdir : Forall (binding_call (gpiowatch pState) (service pState))
                   (calls_of (ParseLineDirection env pState pNode g))).
  { destruct (ParseLineDirection_calls pState pNode g) as [-> | ->];
      repeat constructor. }
  destruct (service pState) as [svc|] eqn:Hs.
  2:{ rewrite (ParseLine_configure_no_service _ _ _ Hs). exact Hdir. }
  rewrite (ParseLine_configure_run pState svc pNode g Hs). cbv zeta.
  unfold calls_of at 1; cbn [snd].
  apply Forall_app. split; [exact Hdir|].
  destruct (request_due (gpiowatch pState) (parsed_event pNode)) eqn:Hdue;
    [|constructor].
  constructor; [|constructor]. simpl.
  split; [reflexivity|]. split; [reflexivity|]. split; [discriminate|].
  apply request_due_spec in Hdue.
  destruct Hdue as [[Hw Hev] | [Hw Hev]]; rewrite Hw.
  - apply Z.eqb_neq in Hev. rewrite Hev. apply Z.eqb_neq in Hev.
    split; [exact Hev|].
    destruct (parsed_event_cases pNode) as [H|H]; [contradiction|exact H].
  - rewrite Hev. simpl.
    pose proof (ParseLineDirection_request pState pNode g) as H.
    simpl in H. rewrite Hfresh in H. exact H.
Qed.

Lemma ParseLine_notify_calls pState g0 g :
  Forall (binding_call (gpiowatch pState) (service pState))
         (calls_of (ParseLine_notify pState g0 g)).
Proof.
  unfold ParseLine_notify, SetupNotification, CreatePWM. run_monad.
  destruct (gpiowatch pState) eqn:Hw; simpl; [constructor|].
  repeat match goal with
         | |- context [if ?b then _ else _] => destruct b; simpl
         end;
    repeat match goal with |- Forall _ _ => constructor end; simpl; auto.
Qed.

Lemma ParseLine_notify_quiet pState g0 g :
  lines_obtained (calls_of (ParseLine_notify pState g0 g)) = [] /\
  lines_released (calls_of (ParseLine_notify pState g0 g)) = [] /\
  chips_opened (calls_of (ParseLine_notify pState g0 g)) = [] /\
  chips_closed (calls_of (ParseLine_notify pState g0 g)) = [].
Proof.
  unfold ParseLine_notify, SetupNotification, CreatePWM. run_monad.
  repeat match goal with
         | |- context [if ?b then _ else _] => destruct b; simpl
         end; repeat split; reflexivity.
Qed.

Lemma ParseLine_configure_quiet pState pNode g :
  lines_obtained (calls_of (ParseLine_configure pState pNode g)) = [] /\
  lines_released (calls_of (ParseLine_configure pState pNode g)) = [] /\
  chips_opened (calls_of (ParseLine_configure pState pNode g)) = [] /\
  chips_closed (calls_of (ParseLine_configure pState pNode g)) = [].
Proof.
  destruct (service pState) as [svc|] eqn:Hs.
  - rewrite (ParseLine_configure_run pState svc pNode g Hs). cbv zeta.
    unfold calls_of at 1 3 5 7; cbn [snd].
    unfold lines_obtained, lines_released, chips_opened, chips_closed.
    rewrite !omap_app.
    destruct (ParseLineDirection_calls pState pNode g) as [-> | ->];
      destruct (request_due _ _); repeat split; reflexivity.
  - rewrite (ParseLine_configure_no_service _ _ _ Hs).
    destruct (ParseLineDirection_calls pState pNode g) as [-> | ->];
      repeat split; reflexivity.
Qed.

(** The calls of [CreateLine]: a line object obtained is either held by the
    descriptor linked or released at once. *)
Lemma CreateLine_calls st cs c pNode w svc :
  chips st = cs ++ [c] ->
  let t := calls_of (CreateLine env pNode st) in
  Forall (binding_call w svc) t /\
  lines_obtained t
  = lines_released t ++
    match created_line (hVarServer st) (pChip c) pNode with
    | Some g0 => [pLine g0]
    | None => []
    end /\
  chips_opened t = [] /\ chips_closed t = [].
Proof.
  intros Hc t. subst t.
  unfold CreateLine, created_line, GetVarHandle, VAR_FindByName,
    gpiod_chip_get_line, printf. run_monad.
  rewrite Hc, last_snoc.
  destruct (hVarServer st =? NULL).
  { cbn [fst snd]. rewrite Z.eqb_refl. simpl.
    repeat split; repeat constructor. }
  destruct (JSON_GetStr pNode "var") as [vn|].
  2:{ cbn [fst snd]. rewrite Z.eqb_refl. simpl.
      destruct (JSON_GetStr pNode "line"); repeat split; repeat constructor. }
  cbn [fst snd app].
  destruct (env_VAR_FindByName env vn =? VAR_INVALID) eqn:Eh.
  { cbn [negb fst snd]. rewrite Eh. simpl.
    destruct (JSON_GetStr pNode "line"); repeat split; repeat constructor. }
  cbn [negb fst snd orb]. rewrite Eh. cbn [negb].
  destruct (JSON_GetStr pNode "line") as [ls|];
    [|simpl; repeat split; repeat constructor].
  cbn [fst snd app].
  destruct (env_gpiod_chip_get_line env (pChip c)
              (uint32 (env_strtoul env ls)) =? NULL) eqn:El; cbn [negb orb].
  { simpl. rewrite El. repeat split; repeat constructor. }
  destruct (env_calloc_GPIO env _); cbn [negb].
  - simpl. rewrite El. repeat split; repeat constructor.
  - simpl. rewrite El. repeat split; repeat constructor.
Qed.

Lemma track_monitored_frame st g :
  gpiowatch (track_monitored st g) = gpiowatch st /\
  service (track_monitored st g) = service st /\
  hVarServer (track_monitored st g) = hVarServer st /\
  chips (track_monitored st g) = chips st.
Proof.
  unfold track_monitored. destruct (_ && _); repeat split; reflexivity.
Qed.

(** Whatever [CreateChip] is given, the chip it opens is linked or closed
    at once, and no line is touched. *)
Lemma CreateChip_any pNode st :
  let t := calls_of (CreateChip env pNode st) in
  fst (CreateChip env pNode st)
  = match created_chip pNode with
    | Some c => (true, set_chips st (chips st ++ [c]))
    | None => (false, st)
    end /\
  (forall w svc, Forall (binding_call w svc) t) /\
  chips_opened t
  = chips_closed t ++ match created_chip pNode with
                      | Some c => [pChip c]
                      | None => []
                      end /\
  lines_obtained t = [] /\ lines_released t = [].
Proof.
  unfold CreateChip, created_chip, gpiod_chip_open, printf. run_monad.
  destruct (JSON_GetStr pNode "chip") as [chipName|];
    [|simpl; repeat split; repeat constructor].
  destruct (env_gpiod_chip_open env ("/dev/" +:+ chipName) =? NULL) eqn:Eo;
    cbn [negb orb].
  { simpl. rewrite Eo. repeat split; repeat constructor. }
  destruct (env_calloc_GPIOChip env _); cbn [negb];
    simpl; rewrite Eo; repeat split; repeat constructor.
Qed.

Lemma keeps_CreateLines (I : GPIOCtrlState -> list Call -> Prop) pNode :
  (forall n, keeps I (ParseLine env n)) -> keeps I (CreateLines env pNode).
Proof.
  intros H. unfold CreateLines.
  destruct (JSON_Find pNode "lines") as [[| |items|]|]; try apply keeps_ret.
  apply keeps_JSON_Iterate. exact H.
Qed.

Lemma keeps_ParseChip (I : GPIOCtrlState -> list Call -> Prop) :
  (forall n, keeps I (ParseLine env n)) ->
  (forall n, keeps I (CreateChip env n)) ->
  forall n, keeps I (ParseChip env n).
Proof.
  intros HL HC n. unfold ParseChip. apply keeps_bind; [apply HC|].
  intros [|]; [apply keeps_CreateLines; exact HL|apply keeps_ret].
Qed.

Lemma keeps_binding (I : GPIOCtrlState -> list Call -> Prop) pArray :
  (forall n, keeps I (ParseLine env n)) ->
  (forall n, keeps I (CreateChip env n)) ->
  keeps I (JSON_Iterate env pArray (ParseChip env)).
Proof.
  intros HL HC. apply keeps_JSON_Iterate. apply keeps_ParseChip; assumption.
Qed.

Lemma ParseLine_keeps_mode w svc pNode :
  keeps (fun st t => gpiowatch st = w /\ service st = svc /\
                     Forall (binding_call w svc) t)
        (ParseLine env pNode).
Proof.
  intros st t (Hw & Hs & Ht).
  destruct (snoc_cases (chips st)) as [Hc | (cs & c & Hc)].
  { rewrite (ParseLine_no_chip _ _ Hc). simpl. rewrite app_nil_r. auto. }
  rewrite (ParseLine_run st cs c pNode Hc).
  destruct (CreateLine_calls st cs c pNode w svc Hc) as (HC & _).
  destruct (created_line (hVarServer st) (pChip c) pNode) as [g0|] eqn:Hcl.
  2:{ unfold state_of, calls_of; cbn [fst snd].
      split; [exact Hw|]. split; [exact Hs|].
      apply Forall_app. split; assumption. }
  cbv zeta.
  set (st1 := set_chips st (cs ++ [set_chip_lines c (chip_lines c ++ [g0])])).
  set (g1 := state_of (ParseLine_configure st1 pNode g0)).
  set (st2 := set_chips st (cs ++ [set_chip_lines c (chip_lines c ++ [g1])])).
  run_proj.
  destruct (track_monitored_frame st2 g1) as (Hw3 & Hs3 & _).
  split; [rewrite Hw3; exact Hw|]. split; [rewrite Hs3; exact Hs|].
  apply Forall_app. split; [exact Ht|].
  apply Forall_app. split; [exact HC|].
  apply Forall_app. split.
  - destruct (created_line_fresh _ _ _ _ Hcl) as (_ & _ & _ & _ & _ & _ & Hr).
    pose proof (ParseLine_configure_calls st1 pNode g0) as H.
    rewrite Hr in H. specialize (H eq_refl).
    change (gpiowatch st1) with (gpiowatch st) in H.
    change (service st1) with (service st) in H.
    rewrite Hw, Hs in H. exact H.
  - pose proof (ParseLine_notify_calls (track_monitored st2 g1) g1 g1) as H.
    rewrite Hw3, Hs3 in H.
    change (gpiowatch st2) with (gpiowatch st) in H.
    change (service st2) with (service st) in H.
    rewrite Hw, Hs in H. exact H.
Qed.

Lemma CreateChip_keeps_mode w svc pNode :
  keeps (fun st t => gpiowatch st = w /\ service st = svc /\
                     Forall (binding_call w svc) t)
        (CreateChip env pNode).
Proof.
  intros st t (Hw & Hs & Ht).
  destruct (CreateChip_any pNode st) as (Hst & Hc & _).
  unfold state_of. rewrite Hst.
  split; [destruct (created_chip pNode); exact Hw|].
  split; [destruct (created_chip pNode); exact Hs|].
  apply Forall_app. split; [exact Ht|apply Hc].
Qed.

Lemma binding_keeps_mode w svc pArray :
  keeps (fun st t => gpiowatch st = w /\ service st = svc /\
                     Forall (binding_call w svc) t)
        (JSON_Iterate env pArray (ParseChip env)).
Proof.
  apply keeps_binding; intros n;
    [apply ParseLine_keeps_mode|apply CreateChip_keeps_mode].
Qed.

(** X12: whatever the configuration, binding makes no call outside those
    of its operating mode.  Every line request carries no flag at all (what
    the definition says about active state, bias and drive never reaches the
    hardware) and names the service as consumer; in watch mode every request
    is for an edge subscription and no notification is asked and no PWM
    thread started; in signal mode no request is for an edge subscription.
    Binding never drives a line and never reads a level or an event, and it
    leaves the operating mode and the service name as they are. *)
Theorem binding_calls_fit_the_mode pArray st :
  let r := JSON_Iterate env pArray (ParseChip env) st in
  gpiowatch (state_of r) = gpiowatch st /\
  service (state_of r) = service st /\
  Forall (binding_call (gpiowatch st) (service st)) (calls_of r).
Proof.
  apply (binding_keeps_mode (gpiowatch st) (service st) pArray st []).
  split; [reflexivity|]. split; [reflexivity|constructor].
Qed.

(** ** Line objects and chips in hand *)

Lemma lines_obtained_app t1 t2 :
  lines_obtained (t1 ++ t2) = lines_obtained t1 ++ lines_obtained t2.
Proof. apply omap_app. Qed.

Lemma lines_released_app t1 t2 :
  lines_released (t1 ++ t2) = lines_released t1 ++ lines_released t2.
Proof. apply omap_app. Qed.

Lemma chips_opened_app t1 t2 :
  chips_opened (t1 ++ t2) = chips_opened t1 ++ chips_opened t2.
Proof. apply omap_app. Qed.

Lemma chips_closed_app t1 t2 :
  chips_closed (t1 ++ t2) = chips_closed t1 ++ chips_closed t2.
Proof. apply omap_app. Qed.

Lemma in_hand_step {A} (o r h r' h' : list A) :
  o ≡ₚ r ++ h -> o ++ (r' ++ h') ≡ₚ (r ++ r') ++ (h ++ h').
Proof.
  intros ->. rewrite <- !app_assoc. f_equiv.
  rewrite !app_assoc. f_equiv. apply Permutation_app_comm.
Qed.

Lemma all_lines_add_chip st c :
  chip_lines c = [] ->
  all_lines (set_chips st (chips st ++ [c])) = all_lines st.
Proof.
  intros Hc. unfold all_lines. simpl.
  rewrite map_app, concat_app. simpl. rewrite Hc. simpl.
  rewrite !app_nil_r. reflexivity.
Qed.

Lemma ParseLine_keeps_lines pNode : keeps lines_in_hand (ParseLine env pNode).
Proof.
  intros st t (Hnn & Hp).
  destruct (snoc_cases (chips st)) as [Hc | (cs & c & Hc)].
  { rewrite (ParseLine_no_chip _ _ Hc). run_proj. rewrite app_nil_r.
    split; assumption. }
  rewrite (ParseLine_run st cs c pNode Hc).
  destruct (CreateLine_calls st cs c pNode false None Hc) as (_ & HC & _).
  destruct (created_line (hVarServer st) (pChip c) pNode) as [g0|] eqn:Hcl.
  2:{ run_proj. split; [exact Hnn|].
      rewrite lines_obtained_app, lines_released_app, HC.
      rewrite (in_hand_step _ _ _ _ [] Hp), !app_nil_r. reflexivity. }
  cbv zeta.
  set (st1 := set_chips st (cs ++ [set_chip_lines c (chip_lines c ++ [g0])])).
  set (g1 := state_of (ParseLine_configure st1 pNode g0)).
  set (st2 := set_chips st (cs ++ [set_chip_lines c (chip_lines c ++ [g1])])).
  run_proj.
  assert (Hal : all_lines (track_monitored st2 g1) = all_lines st ++ [g1]).
  { unfold all_lines.
    destruct (track_monitored_frame st2 g1) as (_ & _ & _ & ->).
    apply (all_lines_snoc st cs c g1 Hc). }
  assert (Hg1 : pLine g1 = pLine g0).
  { exact (f_equal (fun x => fst (fst (fst x)))
             (ParseLine_configure_identity st1 pNode g0)). }
  destruct (created_line_fresh _ _ _ _ Hcl) as (Hn0 & _).
  destruct (ParseLine_configure_quiet st1 pNode g0) as (Ho1 & Hr1 & _).
  destruct (ParseLine_notify_quiet (track_monitored st2 g1) g1 g1)
    as (Ho2 & Hr2 & _).
  split.
  - rewrite Hal. apply Forall_app. split; [exact Hnn|].
    constructor; [rewrite Hg1; exact Hn0|constructor].
  - rewrite Hal, map_app. simpl. rewrite Hg1.
    rewrite !lines_obtained_app, !lines_released_app.
    rewrite HC, Ho1, Hr1, Ho2, Hr2, !app_nil_r.
    apply in_hand_step. exact Hp.
Qed.

Lemma CreateChip_keeps_lines pNode : keeps lines_in_hand (CreateChip env pNode).
Proof.
  intros st t (Hnn & Hp).
  destruct (CreateChip_any pNode st) as (Hst & _ & _ & Ho & Hr).
  unfold state_of. rewrite Hst.
  assert (Hal : all_lines (match created_chip pNode with
                           | Some c => (true, set_chips st (chips st ++ [c]))
                           | None => (false, st)
                           end).2 = all_lines st).
  { unfold created_chip.
    destruct (JSON_GetStr pNode "chip"); [|reflexivity].
    destruct (_ || _); [reflexivity|].
    apply all_lines_add_chip. reflexivity. }
  split; [rewrite Hal; exact Hnn|].
  rewrite Hal, lines_obtained_app, lines_released_app, Ho, Hr, !app_nil_r.
  exact Hp.
Qed.

Lemma ParseLine_keeps_chips pNode : keeps chips_in_hand (ParseLine env pNode).
Proof.
  intros st t (Hnn & Hp).
  destruct (snoc_cases (chips st)) as [Hc | (cs & c & Hc)].
  { rewrite (ParseLine_no_chip _ _ Hc). run_proj. rewrite app_nil_r.
    split; assumption. }
  rewrite (ParseLine_run st cs c pNode Hc).
  destruct (CreateLine_calls st cs c pNode false None Hc) as (_ & _ & HO & HR).
  destruct (created_line (hVarServer st) (pChip c) pNode) as [g0|] eqn:Hcl.
  2:{ run_proj. split; [exact Hnn|].
      rewrite chips_opened_app, chips_closed_app, HO, HR, !app_nil_r.
      exact Hp. }
  cbv zeta.
  set (st1 := set_chips st (cs ++ [set_chip_lines c (chip_lines c ++ [g0])])).
  set (g1 := state_of (ParseLine_configure st1 pNode g0)).
  set (st2 := set_chips st (cs ++ [set_chip_lines c (chip_lines c ++ [g1])])).
  run_proj.
  destruct (track_monitored_frame st2 g1) as (_ & _ & _ & Hch).
  destruct (ParseLine_configure_quiet st1 pNode g0) as (_ & _ & Ho1 & Hr1).
  destruct (ParseLine_notify_quiet (track_monitored st2 g1) g1 g1)
    as (_ & _ & Ho2 & Hr2).
  rewrite Hc in Hnn, Hp.
  split.
  - rewrite Hch. simpl. apply Forall_app in Hnn. destruct Hnn as [Hcs Hl].
    apply Forall_app. split; [exact Hcs|].
    inversion Hl; subst. constructor; [assumption|constructor].
  - rewrite Hch. simpl. rewrite map_app in *. simpl in *.
    rewrite !chips_opened_app, !chips_closed_app.
    rewrite HO, HR, Ho1, Hr1, Ho2, Hr2, !app_nil_r. exact Hp.
Qed.

Lemma CreateChip_keeps_chips pNode : keeps chips_in_hand (CreateChip env pNode).
Proof.
  intros st t (Hnn & Hp).
  destruct (CreateChip_any pNode st) as (Hst & _ & HO & _).
  unfold state_of. rewrite Hst.
  unfold chips_in_hand. rewrite chips_opened_app, chips_closed_app, HO.
  assert (Hnone : Forall (fun c => pChip c <> NULL) (chips st) /\
            chips_opened t ++
            chips_closed (calls_of (CreateChip env pNode st)) ++ []
            ≡ₚ (chips_closed t ++
                chips_closed (calls_of (CreateChip env pNode st))) ++
               map pChip (chips st)).
  { split; [exact Hnn|].
    rewrite (in_hand_step _ _ _ _ [] Hp), !app_nil_r. reflexivity. }
  unfold created_chip.
  destruct (JSON_GetStr pNode "chip") as [n|]; [|exact Hnone].
  destruct (env_gpiod_chip_open env ("/dev/" +:+ n) =? NULL) eqn:Eo;
    cbn [orb]; [exact Hnone|].
  destruct (env_calloc_GPIOChip env _); cbn [negb]; [|exact Hnone].
  simpl. split.
  - apply Forall_app. split; [exact Hnn|].
    constructor; [|constructor]. simpl. apply Z.eqb_neq. exact Eo.
  - rewrite map_app. simpl. apply in_hand_step. exact Hp.
Qed.

Lemma binding_keeps_lines pArray :
  keeps lines_in_hand (JSON_Iterate env pArray (ParseChip env)).
Proof.
  apply keeps_binding; intros n;
    [apply ParseLine_keeps_lines|apply CreateChip_keeps_lines].
Qed.

Lemma binding_keeps_chips pArray :
  keeps chips_in_hand (JSON_Iterate env pArray (ParseChip env)).
Proof.
  apply keeps_binding; intros n;
    [apply ParseLine_keeps_chips|apply CreateChip_keeps_chips].
Qed.

(** ** [Shutdown] *)

Lemma Shutdown_lines_run ls st :
  Shutdown_lines ls st
  = (tt, st,
     map call_gpiod_line_release
         (List.filter (fun l => negb (l =? NULL)) (map pLine ls))).
Proof.
  induction ls as [|g ls IH]; simpl; [reflexivity|].
  unfold bind. destruct (pLine g =? NULL); simpl; rewrite IH; reflexivity.
Qed.

Lemma Shutdown_chips_run cs st :
  Shutdown_chips cs st
  = (tt, st,
     concat (map (fun c =>
                    map call_gpiod_line_release
                        (List.filter (fun l => negb (l =? NULL))
                                     (map pLine (chip_lines c))) ++
                    (if pChip c =? NULL then []
                     else [call_gpiod_chip_close (pChip c)]))
                 cs)).
Proof.
  induction cs as [|c cs IH]; simpl; [reflexivity|].
  unfold bind. rewrite Shutdown_lines_run.
  destruct (pChip c =? NULL); simpl; rewrite IH, <- ?app_assoc; reflexivity.
Qed.

Lemma Shutdown_run st :
  Shutdown st
  = (tt, set_chips st [],
     concat (map (fun c =>
                    map call_gpiod_line_release
                        (List.filter (fun l => negb (l =? NULL))
                                     (map pLine (chip_lines c))) ++
                    (if pChip c =? NULL then []
                     else [call_gpiod_chip_close (pChip c)]))
                 (chips st))).
Proof.
  unfold Shutdown, bind, get, modify. rewrite Shutdown_chips_run.
  simpl. rewrite app_nil_r. reflexivity.
Qed.

(** X13: [Shutdown] goes through the chips in list order; for each chip
    it releases the lines of its descriptors in list order, once per
    descriptor that holds a line, and then closes the chip when the chip
    holds one; it makes no other call.  It leaves the registry empty, so
    that no lookup finds anything afterwards, and it leaves the monitored
    lines and the rest of the state as they were. *)
Theorem Shutdown_releases_then_closes st :
  Shutdown st
  = (tt, set_chips st [],
     concat (map (fun c =>
                    map call_gpiod_line_release
                        (List.filter (fun l => negb (l =? NULL))
                                     (map pLine (chip_lines c))) ++
                    (if pChip c =? NULL then []
                     else [call_gpiod_chip_close (pChip c)]))
                 (chips st))) /\
  (forall h, FindGPIO (state_of (Shutdown st)) h = None) /\
  (forall l, FindVar (state_of (Shutdown st)) l = VAR_INVALID) /\
  monitoredLines (state_of (Shutdown st)) = monitoredLines st.
Proof.
  rewrite Shutdown_run. run_proj.
  split; [reflexivity|]. split; [|split; [|reflexivity]].
  - intros h. unfold FindGPIO. simpl. destruct (h =? VAR_INVALID); reflexivity.
  - intros l. unfold FindVar. simpl. destruct (l =? NULL); reflexivity.
Qed.

Lemma filter_held_lines ls :
  Forall (fun g => pLine g <> NULL) ls ->
  List.filter (fun l => negb (l =? NULL)) (map pLine ls) = map pLine ls.
Proof.
  induction 1 as [|g ls Hg _ IH]; simpl; [reflexivity|].
  apply Z.eqb_neq in Hg. rewrite Hg. simpl. rewrite IH. reflexivity.
Qed.

Lemma lines_released_map l :
  lines_released (map call_gpiod_line_release l) = l.
Proof. induction l as [|x l IH]; simpl; [|rewrite IH]; reflexivity. Qed.

Lemma lines_obtained_map l :
  lines_obtained (map call_gpiod_line_release l) = [].
Proof. induction l as [|x l IH]; simpl; [|rewrite IH]; reflexivity. Qed.

Lemma chips_closed_map l :
  chips_closed (map call_gpiod_line_release l) = [] /\
  chips_opened (map call_gpiod_line_release l) = [].
Proof. induction l as [|x l [IH1 IH2]]; simpl; split; auto. Qed.

Lemma shutdown_calls_lines cs :
  Forall (fun g => pLine g <> NULL) (concat (map chip_lines cs)) ->
  lines_obtained (shutdown_calls cs) = [] /\
  lines_released (shutdown_calls cs) = map pLine (concat (map chip_lines cs)).
Proof.
  unfold shutdown_calls.
  induction cs as [|c cs IH]; cbn [map concat]; intros Hnn;
    [split; reflexivity|].
  apply Forall_app in Hnn. destruct Hnn as [Hc Hcs].
  destruct (IH Hcs) as [IH1 IH2].
  rewrite !lines_obtained_app, !lines_released_app, map_app.
  rewrite lines_obtained_map, lines_released_map, IH1, IH2.
  rewrite (filter_held_lines _ Hc).
  destruct (pChip c =? NULL);
    [change (lines_released []) with (@nil Z)
    |change (lines_released [call_gpiod_chip_close (pChip c)]) with (@nil Z)];
    rewrite !app_nil_r; split; reflexivity.
Qed.

Lemma shutdown_calls_chips cs :
  Forall (fun c => pChip c <> NULL) cs ->
  chips_opened (shutdown_calls cs) = [] /\
  chips_closed (shutdown_calls cs) = map pChip cs.
Proof.
  unfold shutdown_calls.
  induction cs as [|c cs IH]; cbn [map concat]; intros Hnn;
    [split; reflexivity|].
  inversion Hnn as [|? ? Hc Hcs]; subst.
  destruct (IH Hcs) as [IH1 IH2].
  rewrite !chips_opened_app, !chips_closed_app.
  destruct (chips_closed_map (List.filter (fun l => negb (l =? NULL))
                                          (map pLine (chip_lines c))))
    as [-> ->].
  rewrite IH1, IH2. apply Z.eqb_neq in Hc. rewrite Hc.
  split; reflexivity.
Qed.

Lemma Shutdown_keeps_lines : keeps lines_in_hand Shutdown.
Proof.
  intros st t (Hnn & Hp). rewrite Shutdown_run. run_proj.
  fold (shutdown_calls (chips st)).
  split; [constructor|].
  destruct (shutdown_calls_lines (chips st) Hnn) as [Ho Hr].
  unfold all_lines at 1. cbn [chips set_chips map concat].
  rewrite lines_obtained_app, lines_released_app, Ho, Hr, !app_nil_r.
  exact Hp.
Qed.

Lemma Shutdown_keeps_chips : keeps chips_in_hand Shutdown.
Proof.
  intros st t (Hnn & Hp). rewrite Shutdown_run. run_proj.
  fold (shutdown_calls (chips st)).
  split; [constructor|].
  destruct (shutdown_calls_chips (chips st) Hnn) as [Ho Hc].
  cbn [chips set_chips map].
  rewrite chips_opened_app, chips_closed_app, Ho, Hc, !app_nil_r.
  exact Hp.
Qed.

(** ** The whole process *)

Lemma forget_values_maps a b :
  forget_values a = forget_values b ->
  map pLine (all_lines a) = map pLine (all_lines b) /\
  map pChip (chips a) = map pChip (chips b) /\
  gpiowatch a = gpiowatch b /\ service a = service b.
Proof.
  intros H. split; [|split; [|split]].
  - pose proof (f_equal (fun s => map pLine (all_lines s)) H) as E.
    cbv beta in E. rewrite !all_lines_forget_values, !map_map in E.
    exact E.
  - pose proof (f_equal (fun s => map pChip (chips s)) H) as E.
    unfold forget_values in E. cbn [chips set_chips] in E.
    rewrite !map_map in E. exact E.
  - exact (f_equal gpiowatch H).
  - exact (f_equal service H).
Qed.

Lemma run_any st ws :
  forget_values (state_of (run env ws st))
  = forget_values (set_running st true) /\
  Forall (fun c => watch_mode_call st c \/ signal_mode_call st c)
         (calls_of (run env ws st)).
Proof.
  destruct (gpiowatch st) eqn:Hw.
  - split.
    + rewrite (run_watch_run _ _ Hw). reflexivity.
    + eapply Forall_impl; [apply run_watch_calls; exact Hw|].
      intros c Hc. left. exact Hc.
  - destruct (run_signal_frame st ws Hw) as [Hs Hc].
    split; [exact Hs|].
    eapply Forall_impl; [exact Hc|]. intros c H. right. exact H.
Qed.

Lemma mode_calls_quiet st t :
  Forall (fun c => watch_mode_call st c \/ signal_mode_call st c) t ->
  lines_obtained t = [] /\ lines_released t = [] /\
  chips_opened t = [] /\ chips_closed t = [].
Proof.
  induction 1 as [|c t Hc _ IH]; [repeat split; reflexivity|].
  destruct IH as (I1 & I2 & I3 & I4).
  unfold lines_obtained, lines_released, chips_opened, chips_closed in *.
  destruct c; simpl in Hc; try (exfalso; tauto);
    cbn [omap list_omap]; rewrite ?I1, ?I2, ?I3, ?I4;
    repeat split; reflexivity.
Qed.

Lemma run_keeps_lines ws : keeps lines_in_hand (run env ws).
Proof.
  intros st t (Hnn & Hp).
  destruct (run_any st ws) as [Hs Hc].
  destruct (mode_calls_quiet _ _ Hc) as (Ho & Hr & _).
  destruct (forget_values_maps _ _ Hs) as (Hl & _).
  change (all_lines (set_running st true)) with (all_lines st) in Hl.
  split.
  - apply (proj1 (List.Forall_map pLine (fun l => l <> NULL) _)).
    rewrite Hl. apply List.Forall_map. exact Hnn.
  - rewrite Hl, lines_obtained_app, lines_released_app, Ho, Hr, !app_nil_r.
    exact Hp.
Qed.

Lemma run_keeps_chips ws : keeps chips_in_hand (run env ws).
Proof.
  intros st t (Hnn & Hp).
  destruct (run_any st ws) as [Hs Hc].
  destruct (mode_calls_quiet _ _ Hc) as (_ & _ & Ho & Hr).
  destruct (forget_values_maps _ _ Hs) as (_ & Hl & _).
  change (chips (set_running st true)) with (chips st) in Hl.
  split.
  - apply (proj1 (List.Forall_map pChip (fun l => l <> NULL) _)).
    rewrite Hl. apply List.Forall_map. exact Hnn.
  - rewrite Hl, chips_opened_app, chips_closed_app, Ho, Hr, !app_nil_r.
    exact Hp.
Qed.

Lemma SetupPrintNotifications_run st :
  SetupPrintNotifications env st
  = if gpiowatch st then (EINVAL, st, [])
    else
      let h := env_VAR_FindByName env "/SYS/GPIOCTRL/INFO" in
      if h =? VAR_INVALID
      then (ENOENT, st, [call_VAR_FindByName "/SYS/GPIOCTRL/INFO"])
      else (env_VAR_Notify env h NOTIFY_PRINT, st,
            [call_VAR_FindByName "/SYS/GPIOCTRL/INFO";
             call_VAR_Notify h NOTIFY_PRINT]).
Proof.
  unfold SetupPrintNotifications, VAR_FindByName. run_monad.
  destruct (gpiowatch st); simpl; [reflexivity|].
  destruct (env_VAR_FindByName env "/SYS/GPIOCTRL/INFO" =? VAR_INVALID);
    reflexivity.
Qed.

Lemma ProcessOptions_loop_frame argv0 opts : forall st,
  let r := ProcessOptions_loop argv0 opts st in
  service (state_of r) = service st /\
  gpiowatch (state_of r) = gpiowatch st /\
  hVarServer (state_of r) = hVarServer st /\
  chips (state_of r) = chips st /\
  monitoredLines (state_of r) = monitoredLines st /\
  Forall message_call (calls_of r).
Proof.
  induction opts as [|[c optarg] opts IH]; intros st; simpl.
  { repeat split; constructor. }
  rewrite state_of_bind, calls_of_bind.
  set (s1 := state_of ((if Ascii.eqb c "v" then modify (fun st => set_verbose st true)
            else if Ascii.eqb c "h" then usage argv0
            else if Ascii.eqb c "f"
                 then modify (fun st => set_pFileName st (Some optarg))
                 else ret tt) st)).
  assert (H1 : service s1 = service st /\ gpiowatch s1 = gpiowatch st /\
               hVarServer s1 = hVarServer st /\ chips s1 = chips st /\
               monitoredLines s1 = monitoredLines st).
  { subst s1. destruct (Ascii.eqb c "v"); [repeat split; reflexivity|].
    destruct (Ascii.eqb c "h"); [repeat split; reflexivity|].
    destruct (Ascii.eqb c "f"); repeat split; reflexivity. }
  destruct H1 as (A1 & A2 & A3 & A4 & A5).
  destruct (IH s1) as (B1 & B2 & B3 & B4 & B5 & B6).
  rewrite B1, B2, B3, B4, B5, A1, A2, A3, A4, A5.
  repeat split; try reflexivity.
  apply Forall_app. split; [|exact B6].
  destruct (Ascii.eqb c "v"); [constructor|].
  destruct (Ascii.eqb c "h"); [repeat constructor|].
  destruct (Ascii.eqb c "f"); constructor.
Qed.

Lemma ProcessOptions_loop_running argv0 opts : forall st,
  running (state_of (ProcessOptions_loop argv0 opts st)) = running st.
Proof.
  induction opts as [|[c optarg] opts IH]; intros st; simpl; [reflexivity|].
  rewrite state_of_bind, IH.
  destruct (Ascii.eqb c "v"); [reflexivity|].
  destruct (Ascii.eqb c "h"); [reflexivity|].
  destruct (Ascii.eqb c "f"); reflexivity.
Qed.

Lemma started_state_frame inv :
  service (started_state inv) = Some (argv0 inv) /\
  gpiowatch (started_state inv) = (argv0 inv =? "gpiowatch")%string /\
  hVarServer (started_state inv) = VARSERVER_Open inv /\
  chips (started_state inv) = [] /\
  monitoredLines (started_state inv) = [].
Proof.
  unfold started_state, ProcessOptions. cbv zeta.
  rewrite state_of_bind. cbn [ret state_of fst snd].
  set (s2 := if (argv0 inv =? "gpiowatch")%string
             then set_gpiowatch (set_service zero_state (Some (argv0 inv))) true
             else set_service zero_state (Some (argv0 inv))).
  destruct (ProcessOptions_loop_frame (argv0 inv) (getopt_results inv) s2)
    as (B1 & B2 & B3 & B4 & B5 & _).
  cbn [service gpiowatch hVarServer chips monitoredLines set_hVarServer].
  rewrite B1, B2, B4, B5. subst s2.
  destruct (argv0 inv =? "gpiowatch")%string; repeat split; reflexivity.
Qed.

Lemma startup_calls_messages inv : Forall message_call (startup_calls inv).
Proof.
  unfold startup_calls, ProcessOptions. cbv zeta.
  constructor; [exact I|]. apply Forall_app. split.
  - rewrite calls_of_bind. apply Forall_app. split; [|constructor].
    apply ProcessOptions_loop_frame.
  - destruct (verbose (started_state inv)); repeat constructor.
Qed.

Lemma main_no_arguments inv st :
  argc inv < 2 ->
  main env inv st
  = (Some 1, zero_state,
     [call_printf ("Starting " +:+ argv0 inv +:+ nl);
      call_write 2 ("usage: " +:+ argv0 inv +:+ " [-v] [-h] "
                    +:+ " [-h] : display this help"
                    +:+ " [-v] : verbose output"
                    +:+ " -f <filename> : configuration file")]).
Proof.
  intros H. unfold main. apply Z.ltb_lt in H. rewrite H. reflexivity.
Qed.

Lemma SetupPrintNotifications_state st :
  state_of (SetupPrintNotifications env st) = st.
Proof.
  rewrite SetupPrintNotifications_run.
  destruct (gpiowatch st); [reflexivity|]. cbv zeta.
  destruct (_ =? VAR_INVALID); reflexivity.
Qed.

(** What [main] does once the variable server is open. *)
Lemma main_serving gpiodef ws st0 :
  (SetupPrintNotifications env ;;;
   JSON_Iterate env gpiodef (ParseChip env) ;;;
   run env ws ;;;
   Shutdown ;;;
   ret (@None Z)) st0
  = let b := JSON_Iterate env gpiodef (ParseChip env) st0 in
    let r := run env ws (state_of b) in
    (None, set_chips (state_of r) [],
     calls_of (SetupPrintNotifications env st0) ++
     calls_of b ++ calls_of r ++ shutdown_calls (chips (state_of r))).
Proof.
  cbv zeta.
  rewrite (run_eta (bind _ _ st0)).
  rewrite !result_of_bind, !state_of_bind, !calls_of_bind.
  rewrite SetupPrintNotifications_state, Shutdown_run. run_proj.
  cbn [ret result_of state_of calls_of fst snd].
  rewrite app_nil_r. reflexivity.
Qed.

Lemma main_started inv st :
  2 <= argc inv ->
  main env inv st
  = if VARSERVER_Open inv =? NULL
    then (None, started_state inv, startup_calls inv)
    else
      let st0 := started_state inv in
      let b := JSON_Iterate env (started_gpiodef inv) (ParseChip env) st0 in
      let r := run env (wakeups inv) (state_of b) in
      (None, set_chips (state_of r) [],
       startup_calls inv ++ calls_of (SetupPrintNotifications env st0) ++
       calls_of b ++ calls_of r ++ shutdown_calls (chips (state_of r))).
Proof.
  intros H. unfold main.
  destruct (Z.ltb_spec (argc inv) 2) as [Hlt|_]; [lia|].
  unfold started_gpiodef, startup_calls, started_state. cbv zeta.
  set (s2 := if (argv0 inv =? "gpiowatch")%string
             then set_gpiowatch (set_service zero_state (Some (argv0 inv))) true
             else set_service zero_state (Some (argv0 inv))).
  set (s3 := state_of (ProcessOptions (argv0 inv) (getopt_results inv) s2)).
  set (t3 := calls_of (ProcessOptions (argv0 inv) (getopt_results inv) s2)).
  unfold bind at 1, printf at 1, emit at 1.
  unfold bind at 1, put at 1.
  unfold bind at 1, modify at 1.
  unfold bind at 1.
  assert (Hm : (if (argv0 inv =? "gpiowatch")%string
                then modify (fun st => set_gpiowatch st true)
                else ret tt) (set_service zero_state (Some (argv0 inv)))
               = (tt, s2, [])).
  { subst s2. destruct (argv0 inv =? "gpiowatch")%string; reflexivity. }
  rewrite Hm.
  unfold bind at 1.
  rewrite (run_eta (ProcessOptions (argv0 inv) (getopt_results inv) s2)).
  fold s3. fold t3.
  unfold bind at 1, get at 1.
  unfold bind at 1.
  assert (Hv : (if eqb (verbose s3) true
                then printf (JSON_Print inv (JSON_Process inv (pFileName s3)))
                     ;;; printf nl
                else ret tt) s3
               = (tt, s3,
                  if verbose (set_hVarServer s3 (VARSERVER_Open inv))
                  then [call_printf
                          (JSON_Print inv (JSON_Process inv (pFileName s3)));
                        call_printf nl]
                  else [])).
  { cbn [verbose set_hVarServer]. destruct (verbose s3); reflexivity. }
  rewrite Hv.
  unfold bind at 1, modify at 1.
  cbn [pFileName set_hVarServer].
  destruct (VARSERVER_Open inv =? NULL); cbn [negb].
  { unfold ret. cbn [app]. rewrite !app_nil_r. reflexivity. }
  rewrite main_serving. cbv zeta.
  cbn [app]. rewrite <- !app_assoc. reflexivity.
Qed.

Lemma message_calls_quiet t :
  Forall message_call t ->
  lines_obtained t = [] /\ lines_released t = [] /\
  chips_opened t = [] /\ chips_closed t = [].
Proof.
  induction 1 as [|c t Hc _ IH]; [repeat split; reflexivity|].
  destruct IH as (I1 & I2 & I3 & I4).
  unfold lines_obtained, lines_released, chips_opened, chips_closed in *.
  destruct c; simpl in Hc; try contradiction;
    cbn [omap list_omap]; rewrite ?I1, ?I2, ?I3, ?I4;
    repeat split; reflexivity.
Qed.

Lemma SetupPrintNotifications_quiet st :
  let t := calls_of (SetupPrintNotifications env st) in
  lines_obtained t = [] /\ lines_released t = [] /\
  chips_opened t = [] /\ chips_closed t = [].
Proof.
  rewrite SetupPrintNotifications_run.
  destruct (gpiowatch st); [repeat split; reflexivity|]. cbv zeta.
  destruct (_ =? VAR_INVALID); repeat split; reflexivity.
Qed.

Lemma serving_lines_in_hand gpiodef ws st0 :
  chips st0 = [] ->
  let b := JSON_Iterate env gpiodef (ParseChip env) st0 in
  let r := run env ws (state_of b) in
  let t := calls_of b ++ calls_of r ++ shutdown_calls (chips (state_of r)) in
  lines_obtained t ≡ₚ lines_released t /\ chips_opened t ≡ₚ chips_closed t.
Proof.
  intros Hc b r t.
  assert (HL0 : lines_in_hand st0 []).
  { unfold lines_in_hand, all_lines. rewrite Hc. split; [constructor|].
    reflexivity. }
  assert (HC0 : chips_in_hand st0 []).
  { unfold chips_in_hand. rewrite Hc. split; [constructor|]. reflexivity. }
  pose proof (Shutdown_keeps_lines _ _
                (run_keeps_lines ws _ _
                   (binding_keeps_lines gpiodef _ _ HL0))) as [_ HL].
  pose proof (Shutdown_keeps_chips _ _
                (run_keeps_chips ws _ _
                   (binding_keeps_chips gpiodef _ _ HC0))) as [_ HC].
  fold b in HL, HC. fold r in HL, HC.
  rewrite Shutdown_run in HL, HC.
  change (state_of (tt, ?s, ?c)) with s in HL, HC.
  change (calls_of (tt, ?s, ?c)) with c in HL, HC.
  fold (shutdown_calls (chips (state_of r))) in HL, HC.
  unfold all_lines in HL. cbn [chips set_chips map concat] in HL, HC.
  rewrite app_nil_r in HL, HC. cbn [app] in HL, HC.
  rewrite <- app_assoc in HL, HC.
  split; [exact HL|exact HC].
Qed.

(** X14: whatever the command line, the configuration, the answers of the
    collaborators and the wake-ups, a process that runs [main] to its end
    gives back what it took: every line object a chip handed out has been
    given to [gpiod_line_release] as many times as it was handed out, every
    chip opened has been closed as many times as it was opened, and the
    registry is empty. *)
Theorem main_gives_back_lines_and_chips inv st :
  let t := calls_of (main env inv st) in
  lines_obtained t ≡ₚ lines_released t /\
  chips_opened t ≡ₚ chips_closed t /\
  chips (state_of (main env inv st)) = [].
Proof.
  intros t. subst t.
  destruct (Z.lt_ge_cases (argc inv) 2) as [Hlt|Hge].
  { rewrite (main_no_arguments _ _ Hlt). repeat split; reflexivity. }
  rewrite (main_started _ _ Hge).
  destruct (started_state_frame inv) as (_ & _ & _ & Hc & _).
  destruct (message_calls_quiet _ (startup_calls_messages inv))
    as (M1 & M2 & M3 & M4).
  destruct (VARSERVER_Open inv =? NULL).
  { run_proj. rewrite M1, M2, M3, M4, Hc. repeat split; reflexivity. }
  cbv zeta. run_proj.
  destruct (SetupPrintNotifications_quiet (started_state inv))
    as (S1 & S2 & S3 & S4).
  destruct (serving_lines_in_hand (started_gpiodef inv) (wakeups inv)
              (started_state inv) Hc) as [HL HC].
  cbv zeta in HL, HC.
  rewrite !lines_obtained_app, !lines_released_app,
          !chips_opened_app, !chips_closed_app in *.
  rewrite M1, M2, M3, M4, S1, S2, S3, S4. cbn [app].
  split; [exact HL|]. split; [exact HC|reflexivity].
Qed.

Lemma message_process_call w svc c : message_call c -> process_call w svc c.
Proof. destruct c; simpl; tauto. Qed.

Lemma binding_process_call w svc c : binding_call w svc c -> process_call w svc c.
Proof. destruct c; simpl; tauto. Qed.

Lemma watch_process_call st svc c :
  watch_mode_call st c -> process_call true svc c.
Proof. destruct c; simpl; tauto. Qed.

Lemma signal_process_call st svc c :
  signal_mode_call st c -> process_call false svc c.
Proof. destruct c; simpl; tauto. Qed.

Lemma shutdown_process_calls w svc cs :
  Forall (process_call w svc) (shutdown_calls cs).
Proof.
  unfold shutdown_calls. apply Forall_concat_map. intros c.
  apply Forall_app. split.
  - induction (List.filter _ _) as [|l ls IH]; simpl; constructor;
      [exact I|exact IH].
  - destruct (pChip c =? NULL); repeat constructor.
Qed.

(** X15: what a process may call is settled by the name it was started
    under.  Started as [gpiowatch], it never drives a line, never reads a
    level, asks for no notification, starts no PWM thread, opens no print
    session, and requests lines for edge subscriptions only; started under
    any other name, it never reads an edge event and never requests a line
    for an edge subscription.  Under either name the main thread writes
    nothing but 0 and 1 to lines and to variables, requests lines with no
    flag and under its own name, and never sleeps. *)
Theorem main_calls_fit_the_name inv st :
  Forall (process_call (argv0 inv =? "gpiowatch")%string (Some (argv0 inv)))
         (calls_of (main env inv st)).
Proof.
  destruct (Z.lt_ge_cases (argc inv) 2) as [Hlt|Hge].
  { rewrite (main_no_arguments _ _ Hlt). run_proj. repeat constructor. }
  rewrite (main_started _ _ Hge).
  destruct (started_state_frame inv) as (Hs & Hw & _).
  assert (HM : Forall (process_call (argv0 inv =? "gpiowatch")%string
                                    (Some (argv0 inv)))
                      (startup_calls inv)).
  { eapply Forall_impl; [apply startup_calls_messages|].
    intros c. apply message_process_call. }
  destruct (VARSERVER_Open inv =? NULL); [exact HM|].
  cbv zeta. run_proj.
  pose proof (binding_keeps_mode (gpiowatch (started_state inv))
                (service (started_state inv)) (started_gpiodef inv)
                (started_state inv) []
                (conj eq_refl (conj eq_refl (List.Forall_nil _))))
    as (Hbw & Hbs & Hbc).
  cbn [app] in Hbc. rewrite Hw in Hbw, Hbc. rewrite Hs in Hbs, Hbc.
  apply Forall_app. split; [exact HM|].
  apply Forall_app. split.
  { rewrite SetupPrintNotifications_run, Hw.
    destruct (argv0 inv =? "gpiowatch")%string; [constructor|]. cbv zeta.
    destruct (_ =? VAR_INVALID); run_proj;
      repeat match goal with |- Forall _ _ => constructor end; simpl; auto. }
  apply Forall_app. split.
  { eapply Forall_impl; [exact Hbc|]. intros c. apply binding_process_call. }
  apply Forall_app. split; [|apply shutdown_process_calls].
  destruct (argv0 inv =? "gpiowatch")%string.
  - eapply Forall_impl; [apply run_watch_calls; exact Hbw|].
    intros c. apply watch_process_call.
  - eapply Forall_impl; [apply run_signal_frame; exact Hbw|].
    intros c. apply signal_process_call.
Qed.

(** X16: [main] binds and serves nothing without an argument or without
    the variable server.  Started with no argument it prints its start
    message, writes the usage to file descriptor 2 and exits with status 1,
    the state all zero.  Started with arguments it processes its options and
    reads the configuration, and when [VARSERVER_Open] then gives no handle
    it returns: the calls it has made are its start message, the usage for
    every option [h] and, when verbose, the configuration as [JSON_Print]
    gives it and an end of line; so no variable is looked up, no chip
    opened, no line requested or written, the registry is empty and
    [running] was never set. *)
Theorem main_needs_arguments_and_server inv st :
  (argc inv < 2 ->
   main env inv st
   = (Some 1, zero_state,
      [call_printf ("Starting " +:+ argv0 inv +:+ nl);
       call_write 2 ("usage: " +:+ argv0 inv +:+ " [-v] [-h] "
                     +:+ " [-h] : display this help"
                     +:+ " [-v] : verbose output"
                     +:+ " -f <filename> : configuration file")])) /\
  (2 <= argc inv -> VARSERVER_Open inv = NULL ->
   let s0 := set_gpiowatch (set_service zero_state (Some (argv0 inv)))
               (argv0 inv =? "gpiowatch")%string in
   let opts := ProcessOptions (argv0 inv) (getopt_results inv) s0 in
   result_of (main env inv st) = None /\
   state_of (main env inv st) = set_hVarServer (state_of opts) NULL /\
   calls_of (main env inv st)
   = [call_printf ("Starting " +:+ argv0 inv +:+ nl)] ++
     calls_of opts ++
     (if verbose (state_of opts)
      then [call_printf
              (JSON_Print inv (JSON_Process inv (pFileName (state_of opts))));
            call_printf nl]
      else []) /\
   Forall message_call (calls_of (main env inv st)) /\
   chips (state_of (main env inv st)) = [] /\
   monitoredLines (state_of (main env inv st)) = [] /\
   running (state_of (main env inv st)) = false).
Proof.
  split; [apply main_no_arguments|].
  intros Hge Hnull s0 opts.
  rewrite (main_started _ _ Hge), Hnull, Z.eqb_refl. run_proj.
  assert (Hs0 : s0 = (if (argv0 inv =? "gpiowatch")%string
                      then set_gpiowatch
                             (set_service zero_state (Some (argv0 inv))) true
                      else set_service zero_state (Some (argv0 inv))))
    by (subst s0; destruct (argv0 inv =? "gpiowatch")%string; reflexivity).
  assert (Hst : started_state inv = set_hVarServer (state_of opts) NULL).
  { unfold started_state. cbv zeta. rewrite <- Hs0, Hnull. reflexivity. }
  assert (Hcs : startup_calls inv
                = [call_printf ("Starting " +:+ argv0 inv +:+ nl)] ++
                  calls_of opts ++
                  (if verbose (state_of opts)
                   then [call_printf
                           (JSON_Print inv
                              (JSON_Process inv (pFileName (state_of opts))));
                         call_printf nl]
                   else [])).
  { unfold startup_calls. cbv zeta. rewrite <- Hs0, Hst. reflexivity. }
  destruct (started_state_frame inv) as (_ & _ & _ & Hch & Hml).
  split; [reflexivity|]. split; [exact Hst|]. split; [exact Hcs|].
  split; [apply startup_calls_messages|].
  split; [exact Hch|]. split; [exact Hml|].
  rewrite Hst. cbn [running set_hVarServer].
  unfold opts, ProcessOptions. rewrite state_of_bind.
  cbn [ret state_of fst snd]. rewrite ProcessOptions_loop_running.
  reflexivity.
Qed.

(** ** One line definition, from the request to the notification *)

Lemma var_notifies_app t1 t2 :
  var_notifies (t1 ++ t2) = var_notifies t1 ++ var_notifies t2.
Proof. apply omap_app. Qed.

Lemma threads_started_app t1 t2 :
  threads_started (t1 ++ t2) = threads_started t1 ++ threads_started t2.
Proof. apply omap_app. Qed.

Lemma created_line_server hvs pchip pNode g0 :
  created_line hvs pchip pNode = Some g0 -> hvs <> NULL.
Proof.
  unfold created_line. destruct (Z.eqb_spec hvs NULL); [discriminate|auto].
Qed.

(** The line requests of [ParseLine] on a definition that resolves. *)
Lemma ParseLine_requests st cs c pNode svc g0 :
  chips st = cs ++ [c] ->
  service st = Some svc ->
  created_line (hVarServer st) (pChip c) pNode = Some g0 ->
  let gd := state_of (ParseLineDirection env st pNode g0) in
  let ev := parsed_event pNode in
  hw_requests (calls_of (ParseLine env pNode st))
  = if request_due (gpiowatch st) ev
    then [(pLine g0,
           mkRequest (Some svc)
                     (if ev =? 0 then request_type (request gd) else ev) 0,
           if PWM gd then 0 else value gd)]
    else [].
Proof.
  intros Hc Hs Hcr gd ev. subst gd ev.
  rewrite (ParseLine_run st cs c pNode Hc), Hcr. cbv zeta.
  unfold calls_of at 1. cbn [snd].
  rewrite !hw_requests_app.
  destruct (CreateLine_run st cs c pNode Hc) as [_ HcrC]. rewrite HcrC.
  match goal with
  | |- context [ParseLine_notify ?a ?b ?b] =>
      destruct (ParseLine_notify_frame a b b) as [_ Hn]; rewrite Hn
  end.
  rewrite app_nil_r. cbn [app].
  rewrite (ParseLine_configure_run _ svc pNode g0) by exact Hs.
  cbv zeta. unfold calls_of at 1. cbn [snd].
  rewrite hw_requests_app.
  destruct (ParseLineDirection_frame
              (set_chips st (cs ++ [set_chip_lines c (chip_lines c ++ [g0])]))
              pNode g0) as (Hp & _ & _ & _ & _ & Hq).
  cbv zeta in Hp, Hq. rewrite Hq, Hp. cbn [app gpiowatch set_chips].
  destruct (request_due (gpiowatch st) (parsed_event pNode)); reflexivity.
Qed.

(** X17: of the two processes that share a configuration, exactly one
    requests a line: a line definition that resolves leads to exactly one
    line request when it is bound in both operating modes, in watch mode
    when it has an edge subscription and in signal mode when it has none. *)
Theorem ParseLine_requested_in_one_mode st cs c pNode svc g0 :
  chips st = cs ++ [c] ->
  service st = Some svc ->
  created_line (hVarServer st) (pChip c) pNode = Some g0 ->
  let watch := hw_requests (calls_of (ParseLine env pNode (set_gpiowatch st true))) in
  let signal := hw_requests (calls_of (ParseLine env pNode (set_gpiowatch st false))) in
  (length watch + length signal = 1)%nat /\
  (watch = [] <-> parsed_event pNode = 0) /\
  (signal = [] <-> parsed_event pNode <> 0).
Proof.
  intros Hc Hs Hcr watch signal. subst watch signal.
  rewrite (ParseLine_requests (set_gpiowatch st true) cs c pNode svc g0)
    by assumption.
  rewrite (ParseLine_requests (set_gpiowatch st false) cs c pNode svc g0)
    by assumption.
  cbv zeta. cbn [gpiowatch set_gpiowatch]. unfold request_due.
  cbn [eqb andb orb]. rewrite orb_false_r.
  destruct (Z.eqb_spec (parsed_event pNode) 0) as [He|He]; cbn [negb length].
  - split; [reflexivity|]. split; split; intros; congruence.
  - split; [reflexivity|]. split; split; intros; congruence.
Qed.

Lemma ParseLineDirection_output pState pNode g (pwm : bool) var :
  pLine g <> NULL -> hVar g <> VAR_INVALID -> hVarServer pState <> NULL ->
  JSON_GetStr pNode "direction" = Some (if pwm then "pwm" else "output") ->
  env_VAR_Get env (hVar g) = (EOK, var) ->
  var_type var = VARTYPE_UINT16 ->
  ParseLineDirection env pState pNode g
  = (EOK,
     set_value
       (set_request_type
          (set_direction (if pwm then set_PWM g true else g)
                         GPIOD_LINE_DIRECTION_OUTPUT)
          GPIOD_LINE_REQUEST_DIRECTION_OUTPUT)
       (uint16 (val_ui var)),
     [call_VAR_Get (hVar g)]).
Proof.
  intros Hl Hv Hs Hd Hget Hty.
  apply Z.eqb_neq in Hl, Hv, Hs.
  unfold ParseLineDirection, GetLineOutputValue. run_monad.
  rewrite Hl, Hd.
  destruct pwm; simpl; rewrite Hs, Hv, Hl; simpl;
    rewrite Z.eqb_refl, Hget; simpl; rewrite Z.eqb_refl, Hty, Z.eqb_refl;
    reflexivity.
Qed.

Lemma ParseLine_notify_run pState g0 g :
  calls_of (ParseLine_notify pState g0 g)
  = (if gpiowatch pState then []
     else if (direction g =? GPIOD_LINE_DIRECTION_INPUT) && (event_type g =? 0)
          then [call_VAR_Notify (hVar g) NOTIFY_CALC]
          else if direction g =? GPIOD_LINE_DIRECTION_OUTPUT
               then [call_VAR_Notify (hVar g) NOTIFY_MODIFIED]
               else []) ++
    (if eqb (gpiowatch pState) false && eqb (PWM g0) true
     then [call_pthread_create (pLine g)]
     else []).
Proof.
  unfold ParseLine_notify, SetupNotification, CreatePWM. run_monad.
  destruct (gpiowatch pState); simpl; [reflexivity|].
  destruct (_ && _); simpl; [destruct (PWM g0); reflexivity|].
  destruct (direction g =? GPIOD_LINE_DIRECTION_OUTPUT); simpl;
    destruct (PWM g0); reflexivity.
Qed.

(** The notifications and the threads of [ParseLine] on a definition that
    resolves: they are those of its last two steps. *)
Lemma ParseLine_notifies st cs c pNode g0 :
  chips st = cs ++ [c] ->
  created_line (hVarServer st) (pChip c) pNode = Some g0 ->
  let st1 := set_chips st (cs ++ [set_chip_lines c (chip_lines c ++ [g0])]) in
  let g1 := state_of (ParseLine_configure st1 pNode g0) in
  let tn := calls_of (ParseLine_notify st g1 g1) in
  var_notifies (calls_of (ParseLine env pNode st)) = var_notifies tn /\
  threads_started (calls_of (ParseLine env pNode st)) = threads_started tn.
Proof.
  intros Hc Hcr st1 g1 tn.
  rewrite (ParseLine_run st cs c pNode Hc), Hcr. cbv zeta.
  fold st1. fold g1. run_proj.
  assert (HC : var_notifies (calls_of (CreateLine env pNode st)) = [] /\
               threads_started (calls_of (CreateLine env pNode st)) = []).
  { destruct (CreateLine_calls st cs c pNode true None Hc) as (HF & _).
    cbv zeta in HF. clear -HF.
    induction HF as [|x t Hx _ IH]; [split; reflexivity|].
    destruct IH as [I1 I2].
    unfold var_notifies, threads_started in *.
    destruct x; simpl in Hx; try (exfalso; intuition discriminate);
      cbn [omap list_omap]; rewrite ?I1, ?I2; split; reflexivity. }
  assert (HG : var_notifies (calls_of (ParseLine_configure st1 pNode g0)) = []
               /\ threads_started
                    (calls_of (ParseLine_configure st1 pNode g0)) = []).
  { destruct (service st1) as [svc|] eqn:Hs.
    - rewrite (ParseLine_configure_run st1 svc pNode g0 Hs). cbv zeta.
      run_proj. rewrite var_notifies_app, threads_started_app.
      destruct (ParseLineDirection_calls st1 pNode g0) as [-> | ->];
        destruct (request_due _ _); split; reflexivity.
    - rewrite (ParseLine_configure_no_service _ _ _ Hs).
      destruct (ParseLineDirection_calls st1 pNode g0) as [-> | ->];
        split; reflexivity. }
  destruct HC as [C1 C2]. destruct HG as [G1 G2].
  rewrite !var_notifies_app, !threads_started_app, C1, C2, G1, G2.
  cbn [app].
  assert (Htn : calls_of (ParseLine_notify
                  (track_monitored
                     (set_chips st
                        (cs ++ [set_chip_lines c (chip_lines c ++ [g1])])) g1)
                  g1 g1) = tn).
  { subst tn. rewrite !ParseLine_notify_run.
    destruct (track_monitored_frame
                (set_chips st
                   (cs ++ [set_chip_lines c (chip_lines c ++ [g1])])) g1)
      as (-> & _). reflexivity. }
  rewrite Htn. split; reflexivity.
Qed.

(** X18: in signal mode, an output line without edge subscription whose
    variable reads as a UINT16 is requested as an output, with no flag,
    under the service name, and with the value of the variable as it is,
    not brought to 0 or 1, as its initial level; a PWM output is requested
    with the initial level 0.  In both cases the value of the variable is
    what the descriptor holds afterwards, a notification of the modified
    kind is asked on the variable, and a PWM thread is started for a PWM
    output only. *)
Theorem ParseLine_output_initial_level st cs c pNode svc g0 (pwm : bool) len V :
  GPIOD_LINE_DIRECTION_INPUT <> GPIOD_LINE_DIRECTION_OUTPUT ->
  chips st = cs ++ [c] ->
  service st = Some svc ->
  gpiowatch st = false ->
  created_line (hVarServer st) (pChip c) pNode = Some g0 ->
  JSON_GetStr pNode "direction" = Some (if pwm then "pwm" else "output") ->
  parsed_event pNode = 0 ->
  env_VAR_Get env (hVar g0) = (EOK, mkVarObject VARTYPE_UINT16 len V) ->
  0 <= V < 65536 ->
  let r := ParseLine env pNode st in
  hw_requests (calls_of r)
  = [(pLine g0, mkRequest (Some svc) GPIOD_LINE_REQUEST_DIRECTION_OUTPUT 0,
      if pwm then 0 else V)] /\
  value <$> last (all_lines (state_of r)) = Some V /\
  var_notifies (calls_of r) = [(hVar g0, NOTIFY_MODIFIED)] /\
  threads_started (calls_of r) = if pwm then [pLine g0] else [].
Proof.
  intros Hio Hc Hs Hw Hcr Hd Hev Hget HV r. subst r.
  destruct (created_line_fresh _ _ _ _ Hcr)
    as (Hl & Hv & Hval & Hdir & Hpwm & Hevt & Hreq).
  pose proof (created_line_server _ _ _ _ Hcr) as Hsrv.
  assert (HD : forall pState, hVarServer pState = hVarServer st ->
            ParseLineDirection env pState pNode g0
            = (EOK,
               set_value
                 (set_request_type
                    (set_direction (if pwm then set_PWM g0 true else g0)
                                   GPIOD_LINE_DIRECTION_OUTPUT)
                    GPIOD_LINE_REQUEST_DIRECTION_OUTPUT) V,
               [call_VAR_Get (hVar g0)])).
  { intros pState Hp.
    rewrite (ParseLineDirection_output pState pNode g0 pwm
               (mkVarObject VARTYPE_UINT16 len V)); try assumption;
      try reflexivity; [|rewrite Hp; exact Hsrv].
    cbn [val_ui]. rewrite (uint16_small V HV). reflexivity. }
  set (st1 := set_chips st (cs ++ [set_chip_lines c (chip_lines c ++ [g0])])).
  assert (Hg1 : state_of (ParseLine_configure st1 pNode g0)
                = set_request
                    (set_event_type
                       (set_value
                          (set_request_type
                             (set_direction (if pwm then set_PWM g0 true else g0)
                                            GPIOD_LINE_DIRECTION_OUTPUT)
                             GPIOD_LINE_REQUEST_DIRECTION_OUTPUT) V) 0)
                    (mkRequest (Some svc)
                               GPIOD_LINE_REQUEST_DIRECTION_OUTPUT 0)).
  { rewrite (ParseLine_configure_run st1 svc pNode g0 Hs). cbv zeta.
    run_proj. rewrite (HD st1 eq_refl). run_proj. rewrite Hev.
    destruct pwm; reflexivity. }
  split; [|split].
  - rewrite (ParseLine_requests st cs c pNode svc g0 Hc Hs Hcr). cbv zeta.
    rewrite (HD st eq_refl), Hev, Hw. run_proj.
    destruct pwm; cbn; rewrite ?Hpwm; reflexivity.
  - rewrite (ParseLine_run st cs c pNode Hc), Hcr. cbv zeta. fold st1.
    run_proj. rewrite Hg1.
    unfold all_lines.
    match goal with
    | |- context [track_monitored ?s ?g] =>
        destruct (track_monitored_frame s g) as (_ & _ & _ & ->)
    end.
    cbn [chips set_chips]. rewrite map_app, concat_app. cbn [map concat].
    rewrite app_nil_r. cbn [chip_lines set_chip_lines].
    rewrite app_assoc, last_snoc. reflexivity.
  - destruct (ParseLine_notifies st cs c pNode g0 Hc Hcr) as [Hn Ht].
    cbv zeta in Hn, Ht. fold st1 in Hn, Ht.
    rewrite Hn, Ht, Hg1, ParseLine_notify_run, Hw.
    rewrite var_notifies_app, threads_started_app.
    cbn [direction set_request set_event_type set_value set_request_type
         set_direction event_type hVar pLine PWM eqb andb].
    apply Z.eqb_neq in Hio. rewrite Z.eqb_sym in Hio.
    rewrite Hio, !Z.eqb_refl. cbn [andb].
    destruct pwm; cbn; rewrite ?Hpwm; split; reflexivity.
Qed.

Lemma ParseLineDirection_input pState pNode g :
  pLine g <> NULL ->
  JSON_GetStr pNode "direction" = None \/
  JSON_GetStr pNode "direction" = Some "input" ->
  ParseLineDirection env pState pNode g
  = (EOK,
     set_request_type (set_direction g GPIOD_LINE_DIRECTION_INPUT)
                      GPIOD_LINE_REQUEST_DIRECTION_INPUT,
     []).
Proof.
  intros Hl Hd. apply Z.eqb_neq in Hl.
  unfold ParseLineDirection. run_monad. rewrite Hl.
  destruct Hd as [-> | ->]; reflexivity.
Qed.

(** X19: an input line with an edge subscription is requested in watch
    mode only, for its subscription, with no flag and the initial level 0;
    in either mode no notification is asked for it and no thread is
    started, and, while the array of monitored lines has room, its line is
    appended to that array, in signal mode as well, where the array is never
    waited on. *)
Theorem ParseLine_edge_input_line st cs c pNode svc g0 :
  GPIOD_LINE_DIRECTION_INPUT <> GPIOD_LINE_DIRECTION_OUTPUT ->
  chips st = cs ++ [c] ->
  service st = Some svc ->
  created_line (hVarServer st) (pChip c) pNode = Some g0 ->
  JSON_GetStr pNode "direction" = None \/
  JSON_GetStr pNode "direction" = Some "input" ->
  parsed_event pNode <> 0 ->
  Z.of_nat (length (monitoredLines st)) < GPIOD_LINE_BULK_MAX_LINES ->
  let r := ParseLine env pNode st in
  hw_requests (calls_of r)
  = (if gpiowatch st
     then [(pLine g0, mkRequest (Some svc) (parsed_event pNode) 0, 0)]
     else []) /\
  var_notifies (calls_of r) = [] /\
  threads_started (calls_of r) = [] /\
  monitoredLines (state_of r) = monitoredLines st ++ [pLine g0].
Proof.
  intros Hio Hc Hs Hcr Hd Hev Hroom r. subst r.
  destruct (created_line_fresh _ _ _ _ Hcr)
    as (Hl & Hv & Hval & Hdir & Hpwm & Hevt & Hreq).
  set (gd := set_request_type (set_direction g0 GPIOD_LINE_DIRECTION_INPUT)
                              GPIOD_LINE_REQUEST_DIRECTION_INPUT).
  assert (HD : forall pState,
            ParseLineDirection env pState pNode g0 = (EOK, gd, [])).
  { intros pState. apply ParseLineDirection_input; assumption. }
  set (st1 := set_chips st (cs ++ [set_chip_lines c (chip_lines c ++ [g0])])).
  set (g1 := set_request (set_event_type gd (parsed_event pNode))
                         (mkRequest (Some svc) (parsed_event pNode) 0)).
  assert (Hne : (parsed_event pNode =? 0) = false) by (apply Z.eqb_neq; exact Hev).
  assert (Hg1 : state_of (ParseLine_configure st1 pNode g0) = g1).
  { rewrite (ParseLine_configure_run st1 svc pNode g0 Hs). cbv zeta.
    run_proj. rewrite (HD st1). run_proj. rewrite Hne. reflexivity. }
  split; [|split; [|split]].
  - rewrite (ParseLine_requests st cs c pNode svc g0 Hc Hs Hcr). cbv zeta.
    rewrite (HD st). run_proj. rewrite Hne.
    unfold request_due. rewrite Hne.
    destruct (gpiowatch st); cbn; rewrite ?Hpwm, ?Hval; reflexivity.
  - destruct (ParseLine_notifies st cs c pNode g0 Hc Hcr) as [Hn _].
    cbv zeta in Hn. fold st1 in Hn.
    rewrite Hn, Hg1, ParseLine_notify_run, var_notifies_app.
    cbn [g1 gd direction set_request set_event_type set_request_type
         set_direction event_type].
    rewrite Hne, andb_false_r.
    apply Z.eqb_neq in Hio. rewrite Hio.
    destruct (gpiowatch st); destruct (_ && _); reflexivity.
  - destruct (ParseLine_notifies st cs c pNode g0 Hc Hcr) as [_ Ht].
    cbv zeta in Ht. fold st1 in Ht.
    rewrite Ht, Hg1, ParseLine_notify_run, threads_started_app.
    cbn [g1 gd PWM direction event_type set_request set_event_type
         set_request_type set_direction].
    rewrite Hpwm, Hne. cbn [eqb]. rewrite !andb_false_r.
    apply Z.eqb_neq in Hio. rewrite Hio.
    destruct (gpiowatch st); reflexivity.
  - rewrite (ParseLine_run st cs c pNode Hc), Hcr. cbv zeta. fold st1.
    run_proj. rewrite Hg1. unfold track_monitored.
    cbn [g1 gd event_type pLine set_request set_event_type set_request_type
         set_direction monitoredLines set_chips].
    rewrite Hne. apply Z.ltb_lt in Hroom. rewrite Hroom. reflexivity.
Qed.

(** ** The array of monitored lines *)

Lemma ParseLine_keeps_monitored pNode st :
  monitored_ok st -> monitored_ok (state_of (ParseLine env pNode st)).
Proof.
  intros (Hlen & Hown).
  destruct (snoc_cases (chips st)) as [Hc | (cs & c & Hc)].
  { rewrite (ParseLine_no_chip _ _ Hc). split; assumption. }
  rewrite (ParseLine_run st cs c pNode Hc).
  destruct (created_line (hVarServer st) (pChip c) pNode) as [g0|] eqn:Hcr;
    [|split; assumption].
  cbv zeta.
  set (st1 := set_chips st (cs ++ [set_chip_lines c (chip_lines c ++ [g0])])).
  set (g1 := state_of (ParseLine_configure st1 pNode g0)).
  set (st2 := set_chips st (cs ++ [set_chip_lines c (chip_lines c ++ [g1])])).
  run_proj.
  assert (Hal : all_lines (track_monitored st2 g1) = all_lines st ++ [g1]).
  { unfold all_lines.
    destruct (track_monitored_frame st2 g1) as (_ & _ & _ & ->).
    apply (all_lines_snoc st cs c g1 Hc). }
  assert (Hold : Forall (fun l => exists g, In g (all_lines st ++ [g1]) /\
                                            pLine g = l /\ event_type g <> 0)
                        (monitoredLines st)).
  { eapply Forall_impl; [exact Hown|].
    intros l (g & Hin & Hp & He). exists g. split; [|auto].
    apply in_or_app. left. exact Hin. }
  unfold monitored_ok. rewrite Hal. unfold track_monitored.
  destruct (negb (event_type g1 =? 0)) eqn:He; cbn [andb];
    [|split; assumption].
  destruct (Z.ltb_spec (Z.of_nat (length (monitoredLines st2)))
                       GPIOD_LINE_BULK_MAX_LINES) as [Hroom|_];
    [|split; assumption].
  cbn [monitoredLines set_monitoredLines st2 set_chips] in *.
  split.
  - rewrite length_app. cbn [length]. lia.
  - apply Forall_app. split; [exact Hold|].
    constructor; [|constructor]. exists g1. split.
    + apply in_or_app. right. left. reflexivity.
    + split; [reflexivity|]. apply negb_true_iff in He.
      apply Z.eqb_neq. exact He.
Qed.

Lemma CreateChip_keeps_monitored pNode st :
  monitored_ok st -> monitored_ok (state_of (CreateChip env pNode st)).
Proof.
  intros H. destruct (CreateChip_any pNode st) as (Hst & _).
  unfold state_of. rewrite Hst.
  unfold created_chip.
  destruct (JSON_GetStr pNode "chip"); [|exact H].
  destruct (_ || _); [exact H|].
  unfold monitored_ok in *. cbn [snd].
  rewrite all_lines_add_chip by reflexivity. exact H.
Qed.

(** X20: binding keeps the array of monitored lines in order: when, before
    binding, the array is within its bound of [GPIOD_LINE_BULK_MAX_LINES]
    entries and every entry is the line of a descriptor with an edge
    subscription, the same holds after binding any configuration. *)
Theorem binding_keeps_monitored_ok pArray st :
  monitored_ok st ->
  monitored_ok (state_of (JSON_Iterate env pArray (ParseChip env) st)).
Proof.
  intros H.
  apply (keeps_binding (fun s _ => monitored_ok s) pArray) with (t := []);
    [| |exact H].
  - intros n s t. apply ParseLine_keeps_monitored.
  - intros n s t. apply CreateChip_keeps_monitored.
Qed.

(** ** Definitions that do not bind *)

(** X21: a chip definition for which no chip descriptor can be made (the
    name is missing, the chip does not open, or memory is short) is given
    up with [EINVAL]; the state is as before and the lines of the definition
    are not looked at; the only calls are a message when the name is
    missing, and otherwise the opening of the chip, followed by a message
    when it did not open and by its closing when memory is short. *)
Theorem ParseChip_without_chip pNode st :
  created_chip pNode = None ->
  ParseChip env pNode st
  = (EINVAL, st,
     match JSON_GetStr pNode "chip" with
     | None => [call_printf ("chip name is NULL" +:+ nl)]
     | Some chipName =>
         let path := "/dev/" +:+ chipName in
         if env_gpiod_chip_open env path =? NULL
         then [call_gpiod_chip_open path;
               call_printf ("unable to open chip: " +:+ path +:+ nl)]
         else [call_gpiod_chip_open path;
               call_gpiod_chip_close (env_gpiod_chip_open env path)]
     end).
Proof.
  unfold created_chip, ParseChip, CreateChip, gpiod_chip_open, printf.
  run_monad. intros H.
  destruct (JSON_GetStr pNode "chip") as [n|]; [|reflexivity].
  cbv zeta in H.
  destruct (env_gpiod_chip_open env ("/dev/" +:+ n) =? NULL) eqn:Eo;
    cbn [negb orb] in *; [reflexivity|].
  destruct (env_calloc_GPIOChip env _); cbn [negb] in *;
    [discriminate|reflexivity].
Qed.

(** X22: a chip definition whose chip opens but whose [lines] attribute is
    missing or is not an array leaves the chip open and linked in the
    registry with no line; the result is [EINVAL] when the attribute is
    missing and [ENOTSUP] when it is not an array, and the only call is the
    opening of the chip. *)
Theorem ParseChip_without_lines pNode st c :
  created_chip pNode = Some c ->
  (forall items, JSON_Find pNode "lines" <> Some (JArray items)) ->
  ParseChip env pNode st
  = (match JSON_Find pNode "lines" with
     | None => EINVAL
     | Some _ => ENOTSUP
     end,
     set_chips st (chips st ++ [c]),
     [call_gpiod_chip_open ("/dev/" +:+ chip_name c)]) /\
  chip_lines c = [].
Proof.
  unfold created_chip, ParseChip, CreateChip, CreateLines, gpiod_chip_open.
  run_monad. intros H Hl.
  destruct (JSON_GetStr pNode "chip") as [n|]; [|discriminate].
  cbv zeta in H.
  destruct (env_gpiod_chip_open env ("/dev/" +:+ n) =? NULL) eqn:Eo;
    cbn [negb orb] in *; [discriminate|].
  destruct (env_calloc_GPIOChip env _); cbn [negb] in *; [|discriminate].
  inversion H; subst c; clear H. cbn [chip_name chip_lines].
  split; [|reflexivity].
  destruct (JSON_Find pNode "lines") as [[| |items|]|] eqn:Ef;
    try reflexivity.
  exfalso. exact (Hl items eq_refl).
Qed.

Lemma var_reads_binding_quiet t :
  Forall (fun c => match c with
                   | call_VAR_FindByName _ | call_printf _
                   | call_gpiod_chip_get_line _ _
                   | call_gpiod_line_release _ => True
                   | _ => False
                   end) t ->
  hw_requests t = [] /\ var_notifies t = [] /\ threads_started t = [] /\
  var_reads t = [].
Proof.
  induction 1 as [|x t Hx _ (I1 & I2 & I3 & I4)]; [repeat split; reflexivity|].
  unfold var_notifies, threads_started in *.
  destruct x; try contradiction; cbn; auto.
Qed.

Lemma CreateLine_kinds pNode st :
  Forall (fun c => match c with
                   | call_VAR_FindByName _ | call_printf _
                   | call_gpiod_chip_get_line _ _
                   | call_gpiod_line_release _ => True
                   | _ => False
                   end) (calls_of (CreateLine env pNode st)).
Proof.
  unfold CreateLine, GetVarHandle, VAR_FindByName, gpiod_chip_get_line, printf.
  run_monad.
  destruct (last (chips st)); [|constructor].
  destruct (hVarServer st =? NULL).
  { cbn [fst snd]. rewrite Z.eqb_refl. repeat constructor. }
  destruct (JSON_GetStr pNode "var") as [vn|].
  2:{ cbn [fst snd]. rewrite Z.eqb_refl. repeat constructor. }
  cbn [fst snd app].
  destruct (env_VAR_FindByName env vn =? VAR_INVALID) eqn:Eh.
  { cbn [negb fst snd]. rewrite Eh. repeat constructor. }
  cbn [negb fst snd]. rewrite Eh. cbn [negb].
  destruct (JSON_GetStr pNode "line") as [ls|]; [|repeat constructor].
  cbn [fst snd app].
  destruct (env_gpiod_chip_get_line env _ _ =? NULL); cbn [negb];
    [repeat constructor|].
  destruct (env_calloc_GPIO env _); repeat constructor.
Qed.

(** X23: a line definition that does not resolve (no variable of that
    name, no [line] attribute, no such line on the chip, or no memory)
    leaves no trace: the result is [EOK] all the same, the state is as
    before, no line is requested, no notification asked, no thread started
    and no variable read, and a line object the chip did hand out is
    released at once. *)
Theorem ParseLine_skips_unresolved pNode st :
  (forall cs c, chips st = cs ++ [c] ->
                created_line (hVarServer st) (pChip c) pNode = None) ->
  let r := ParseLine env pNode st in
  result_of r = EOK /\ state_of r = st /\
  hw_requests (calls_of r) = [] /\ var_notifies (calls_of r) = [] /\
  threads_started (calls_of r) = [] /\ var_reads (calls_of r) = [] /\
  lines_obtained (calls_of r) = lines_released (calls_of r).
Proof.
  intros Hno r. subst r.
  destruct (snoc_cases (chips st)) as [Hc | (cs & c & Hc)].
  { rewrite (ParseLine_no_chip _ _ Hc). repeat split; reflexivity. }
  specialize (Hno cs c Hc).
  rewrite (ParseLine_run st cs c pNode Hc), Hno. run_proj.
  destruct (var_reads_binding_quiet _ (CreateLine_kinds pNode st))
    as (Q1 & Q2 & Q3 & Q4).
  destruct (CreateLine_calls st cs c pNode false None Hc) as (_ & HL & _).
  cbv zeta in HL. rewrite Hno, app_nil_r in HL.
  repeat split; assumption.
Qed.

(** ** The PWM thread over time *)

Lemma slept_app t1 t2 : slept (t1 ++ t2) = slept t1 + slept t2.
Proof.
  unfold slept. rewrite omap_app.
  induction (omap _ t1) as [|x l IH]; simpl; [reflexivity|].
  rewrite IH. lia.
Qed.

Lemma pwm_phases_slept l D : 0 <= D <= 255 -> slept (pwm_phases l D) = 10200.
Proof.
  intros HD. unfold pwm_phases.
  destruct (Z.eqb_spec (D * 40) 0) as [H0|H0];
    destruct (Z.eqb_spec ((255 - D) * 40) 0) as [H1|H1];
    unfold slept; simpl; lia.
Qed.

Lemma pwm_phases_writes l D :
  Forall (fun w => fst w = l /\ (snd w = 0 \/ snd w = 1))
         (hw_writes (pwm_phases l D)).
Proof.
  unfold pwm_phases.
  destruct (D * 40 =? 0); destruct ((255 - D) * 40 =? 0); simpl;
    repeat match goal with |- Forall _ _ => constructor end; simpl; auto.
Qed.

Lemma pwm_high_slept l D : 0 <= D <= 255 -> slept (pwm_high l D) = D * 40.
Proof.
  intros HD. unfold pwm_high.
  destruct (Z.eqb_spec (D * 40) 0) as [H0|H0]; unfold slept; simpl; lia.
Qed.

Lemma pwm_low_slept l D :
  0 <= D <= 255 -> slept (pwm_low l D) = (255 - D) * 40.
Proof.
  intros HD. unfold pwm_low.
  destruct (Z.eqb_spec ((255 - D) * 40) 0) as [H0|H0];
    unfold slept; simpl; lia.
Qed.

(** Whatever is stored meanwhile, the thread writes 0 and 1 only, to its
    own line only, and leaves every field of the descriptor but [value]. *)
Lemma PWMThread_loop_frame turns : forall g,
  set_value (state_of (PWMThread_loop env turns g)) 0 = set_value g 0 /\
  Forall (fun w => fst w = pLine g /\ (snd w = 0 \/ snd w = 1))
         (hw_writes (calls_of (PWMThread_loop env turns g))).
Proof.
  induction turns as [|w turns IH]; intros g.
  { split; [reflexivity|constructor]. }
  cbn [PWMThread_loop]. unfold bind at 1 2. rewrite PWMThread_cycle_raw.
  destruct (IH (set_value g (off_duty w (value g)))) as (Hs & Hw).
  destruct (PWMThread_loop env turns (set_value g (off_duty w (value g))))
    as [[u s2] t2].
  unfold state_of, calls_of in *. cbn [fst snd] in *.
  split; [exact Hs|].
  rewrite !hw_writes_app.
  apply Forall_app. split; [|exact Hw].
  apply Forall_app. split; cbv zeta.
  - destruct (_ >? 0); simpl;
      repeat match goal with |- Forall _ _ => constructor end; simpl; auto.
  - destruct (_ >? 0); simpl;
      repeat match goal with |- Forall _ _ => constructor end; simpl; auto.
Qed.

(** While the main thread stores duties only, a turn sleeps at most twice
    the period. *)
Lemma PWMThread_loop_slept turns : forall g,
  Forall stores_in_range turns ->
  0 <= slept (calls_of (PWMThread_loop env turns g))
    <= Z.of_nat (length turns) * 20400.
Proof.
  induction turns as [|w turns IH]; intros g Hall.
  { unfold calls_of, slept. simpl. lia. }
  inversion Hall as [|w' turns' Hw Hrest]; subst.
  cbn [PWMThread_loop]. unfold bind.
  rewrite (PWMThread_cycle_stores _ _ Hw).
  specialize (IH (set_value g (off_duty w (value g))) Hrest).
  destruct (PWMThread_loop env turns (set_value g (off_duty w (value g))))
    as [[u s2] t2].
  unfold calls_of in *. cbn [fst snd] in *.
  rewrite !slept_app.
  rewrite (pwm_high_slept _ _ (on_duty_range w (value g) Hw)).
  rewrite (pwm_low_slept _ _ (off_duty_range w (value g) Hw)).
  pose proof (on_duty_range w (value g) Hw).
  pose proof (off_duty_range w (value g) Hw).
  cbn [length]. lia.
Qed.

(** X24: the software PWM has a constant period only while the main thread
    stores no duty: [n] turns left alone sleep [n] times 10200 microseconds
    in all, whatever the duty.  A turn that meets a store of the duty [D2]
    after its on time is read sleeps D*40 + (255-D2)*40 microseconds, and
    while the main thread stores duties in 0..255, wherever in a turn they
    land, [n] turns sleep at most [n] times 20400 microseconds.  Whatever
    is stored, the thread writes nothing but 0 and 1 and to no line but its
    own, and it changes nothing of its descriptor but [value]. *)
Theorem PWMThread_period_and_writes turns g :
  let D := pwm_clamp (value g) in
  let r := PWMThread env turns g in
  (forall n : nat,
     slept (calls_of (PWMThread env (replicate n no_stores) g))
     = Z.of_nat n * 10200) /\
  (forall D2 : Z, 0 <= D2 <= 255 ->
     slept (calls_of (PWMThread_cycle env (store_in_high_phase D2) g))
     = D * 40 + (255 - D2) * 40) /\
  (Forall stores_in_range turns ->
   0 <= slept (calls_of r) <= Z.of_nat (length turns) * 20400) /\
  Forall (fun w => fst w = pLine g /\ (snd w = 0 \/ snd w = 1))
         (hw_writes (calls_of r)) /\
  set_value (state_of r) 0 = set_value g 0.
Proof.
  intros D r. subst D r.
  pose proof (pwm_clamp_range (value g)) as HD.
  assert (Hrun : forall turns,
            PWMThread env turns g
            = (tt, state_of (PWMThread_loop env turns g),
               call_sigprocmask_block
                 [SIG_VAR_MODIFIED; SIG_VAR_CALC; SIG_VAR_PRINT;
                  SIG_VAR_VALIDATE]
               :: calls_of (PWMThread_loop env turns g))).
  { intros ts. unfold PWMThread, bind, emit.
    destruct (PWMThread_loop env ts g) as [[[] s2] t2]. reflexivity. }
  assert (Hmask : forall t,
            slept (call_sigprocmask_block
                     [SIG_VAR_MODIFIED; SIG_VAR_CALC; SIG_VAR_PRINT;
                      SIG_VAR_VALIDATE] :: t) = slept t)
    by (intros t; reflexivity).
  split; [|split; [|split; [|split]]].
  - intros n. rewrite Hrun. unfold calls_of at 1. cbn [snd].
    rewrite Hmask, PWMThread_loop_run. unfold calls_of. cbn [snd].
    induction n as [|n IH]; [reflexivity|].
    cbn [replicate concat]. rewrite slept_app, IH.
    rewrite (pwm_phases_slept _ _ HD). lia.
  - intros D2 HD2. rewrite (PWMThread_cycle_store_in_high_phase _ _ HD2).
    unfold calls_of. cbn [snd]. rewrite slept_app.
    rewrite (pwm_high_slept _ _ HD), (pwm_low_slept _ _ HD2). reflexivity.
  - intros Hall. rewrite Hrun. unfold calls_of at 1 2. cbn [snd].
    rewrite !Hmask. apply PWMThread_loop_slept. exact Hall.
  - rewrite Hrun. unfold calls_of at 1. cbn [snd hw_writes].
    apply PWMThread_loop_frame.
  - rewrite Hrun. unfold state_of at 1. cbn [fst snd].
    apply PWMThread_loop_frame.
Qed.

(** ** A print request *)

(** X25: a print request opens a print session, writes the report of the
    registry to the descriptor the session gives, and closes the session
    with that descriptor; the state is as before and the result is [EOK].
    What the session gives is not checked by [WaitVarSignal]: when it
    gives -1, [PrintStatus] writes nothing and the session is closed all the
    same. *)
Theorem WaitVarSignal_print_session st id :
  SIG_VAR_PRINT <> SIG_VAR_MODIFIED ->
  SIG_VAR_PRINT <> SIG_VAR_CALC ->
  Forall (fun g => pLine g <> NULL) (all_lines st) ->
  let fd := snd (env_VAR_OpenPrintSession env id) in
  let r := WaitVarSignal env SIG_VAR_PRINT id st in
  result_of r = EOK /\ state_of r = st /\
  calls_of r
  = call_VAR_OpenPrintSession id ::
    calls_of (PrintStatus env fd st) ++ [call_VAR_ClosePrintSession id fd] /\
  written fd (calls_of r)
  = (if fd =? -1 then EmptyString else render_status st).
Proof.
  intros Hm Hc Hnn fd r. subst r.
  apply Z.eqb_neq in Hm, Hc.
  unfold WaitVarSignal. rewrite Hm, Hc, Z.eqb_refl.
  rewrite !result_of_bind, !state_of_bind, !calls_of_bind.
  cbn [emit ret result_of state_of calls_of fst snd app].
  fold fd. rewrite PrintStatus_state.
  split; [reflexivity|]. split; [reflexivity|]. split; [reflexivity|].
  cbn [written]. rewrite written_app.
  destruct (Z.eqb_spec fd (-1)) as [Hfd|Hfd].
  - unfold PrintStatus. rewrite Hfd. reflexivity.
  - destruct (PrintStatus_written fd st Hfd Hnn) as [_ Hw].
    rewrite Hw. cbn [written]. apply append_nil_r.
Qed.

(** ** Attributes without effect *)

Lemma CreateLine_attributes pNode pNode' st :
  JSON_GetStr pNode "var" = JSON_GetStr pNode' "var" ->
  JSON_GetStr pNode "line" = JSON_GetStr pNode' "line" ->
  CreateLine env pNode st = CreateLine env pNode' st.
Proof.
  intros Hv Hl. unfold CreateLine, GetVarHandle. rewrite Hv, Hl. reflexivity.
Qed.

Lemma ParseLine_configure_attributes pState svc pNode pNode' g :
  service pState = Some svc ->
  JSON_GetStr pNode "direction" = JSON_GetStr pNode' "direction" ->
  JSON_GetStr pNode "event" = JSON_GetStr pNode' "event" ->
  ParseLine_configure pState pNode g = ParseLine_configure pState pNode' g.
Proof.
  intros Hs Hd He.
  rewrite !(ParseLine_configure_run pState svc) by exact Hs.
  assert (HD : ParseLineDirection env pState pNode g
               = ParseLineDirection env pState pNode' g).
  { unfold ParseLineDirection. rewrite Hd. reflexivity. }
  assert (HE : parsed_event pNode = parsed_event pNode').
  { unfold parsed_event, ParseLineEvent. rewrite He. reflexivity. }
  cbv zeta. rewrite HD, HE. reflexivity.
Qed.

(** X26: the attributes [active_state], [bias] and [drive] of a line
    definition have no effect.  In a process whose service name is set, two
    line definitions that agree on [var], [line], [direction] and [event]
    are bound alike, whatever else they say: the same result, the same
    state, descriptor and request record included, and the same calls. *)
Theorem ParseLine_ignores_flag_attributes pNode pNode' st svc :
  service st = Some svc ->
  JSON_GetStr pNode "var" = JSON_GetStr pNode' "var" ->
  JSON_GetStr pNode "line" = JSON_GetStr pNode' "line" ->
  JSON_GetStr pNode "direction" = JSON_GetStr pNode' "direction" ->
  JSON_GetStr pNode "event" = JSON_GetStr pNode' "event" ->
  ParseLine env pNode st = ParseLine env pNode' st.
Proof.
  intros Hs Hv Hl Hd He.
  destruct (snoc_cases (chips st)) as [Hc | (cs & c & Hc)].
  { rewrite !(ParseLine_no_chip _ _ Hc). reflexivity. }
  rewrite !(ParseLine_run st cs c _ Hc).
  rewrite (CreateLine_attributes pNode pNode' st Hv Hl).
  assert (Hcr : created_line (hVarServer st) (pChip c) pNode
                = created_line (hVarServer st) (pChip c) pNode').
  { unfold created_line. rewrite Hv, Hl. reflexivity. }
  rewrite Hcr.
  destruct (created_line (hVarServer st) (pChip c) pNode') as [g0|];
    [|reflexivity].
  cbv zeta.
  rewrite (ParseLine_configure_attributes
             (set_chips st (cs ++ [set_chip_lines c (chip_lines c ++ [g0])]))
             svc pNode pNode' g0 Hs Hd He).
  reflexivity.
Qed.

(** ** Options *)

(** X28: [ProcessOptions] returns 0 whatever the options.  The verbose
    mark is set when some option is [v]; the file name is the argument of
    the last option [f], when there is one; every option [h] prints the
    usage on file descriptor 2 and does nothing else, so that the program
    goes on after it; any other option is passed over; and no other part of
    the state changes. *)
Theorem ProcessOptions_effects argv0 opts st :
  let r := ProcessOptions argv0 opts st in
  result_of r = 0 /\
  state_of r
  = set_pFileName
      (set_verbose st
         (verbose st || existsb (fun o => Ascii.eqb (fst o) "v") opts))
      (match last (List.filter (fun o => Ascii.eqb (fst o) "f") opts) with
       | Some o => Some (snd o)
       | None => pFileName st
       end) /\
  calls_of r
  = map (fun _ => call_write 2
                    ("usage: " +:+ argv0 +:+ " [-v] [-h] "
                     +:+ " [-h] : display this help"
                     +:+ " [-v] : verbose output"
                     +:+ " -f <filename> : configuration file"))
        (List.filter (fun o => Ascii.eqb (fst o) "h") opts).
Proof.
  intros r. subst r. unfold ProcessOptions.
  rewrite result_of_bind, state_of_bind, calls_of_bind.
  cbn [ret result_of state_of calls_of fst snd]. rewrite app_nil_r.
  split; [reflexivity|].
  revert st. induction opts as [|[c optarg] opts IH]; intros st.
  { destruct st. simpl. rewrite orb_false_r. split; reflexivity. }
  cbn [ProcessOptions_loop].
  rewrite state_of_bind, calls_of_bind.
  cbn [existsb List.filter fst snd].
  destruct (Ascii.eqb_spec c "v") as [->|Hv].
  { destruct (IH (set_verbose st true)) as [IHs IHc].
    cbn [modify state_of calls_of result_of fst snd app Ascii.eqb
         Bool.eqb andb].
    rewrite IHs, IHc. cbn [verbose set_verbose pFileName orb].
    rewrite orb_true_r. split; reflexivity. }
  destruct (Ascii.eqb_spec c "h") as [->|Hh].
  { destruct (IH st) as [IHs IHc].
    unfold usage, write.
    cbn [emit state_of calls_of result_of fst snd app map Ascii.eqb
         Bool.eqb andb orb].
    rewrite IHs, IHc. split; reflexivity. }
  destruct (Ascii.eqb c "f") eqn:Ef.
  - destruct (IH (set_pFileName st (Some optarg))) as [IHs IHc].
    cbn [modify state_of calls_of result_of fst snd app orb].
    rewrite IHs, IHc. cbn [verbose set_verbose set_pFileName pFileName].
    split; [|reflexivity].
    destruct (List.filter _ opts) as [|o os] eqn:Efl; [reflexivity|].
    change (last ((c, optarg) :: o :: os)) with (last (o :: os)).
    destruct (last (o :: os)) as [o'|] eqn:El; [reflexivity|].
    apply last_None in El. discriminate.
  - destruct (IH st) as [IHs IHc].
    cbn [ret state_of calls_of result_of fst snd app orb].
    rewrite IHs, IHc. split; reflexivity.
Qed.

(** ** Binding appends *)

Lemma ParseLine_appends pNode st :
  let st' := state_of (ParseLine env pNode st) in
  (exists new, all_lines st' = all_lines st ++ new) /\
  (exists more, monitoredLines st' = monitoredLines st ++ more) /\
  map pChip (chips st') = map pChip (chips st).
Proof.
  destruct (snoc_cases (chips st)) as [Hc | (cs & c & Hc)].
  { rewrite (ParseLine_no_chip _ _ Hc). cbv zeta. run_proj.
    split; [exists []; rewrite app_nil_r; reflexivity|].
    split; [exists []; rewrite app_nil_r; reflexivity|reflexivity]. }
  rewrite (ParseLine_run st cs c pNode Hc).
  destruct (created_line (hVarServer st) (pChip c) pNode) as [g0|] eqn:Hcr.
  2:{ cbv zeta. run_proj.
      split; [exists []; rewrite app_nil_r; reflexivity|].
      split; [exists []; rewrite app_nil_r; reflexivity|reflexivity]. }
  cbv zeta.
  set (st1 := set_chips st (cs ++ [set_chip_lines c (chip_lines c ++ [g0])])).
  set (g1 := state_of (ParseLine_configure st1 pNode g0)).
  set (st2 := set_chips st (cs ++ [set_chip_lines c (chip_lines c ++ [g1])])).
  run_proj.
  destruct (track_monitored_frame st2 g1) as (_ & _ & _ & Hch).
  split; [|split].
  - exists [g1]. unfold all_lines at 1. rewrite Hch.
    apply (all_lines_snoc st cs c g1 Hc).
  - unfold track_monitored. destruct (_ && _).
    + exists [pLine g1]. reflexivity.
    + exists []. rewrite app_nil_r. reflexivity.
  - rewrite Hch, Hc. cbn [chips set_chips st2]. rewrite !map_app.
    reflexivity.
Qed.

Lemma CreateChip_appends pNode st :
  let st' := state_of (CreateChip env pNode st) in
  all_lines st' = all_lines st /\
  monitoredLines st' = monitoredLines st /\
  exists more, map pChip (chips st') = map pChip (chips st) ++ more.
Proof.
  destruct (CreateChip_any pNode st) as (Hst & _).
  cbv zeta. unfold state_of. rewrite Hst. unfold created_chip.
  destruct (JSON_GetStr pNode "chip") as [n|].
  2:{ cbn [snd]. repeat split. exists []. rewrite app_nil_r. reflexivity. }
  destruct (_ || _); cbn [snd].
  { repeat split. exists []. rewrite app_nil_r. reflexivity. }
  split; [apply all_lines_add_chip; reflexivity|].
  split; [reflexivity|].
  eexists. cbn [chips set_chips]. rewrite map_app. reflexivity.
Qed.

(** X29: binding only appends.  Whatever the configuration, the
    descriptors that were in the registry before binding are there
    afterwards, unchanged and in the same order, before the new ones; the
    same holds of the monitored lines and of the chips. *)
Theorem binding_only_appends pArray st :
  let st' := state_of (JSON_Iterate env pArray (ParseChip env) st) in
  (exists new, all_lines st' = all_lines st ++ new) /\
  (exists more, monitoredLines st' = monitoredLines st ++ more) /\
  (exists chips', map pChip (chips st') = map pChip (chips st) ++ chips').
Proof.
  apply (keeps_binding
           (fun s _ =>
              (exists new, all_lines s = all_lines st ++ new) /\
              (exists more, monitoredLines s = monitoredLines st ++ more) /\
              (exists chips', map pChip (chips s)
                              = map pChip (chips st) ++ chips'))
           pArray) with (t := []).
  - intros n s t ((l & Hl) & (m & Hm) & (k & Hk)).
    destruct (ParseLine_appends n s) as ((l' & Hl') & (m' & Hm') & Hk').
    split; [|split].
    + exists (l ++ l'). rewrite Hl', Hl, app_assoc. reflexivity.
    + exists (m ++ m'). rewrite Hm', Hm, app_assoc. reflexivity.
    + exists k. rewrite Hk', Hk. reflexivity.
  - intros n s t ((l & Hl) & (m & Hm) & (k & Hk)).
    destruct (CreateChip_appends n s) as (Hl' & Hm' & (k' & Hk')).
    split; [|split].
    + exists l. rewrite Hl', Hl. reflexivity.
    + exists m. rewrite Hm', Hm. reflexivity.
    + exists (k ++ k'). rewrite Hk', Hk, app_assoc. reflexivity.
  - split; [|split]; exists []; rewrite app_nil_r; reflexivity.
Qed.


(** ** The report as JSON

    What the JSON reader makes of the pieces of a report. *)


Lemma read_chars_plain x rest :
  plain_name x = true ->
  read_chars (x +:+ String "034" rest) = Some (x, rest).
Proof.
  induction x as [|a x IH]; intros H.
  - reflexivity.
  - cbn [plain_name] in H. apply andb_true_iff in H as [Ha Hx].
    unfold plain_char in Ha.
    apply andb_true_iff in Ha as [Ha Hc].
    apply andb_true_iff in Ha as [Hq Hb].
    apply negb_true_iff in Hq, Hb, Hc.
    change (String a x +:+ String "034" rest)
      with (String a (x +:+ String "034" rest)).
    cbn [read_chars]. rewrite Hq, Hb, Hc, (IH Hx). reflexivity.
Qed.

Lemma span_digits_uint d r :
  span_digits (NilEmpty.string_of_uint d +:+ String "," r)
  = (NilEmpty.string_of_uint d, String "," r).
Proof.
  induction d as [|d IH|d IH|d IH|d IH|d IH|d IH|d IH|d IH|d IH|d IH];
    [reflexivity|..];
    cbn [NilEmpty.string_of_uint];
    match goal with
    | |- span_digits (String ?a ?x +:+ ?t) = _ =>
        change (String a x +:+ t) with (String a (x +:+ t))
    end;
    cbn [span_digits is_digit]; rewrite IH; reflexivity.
Qed.

Lemma to_uint_head p d : Pos.to_uint p <> D0 d.
Proof.
  assert (Hn : unorm (Pos.to_uint p) = Pos.to_uint p).
  { rewrite <- (DecimalPos.Unsigned.to_of (Pos.to_uint p)).
    rewrite DecimalPos.Unsigned.of_to. reflexivity. }
  intros H. rewrite H in Hn. rewrite unorm_D0 in Hn.
  pose proof (DecimalPos.Unsigned.to_uint_nonzero p) as Hz.
  unfold unorm in Hn.
  destruct (nzhead d) eqn:E.
  - rewrite H in Hz. (* Hn : zero = D0 d *) 
    injection Hn as Hn. subst d. apply Hz. reflexivity.
  - exfalso. apply (nzhead_nonzero d u). rewrite E. congruence.
  - discriminate. - discriminate. - discriminate. - discriminate.
  - discriminate. - discriminate. - discriminate. - discriminate.
  - discriminate.
Qed.

Lemma read_int_to_uint p r :
  read_int (NilEmpty.string_of_uint (Pos.to_uint p) +:+ String "," r)
  = Some (NilEmpty.string_of_uint (Pos.to_uint p), String "," r).
Proof.
  pose proof (to_uint_head p) as H0.
  pose proof (DecimalPos.Unsigned.to_uint_nonnil p) as Hn.
  pose proof (span_digits_uint (Pos.to_uint p) r) as Hs.
  destruct (Pos.to_uint p) as [|d|d|d|d|d|d|d|d|d|d];
    [contradiction | exfalso; exact (H0 d eq_refl) | ..];
    cbn [NilEmpty.string_of_uint] in *;
    match goal with
    | |- read_int (String ?a ?x +:+ ?t) = _ =>
        change (String a x +:+ t) with (String a (x +:+ t)) in *
    end;
    cbn [read_int]; unfold read_digits; rewrite Hs; reflexivity.
Qed.

Lemma read_number_fmt_d n r :
  read_number (fmt_d n +:+ String "," r) = Some (fmt_d n, String "," r).
Proof.
  unfold fmt_d. destruct n as [|p|p]; cbn [Z.to_int NilZero.string_of_int].
  - reflexivity.
  - assert (E : NilZero.string_of_uint (Pos.to_uint p)
                = NilEmpty.string_of_uint (Pos.to_uint p)).
    { pose proof (DecimalPos.Unsigned.to_uint_nonnil p).
      destruct (Pos.to_uint p); [contradiction|reflexivity..]. }
    rewrite E. pose proof (read_int_to_uint p r) as Hi.
    pose proof (to_uint_head p) as H0.
    pose proof (DecimalPos.Unsigned.to_uint_nonnil p) as Hn.
    unfold read_number.
    destruct (Pos.to_uint p) as [|d|d|d|d|d|d|d|d|d|d];
      [contradiction|..];
      cbn [NilEmpty.string_of_uint] in *;
      match goal with
      | |- context [String ?a ?x +:+ ?t] =>
          change (String a x +:+ t) with (String a (x +:+ t)) in *
      end;
      cbn [fst snd]; rewrite Hi; cbn [mbind option_bind fst snd read_frac read_exp];
      cbn; rewrite ?append_nil_r; reflexivity.
  - assert (E : NilZero.string_of_uint (Pos.to_uint p)
                = NilEmpty.string_of_uint (Pos.to_uint p)).
    { pose proof (DecimalPos.Unsigned.to_uint_nonnil p).
      destruct (Pos.to_uint p); [contradiction|reflexivity..]. }
    rewrite E. pose proof (read_int_to_uint p r) as Hi.
    unfold read_number.
    change (String "-" (NilEmpty.string_of_uint (Pos.to_uint p)) +:+ String "," r)
      with (String "-" (NilEmpty.string_of_uint (Pos.to_uint p) +:+ String "," r)).
    cbn [fst snd]. rewrite Hi. cbn. rewrite ?append_nil_r. reflexivity.
Qed.

Lemma number_head_tests a :
  is_digit a || Ascii.eqb a "-" = true ->
  Ascii.eqb a "{" = false /\ Ascii.eqb a "[" = false /\
  Ascii.eqb a "034" = false /\ Ascii.eqb a "t" = false /\
  Ascii.eqb a "f" = false /\ Ascii.eqb a "n" = false.
Proof.
  destruct a as [[] [] [] [] [] [] [] []]; intros H;
    try discriminate H; repeat split; reflexivity.
Qed.

Lemma fmt_d_head n t :
  exists a s', fmt_d n +:+ t = String a s' /\
               is_digit a || Ascii.eqb a "-" = true.
Proof.
  unfold fmt_d. destruct n as [|p|p]; cbn [Z.to_int NilZero.string_of_int].
  - eexists _, _. split; reflexivity.
  - pose proof (DecimalPos.Unsigned.to_uint_nonnil p) as Hn.
    destruct (Pos.to_uint p); [contradiction|..];
      eexists _, _; split; reflexivity.
  - eexists _, _. split; reflexivity.
Qed.

Lemma read_value_number f n r :
  read_value (S f) (fmt_d n +:+ String "," r)
  = Some (JsonNumber (fmt_d n), String "," r).
Proof.
  pose proof (read_number_fmt_d n r) as Hn.
  destruct (fmt_d_head n (String "," r)) as (a & s' & E & Ha).
  rewrite E in *.
  destruct (number_head_tests a Ha) as (H1 & H2 & H3 & H4 & H5 & H6).
  cbn [read_value]. rewrite H1, H2, H3, H4, H5, H6, Hn. reflexivity.
Qed.

Lemma read_value_string f x r :
  plain_name x = true ->
  read_value (S f) (String "034" (x +:+ String "034" r))
  = Some (JsonString x, r).
Proof.
  intros Hx. cbn [read_value].
  change (Ascii.eqb "034" "{") with false.
  change (Ascii.eqb "034" "[") with false.
  change (Ascii.eqb "034" "034") with true.
  cbv iota. rewrite (read_chars_plain x r Hx). reflexivity.
Qed.

(** A member that another follows, and the last member of an object. *)
Lemma read_members_more f k s1 v r ms rest :
  plain_name k = true ->
  skip_ws s1 = s1 ->
  read_value f s1 = Some (v, String "," (String " " (String "034" r))) ->
  read_members f (String "034" r) = Some (ms, rest) ->
  read_members (S f)
    (String "034" (k +:+ String "034" (String " " (String ":" (String " " s1)))))
  = Some ((k, v) :: ms, rest).
Proof.
  intros Hk Hs Hv Hm. cbn [read_members].
  rewrite (read_chars_plain k _ Hk). cbn [mbind option_bind fst snd].
  cbn [skip_ws is_ws]. rewrite Hs, Hv. cbn [mbind option_bind fst snd].
  cbn [skip_ws is_ws]. rewrite Hm. reflexivity.
Qed.

Lemma read_members_last f k s1 v rest :
  plain_name k = true ->
  skip_ws s1 = s1 ->
  read_value f s1 = Some (v, String "}" rest) ->
  read_members (S f)
    (String "034" (k +:+ String "034" (String " " (String ":" (String " " s1)))))
  = Some ([(k, v)], rest).
Proof.
  intros Hk Hs Hv. cbn [read_members].
  rewrite (read_chars_plain k _ Hk). cbn [mbind option_bind fst snd].
  cbn [skip_ws is_ws]. rewrite Hs, Hv. cbn [mbind option_bind fst snd].
  reflexivity.
Qed.

Lemma read_value_object f r ms rest :
  read_members f (String "034" r) = Some (ms, rest) ->
  read_value (S f) (String "{" (String " " (String "034" r)))
  = Some (JsonObject ms, rest).
Proof.
  intros Hm. cbn [read_value].
  change (Ascii.eqb "{" "{") with true. cbv iota.
  cbn [skip_ws is_ws]. rewrite Hm. reflexivity.
Qed.

Lemma concat_tail_items {X} (r : X -> string) x xs :
  String.concat "," (map r (x :: xs)) = r x +:+ tail_items r xs.
Proof.
  revert x. induction xs as [|y ys IH]; intros x.
  - cbn. rewrite append_nil_r. reflexivity.
  - cbn [map String.concat tail_items] in *. rewrite IH. reflexivity.
Qed.

(** The elements of an array of objects, rendered with commas between
    them. *)
Lemma read_elements_render {X} (r : X -> string) (v : X -> Json) (K : nat)
    xs : forall f x tail,
  (forall y t, In y (x :: xs) -> exists t', r y +:+ t = String "{" t') ->
  (forall y f' t, In y (x :: xs) -> (K <= f')%nat ->
                  read_value f' (r y +:+ t) = Some (v y, t)) ->
  (K + length xs < f)%nat ->
  read_elements f (r x +:+ (tail_items r xs +:+ String "]" tail))
  = Some (map v (x :: xs), tail).
Proof.
  induction xs as [|x' xs IH]; intros f x tail Hhead Hval Hf.
  - destruct f as [|f]; [cbn in Hf; lia|].
    cbn [read_elements tail_items length] in *.
    change (EmptyString +:+ String "]" tail) with (String "]" tail).
    rewrite (Hval x f _ (or_introl eq_refl)) by lia.
    reflexivity.
  - destruct f as [|f]; [cbn in Hf; lia|].
    cbn [length] in Hf.
    cbn [read_elements tail_items].
    rewrite append_assoc.
    change ("," +:+ (r x' +:+ tail_items r xs) +:+ String "]" tail)
      with (String "," ((r x' +:+ tail_items r xs) +:+ String "]" tail)).
    rewrite (Hval x f _ (or_introl eq_refl)) by lia.
    cbn [mbind option_bind fst snd skip_ws is_ws].
    rewrite append_assoc.
    destruct (Hhead x' (tail_items r xs +:+ String "]" tail))
      as [t' Ht']; [right; left; reflexivity|].
    assert (Hskip : skip_ws (r x' +:+ (tail_items r xs +:+ String "]" tail))
                    = r x' +:+ (tail_items r xs +:+ String "]" tail))
      by (rewrite Ht'; reflexivity).
    rewrite Hskip.
    rewrite (IH f x' tail).
    + reflexivity.
    + intros y t Hy. apply Hhead. right. exact Hy.
    + intros y f' t Hy. apply Hval. right. exact Hy.
    + lia.
Qed.

Lemma read_value_array {X} (r : X -> string) (v : X -> Json) (K : nat)
    xs f tail :
  (forall y t, In y xs -> exists t', r y +:+ t = String "{" t') ->
  (forall y f' t, In y xs -> (K <= f')%nat ->
                  read_value f' (r y +:+ t) = Some (v y, t)) ->
  (K + length xs < f)%nat ->
  read_value (S f)
    (String "[" (String.concat "," (map r xs) +:+ String "]" tail))
  = Some (JsonArray (map v xs), tail).
Proof.
  intros Hhead Hval Hf. cbn [read_value].
  change (Ascii.eqb "[" "{") with false.
  change (Ascii.eqb "[" "[") with true. cbv iota.
  destruct xs as [|x xs]; [reflexivity|].
  rewrite concat_tail_items, append_assoc.
  destruct (Hhead x (tail_items r xs +:+ String "]" tail))
    as [t' Ht']; [left; reflexivity|].
  cbn [length] in Hf.
  pose proof (read_elements_render r v K xs f x tail Hhead Hval) as He.
  rewrite Ht' in *. cbn [skip_ws is_ws].
  rewrite He by lia. reflexivity.
Qed.

Lemma length_append (a b : string) :
  String.length (a +:+ b) = (String.length a + String.length b)%nat.
Proof.
  induction a as [|x a IH]; [reflexivity|].
  change (String x a +:+ b) with (String x (a +:+ b)).
  cbn [String.length]. rewrite IH. reflexivity.
Qed.

(** A comma-separated rendering is at least as long as any of its items,
    and, its items not being empty, at least as long as their number. *)
Lemma concat_length_item {X} (r : X -> string) xs x :
  In x xs ->
  (String.length (r x) <= String.length (String.concat "," (map r xs)))%nat.
Proof.
  induction xs as [|y ys IH]; intros Hin; [destruct Hin|].
  rewrite concat_tail_items, length_append.
  destruct Hin as [->|Hin]; [lia|].
  specialize (IH Hin). destruct ys as [|z zs]; [destruct Hin|].
  rewrite concat_tail_items, length_append in IH. cbn [tail_items].
  rewrite !length_append. lia.
Qed.

Lemma concat_length_count {X} (r : X -> string) xs :
  (forall x, In x xs -> (1 <= String.length (r x))%nat) ->
  (length xs <= String.length (String.concat "," (map r xs)))%nat.
Proof.
  induction xs as [|y ys IH]; intros Hne; [cbn; lia|].
  rewrite concat_tail_items, length_append.
  pose proof (Hne y (or_introl eq_refl)) as Hy.
  assert (IH' : (length ys <= String.length (String.concat "," (map r ys)))%nat)
    by (apply IH; intros x Hx; apply Hne; right; exact Hx).
  destruct ys as [|z zs]; [cbn; lia|].
  rewrite concat_tail_items, length_append in IH'.
  cbn [tail_items length] in *.
  rewrite !length_append. cbn [String.length]. lia.
Qed.


Lemma number_head_skip n t : skip_ws (fmt_d n +:+ t) = fmt_d n +:+ t.
Proof.
  destruct (fmt_d_head n t) as (a & s' & E & Ha). rewrite E.
  cbn [skip_ws].
  replace (is_ws a) with false
    by (destruct a as [[] [] [] [] [] [] [] []]; try discriminate Ha;
        reflexivity).
  reflexivity.
Qed.

(** A line object is read as the object of its three members, when its two
    names need no escaping. *)
Lemma read_value_render_line g f tail :
  plain_name (shown_line_name g) = true ->
  plain_name (fmt_s (name g)) = true ->
  (5 <= f)%nat ->
  read_value f (render_line g +:+ tail) = Some (status_json_line g, tail).
Proof.
  intros Hn Hv Hf.
  do 5 (destruct f as [|f]; [lia|]). clear Hf.
  unfold render_line, status_json_line.
  set (nm := shown_line_name g) in *. set (vn := fmt_s (name g)) in *.
  set (n := line_num g).
  pose (t3 := String "034" (vn +:+ String "034" (String "}" tail))).
  pose (m3 := String "034" ("var" +:+ String "034"
                              (String " " (String ":" (String " " t3))))).
  pose (t2 := String "034" (nm +:+ String "034"
                              (String "," (String " " m3)))).
  pose (m2 := String "034" ("name" +:+ String "034"
                              (String " " (String ":" (String " " t2))))).
  pose (t1 := fmt_d n +:+ String "," (String " " m2)).
  assert (Hshape :
    ("{ " +:+ quoted "line" +:+ " : " +:+ fmt_d n +:+ ", " +:+ quoted "name"
     +:+ " : " +:+ quoted nm +:+ ", " +:+ quoted "var" +:+ " : "
     +:+ quoted vn +:+ "}") +:+ tail
    = String "{" (String " " (String "034" ("line" +:+ String "034"
        (String " " (String ":" (String " " t1))))))).
  { unfold t1, m2, t2, m3, t3, quoted, dq. rewrite !append_assoc.
    reflexivity. }
  rewrite Hshape.
  apply read_value_object.
  eapply read_members_more;
    [reflexivity | apply number_head_skip | apply read_value_number | ].
  eapply read_members_more;
    [reflexivity | reflexivity | apply read_value_string; exact Hn | ].
  eapply read_members_last;
    [reflexivity | reflexivity | apply read_value_string; exact Hv].
Qed.

Lemma render_line_head g t : exists t', render_line g +:+ t = String "{" t'.
Proof. unfold render_line. eexists. reflexivity. Qed.

Lemma render_chip_head c t : exists t', render_chip c +:+ t = String "{" t'.
Proof. unfold render_chip. eexists. reflexivity. Qed.

(** A chip object is read as the object of its name and of the array of its
    lines, when no name in it needs escaping. *)
Lemma read_value_render_chip c f tail :
  plain_name (chip_name c) = true ->
  Forall (fun g => plain_name (shown_line_name g) = true /\
                   plain_name (fmt_s (name g)) = true) (chip_lines c) ->
  (length (chip_lines c) + 10 <= f)%nat ->
  read_value f (render_chip c +:+ tail) = Some (status_json_chip c, tail).
Proof.
  intros Hn Hls Hf.
  do 4 (destruct f as [|f]; [lia|]).
  unfold render_chip, status_json_chip.
  set (body := String.concat "," (map render_line (chip_lines c))).
  pose (t2 := String "[" (body +:+ String "]" (String "}" tail))).
  pose (m2 := String "034" ("lines" +:+ String "034"
                              (String " " (String ":" (String " " t2))))).
  pose (t1 := String "034" (chip_name c +:+ String "034"
                              (String "," (String " " m2)))).
  assert (Hshape :
    ("{ " +:+ quoted "chip" +:+ " : " +:+ quoted (chip_name c) +:+ ", "
     +:+ quoted "lines" +:+ " : [" +:+ body +:+ "]}") +:+ tail
    = String "{" (String " " (String "034" ("chip" +:+ String "034"
        (String " " (String ":" (String " " t1))))))).
  { unfold t1, m2, t2, quoted, dq. rewrite !append_assoc. reflexivity. }
  rewrite Hshape.
  apply read_value_object.
  eapply read_members_more;
    [reflexivity | reflexivity | apply read_value_string; exact Hn | ].
  eapply read_members_last; [reflexivity | reflexivity | ].
  unfold body.
  apply (read_value_array render_line status_json_line 5).
  - intros g t _. apply render_line_head.
  - intros g f' t Hg Hf'. rewrite Forall_forall in Hls.
    destruct (Hls g) as [H1 H2]; [now apply list_elem_of_In|].
    apply read_value_render_line; assumption.
  - lia.
Qed.

Lemma render_chip_length c :
  (length (chip_lines c) + 10 <= String.length (render_chip c))%nat.
Proof.
  unfold render_chip. rewrite !length_append.
  assert (H : (length (chip_lines c)
               <= String.length
                    (String.concat "," (map render_line (chip_lines c))))%nat).
  { apply concat_length_count. intros g _. unfold render_line.
    rewrite length_append. cbn [String.length]. lia. }
  unfold quoted. rewrite !length_append. cbn [String.length dq]. lia.
Qed.

(** The whole report is read as the JSON value of the registry, when no
    name in it needs escaping. *)
Lemma json_read_render_status st :
  Forall (fun c => plain_name (chip_name c) = true) (chips st) ->
  Forall (fun g => plain_name (shown_line_name g) = true /\
                   plain_name (fmt_s (name g)) = true) (all_lines st) ->
  json_read (render_status st) = Some (status_json st).
Proof.
  intros Hcs Hls. unfold json_read, json_read_fuel.
  set (len := String.length (render_status st)).
  assert (Hitem : forall c, In c (chips st) ->
            (String.length (render_chip c) <= len)%nat).
  { intros c Hc. unfold len, render_status. rewrite !length_append.
    pose proof (concat_length_item render_chip (chips st) c Hc). lia. }
  assert (Hcount : (length (chips st) <= len)%nat).
  { unfold len, render_status. rewrite !length_append.
    assert (H : (length (chips st)
                 <= String.length
                      (String.concat "," (map render_chip (chips st))))%nat).
    { apply concat_length_count. intros c _. unfold render_chip.
      rewrite length_append. cbn [String.length]. lia. }
    lia. }
  unfold render_status, status_json.
  change ("[" +:+ String.concat "," (map render_chip (chips st)) +:+ "]")
    with (String "[" (String.concat "," (map render_chip (chips st))
                      +:+ String "]" EmptyString)).
  cbn [skip_ws is_ws].
  replace (2 * len + 2)%nat with (S (2 * len + 1)) by lia.
  rewrite (read_value_array render_chip status_json_chip len).
  - reflexivity.
  - intros c t _. apply render_chip_head.
  - intros c f' t Hc Hf'. apply read_value_render_chip.
    + rewrite Forall_forall in Hcs. apply Hcs. now apply list_elem_of_In.
    + unfold all_lines in Hls. rewrite Forall_forall in Hls.
      rewrite Forall_forall. intros g Hg. apply Hls.
      apply list_elem_of_In. apply in_concat. exists (chip_lines c).
      split; [apply in_map; exact Hc | now apply list_elem_of_In].
    + pose proof (render_chip_length c). specialize (Hitem c Hc). lia.
  - lia.
Qed.

(** X30: for a registry whose descriptors hold their hardware line and in
    which no chip name, hardware line name or variable name holds a double
    quote, a backslash or a control character, the text [PrintStatus]
    writes is JSON, and it denotes the array of the chips in list order,
    each an object with its name and the array of its lines in list order,
    each line an object with its number, its hardware name and its variable
    name: read back, the report lists exactly the chips and lines of the
    registry. *)
Theorem PrintStatus_report_is_json fd st :
  fd <> -1 ->
  Forall (fun g => pLine g <> NULL) (all_lines st) ->
  Forall (fun c => plain_name (chip_name c) = true) (chips st) ->
  Forall (fun g => plain_name (shown_line_name g) = true /\
                   plain_name (fmt_s (name g)) = true) (all_lines st) ->
  json_read (written fd (calls_of (PrintStatus env fd st)))
  = Some (JsonArray
            (map (fun c =>
                    JsonObject
                      [("chip", JsonString (chip_name c));
                       ("lines",
                        JsonArray
                          (map (fun g =>
                                  JsonObject
                                    [("line", JsonNumber (fmt_d (line_num g)));
                                     ("name", JsonString (shown_line_name g));
                                     ("var", JsonString (fmt_s (name g)))])
                               (chip_lines c)))])
                 (chips st))).
Proof.
  intros Hfd Hall Hcs Hls.
  destruct (PrintStatus_written fd st Hfd Hall) as [_ Hw].
  rewrite Hw. apply json_read_render_status; assumption.
Qed.

End Properties.

(** * Concrete runs *)

(** Writing 7 to [/HW/GPIO/P4] sets line 4 to 1, once. *)
Lemma UpdateOutput_writes_level_once_witness :
  FindGPIO demo_state 4 = Some (0%nat, 0%nat) /\
  deref demo_state (0%nat, 0%nat) = Some demo_line4 /\
  env_VAR_Get demo_env 4 = (EOK, mkVarObject VARTYPE_UINT16 2 7) /\
  hw_writes (calls_of (UpdateOutput demo_env 4 demo_state)) = [(1004, 1)] /\
  hw_writes (calls_of (WaitVarSignal demo_env SIG_VAR_MODIFIED 4 demo_state))
    = [(1004, 1)].
Proof.
  split; [reflexivity|]. split; [reflexivity|]. split; [reflexivity|].
  assert (HV : 0 <= 7 < 65536) by lia.
  exact (UpdateOutput_writes_level_once demo_env demo_state 4
           (0%nat, 0%nat) demo_line4 2 7
           eq_refl eq_refl eq_refl eq_refl eq_refl HV).
Defined.

(** Writing 7 to the variable of the PWM line 5 stores the duty 7. *)
Lemma UpdateOutput_pwm_stores_clamped_duty_witness :
  FindGPIO demo_state 5 = Some (0%nat, 1%nat) /\
  deref demo_state (0%nat, 1%nat) = Some demo_line5 /\
  deref (state_of (UpdateOutput demo_env 5 demo_state)) (0%nat, 1%nat)
    = Some (set_value demo_line5 7) /\
  hw_writes (calls_of (UpdateOutput demo_env 5 demo_state)) = [].
Proof.
  split; [reflexivity|]. split; [reflexivity|].
  destruct (UpdateOutput_pwm_stores_clamped_duty demo_env demo_state 5
              (0%nat, 1%nat) demo_line5 2 7)
    as (Hv & _ & Hw);
    [reflexivity | reflexivity | reflexivity | reflexivity | reflexivity
    | lia | ].
  split; [exact Hv | exact Hw].
Defined.

(** Writing 7 to the variable of line 12, whose hardware write fails. *)
Lemma UpdateOutput_hides_write_failure_witness :
  FindGPIO demo_state 12 = Some (0%nat, 2%nat) /\
  env_gpiod_line_set_value demo_env 1012 1 = (-1, 5) /\
  value demo_line12 = 0 /\
  result_of (UpdateOutput demo_env 12 demo_state) = EOK /\
  value <$> deref (state_of (UpdateOutput demo_env 12 demo_state))
              (0%nat, 2%nat)
    = Some 1 /\
  calls_of (UpdateOutput demo_env 12 demo_state)
    = [call_VAR_Get 12; call_gpiod_line_set_value 1012 1;
       call_syslog "UpdateOutput: 5 Input/output error"].
Proof.
  split; [reflexivity|]. split; [reflexivity|]. split; [reflexivity|].
  destruct (UpdateOutput_hides_write_failure demo_env demo_state 12
              (0%nat, 2%nat) demo_line12 2 7 (-1) 5)
    as (Hr & _ & Hv & Hc);
    [reflexivity | reflexivity | reflexivity | reflexivity | reflexivity
    | lia | reflexivity | discriminate | ].
  split; [exact Hr|]. split; [exact Hv|exact Hc].
Defined.

(** Querying the variable of the input line 17 reads the line once and
    writes 1. *)
Lemma UpdateInput_reads_line_writes_variable_witness :
  FindGPIO demo_state 17 = Some (0%nat, 3%nat) /\
  deref demo_state (0%nat, 3%nat) = Some demo_line17 /\
  UpdateInput demo_env 17 demo_state
    = (0, demo_state,
       [call_gpiod_line_get_value 1017;
        call_VAR_Set 17 (mkVarObject 1 2 1)]) /\
  calls_of (WaitVarSignal demo_env SIG_VAR_CALC 17 demo_state)
    = calls_of (UpdateInput demo_env 17 demo_state).
Proof.
  split; [reflexivity|]. split; [reflexivity|].
  exact (UpdateInput_reads_line_writes_variable demo_env demo_state 17
           (0%nat, 3%nat) demo_line17 eq_refl eq_refl).
Defined.

(** A falling edge on line 26 sets [/HW/GPIO/P26] to 0 with no query. *)
Lemma HandleGPIOEvent_writes_edge_level_witness :
  registry_ok watch_state /\
  In 1026 (monitoredLines watch_state) /\
  env_gpiod_line_event_read demo_env 1026
    = (0, GPIOD_LINE_EVENT_FALLING_EDGE) /\
  exists g,
    find (fun x => pLine x =? 1026) (all_lines watch_state) = Some g /\
    FindVar watch_state 1026 = hVar g /\
    HandleGPIOEvent demo_env 1026 watch_state
      = (0, watch_state,
         [call_gpiod_line_event_read 1026;
          call_VAR_Set (hVar g) (mkVarObject 1 2 0)]) /\
    var_reads (calls_of (HandleGPIOEvent demo_env 1026 watch_state)) = [].
Proof.
  assert (Hok : registry_ok watch_state).
  { split; repeat constructor; discriminate. }
  assert (Hin : In 1026 (monitoredLines watch_state)) by (left; reflexivity).
  split; [exact Hok|]. split; [exact Hin|]. split; [reflexivity|].
  exact (HandleGPIOEvent_writes_edge_level demo_env watch_state 1026 false
           Hok Hin eq_refl).
Defined.


(** A line definition with direction sideways, in signal mode. *)
Lemma ParseLine_unrecognised_direction_still_requests_witness :
  created_line demo_env 1 100 odd_line
    = Some (mkGPIO 1005 5 5 (Some "/HW/GPIO/P5") 0 0 false 0
                   (mkRequest None 0 0)) /\
  JSON_GetStr odd_line "direction" = Some "sideways" /\
  hw_requests (calls_of (ParseLine demo_env odd_line
                           (fresh_state "gpioctrl" false)))
    = [(1005, mkRequest (Some "gpioctrl") 0 0, 0)] /\
  result_of (ParseLineDirection demo_env (fresh_state "gpioctrl" false)
               plain_line demo_line5) = EOK.
Proof.
  split; [reflexivity|]. split; [reflexivity|].
  destruct (ParseLine_unrecognised_direction_still_requests demo_env
              (fresh_state "gpioctrl" false) []
              (mkGPIOChip "gpiochip0" 100 []) odd_line "gpioctrl"
              (mkGPIO 1005 5 5 (Some "/HW/GPIO/P5") 0 0 false 0
                      (mkRequest None 0 0))
              "sideways")
    as (_ & Hreq & Hmiss);
    [reflexivity | reflexivity | reflexivity | reflexivity
    | discriminate | discriminate | discriminate | ].
  split; [exact Hreq|].
  rewrite (Hmiss plain_line demo_line5); [reflexivity | discriminate | reflexivity].
Defined.

(** A chip with one line that resolves and one whose variable does not
    exist: one descriptor. *)
Lemma ParseChip_binds_every_resolvable_line_witness :
  JSON_GetStr (demo_chip [good_line; lost_line]) "chip" = Some "gpiochip0" /\
  omap (created_line demo_env 1 100) [good_line; lost_line]
    = [mkGPIO 1004 4 4 (Some "/HW/GPIO/P4") 0 0 false 0 (mkRequest None 0 0)] /\
  result_of (ParseChip demo_env (demo_chip [good_line; lost_line]) start_state)
    = EOK /\
  exists new,
    chips (state_of (ParseChip demo_env (demo_chip [good_line; lost_line])
                       start_state))
      = [mkGPIOChip "gpiochip0" 100 new] /\
    map line_identity new = [(1004, 4, 4, Some "/HW/GPIO/P4")].
Proof.
  split; [reflexivity|]. split; [reflexivity|].
  destruct (ParseChip_binds_every_resolvable_line demo_env start_state
              (demo_chip [good_line; lost_line]) "gpiochip0"
              [good_line; lost_line] [])
    as (_ & Hres & Hnew & _);
    [reflexivity | discriminate | reflexivity | reflexivity | ].
  split; [exact Hres | exact Hnew].
Defined.

(** A cycle of the PWM task at duty 7: left alone, and meeting a store of
    the duty 200 during its high phase. *)
Lemma PWMThread_cycle_duty_phases_witness :
  calls_of (PWMThread_cycle demo_env no_stores (set_value demo_line5 7))
    = [call_gpiod_line_set_value 1005 1; call_usleep 280;
       call_gpiod_line_set_value 1005 0; call_usleep 9920] /\
  calls_of (PWMThread_cycle demo_env (store_in_high_phase 200)
              (set_value demo_line5 7))
    = [call_gpiod_line_set_value 1005 1; call_usleep 280;
       call_gpiod_line_set_value 1005 0; call_usleep 2200].
Proof.
  destruct (PWMThread_cycle_duty_phases demo_env (set_value demo_line5 7))
    as (_ & _ & Hc & _ & _ & _ & Hs).
  split; [exact Hc|].
  destruct (Hs 200) as [_ H]; [lia|exact H].
Defined.

(** ** Concrete runs of the rest of the program *)

(** In the signal-mode registry no two lines share a hardware line or a
    variable: from line 5 to its variable and back. *)
Lemma FindVar_FindGPIO_round_trip_witness :
  FindVar demo_state 1005 = 5 /\
  FindGPIO demo_state (FindVar demo_state 1005) = Some (0%nat, 1%nat) /\
  (FindGPIO demo_state 5 ≫= deref demo_state) = Some demo_line5.
Proof.
  assert (Hl : NoDup (map pLine (all_lines demo_state))).
  { apply (bool_decide_unpack _). vm_compute. reflexivity. }
  assert (Hv : NoDup (map hVar (all_lines demo_state))).
  { apply (bool_decide_unpack _). vm_compute. reflexivity. }
  assert (Hnl : pLine demo_line5 <> NULL) by discriminate.
  assert (Hnv : hVar demo_line5 <> VAR_INVALID) by discriminate.
  exact (FindVar_FindGPIO_round_trip demo_state (0%nat, 1%nat) demo_line5
           Hl Hv eq_refl Hnl Hnv).
Defined.

(** Writing 7 to the variable of the PWM line 5 stores 7 and reports 22. *)
Lemma UpdateOutput_pwm_reports_EINVAL_witness :
  result_of (UpdateOutput demo_env 5 demo_state) = 22 /\
  value <$> deref (state_of (UpdateOutput demo_env 5 demo_state))
                  (0%nat, 1%nat) = Some 7 /\
  result_of (WaitVarSignal demo_env SIG_VAR_MODIFIED 5 demo_state) = 0.
Proof.
  exact (UpdateOutput_pwm_reports_EINVAL demo_env demo_state 5
           (0%nat, 1%nat) demo_line5 (mkVarObject 1 2 7)
           eq_refl eq_refl eq_refl eq_refl eq_refl eq_refl).
Defined.

(** A change of the variable of the input line 17 is refused with no
    call. *)
Lemma UpdateOutput_rejects_quietly_witness :
  UpdateOutput demo_env 17 demo_state = (95, demo_state, []).
Proof.
  assert (Hno : forall g,
            (FindGPIO demo_state 17 ≫= deref demo_state) = Some g ->
            direction g <> GPIOD_LINE_DIRECTION_OUTPUT).
  { intros g H. vm_compute in H. injection H as <-. discriminate. }
  exact (UpdateOutput_rejects_quietly demo_env demo_state 17 Hno).
Defined.


(** The signal-mode process, woken by a change of [/HW/GPIO/P4]. *)
Lemma run_in_signal_mode_witness :
  calls_of (run demo_env [mkWakeup 35 4 0 0 []] demo_state)
  = [call_VAR_Get 4; call_gpiod_line_set_value 1004 1] /\
  result_of (run demo_env [mkWakeup 35 4 0 0 []] demo_state) = 0 /\
  forget_values (state_of (run demo_env [mkWakeup 35 4 0 0 []] demo_state))
  = forget_values demo_state /\
  Forall (signal_mode_call demo_state)
         (calls_of (run demo_env [mkWakeup 35 4 0 0 []] demo_state)).
Proof.
  split; [reflexivity|].
  exact (run_in_signal_mode demo_env demo_state [mkWakeup 35 4 0 0 []]
           eq_refl).
Defined.

(** Started with no argument the program prints the usage and exits with
    status 1; started verbosely with no variable server it prints its start
    message and the configuration, and returns. *)
Lemma main_needs_arguments_and_server_witness :
  argc bare_invocation < 2 /\
  main demo_env bare_invocation demo_state
  = (Some 1, zero_state,
     [call_printf ("Starting gpioctrl" +:+ nl);
      call_write 2 ("usage: gpioctrl [-v] [-h] "
                    +:+ " [-h] : display this help"
                    +:+ " [-v] : verbose output"
                    +:+ " -f <filename> : configuration file")]) /\
  2 <= argc lone_invocation /\
  VARSERVER_Open lone_invocation = NULL /\
  result_of (main demo_env lone_invocation demo_state) = None /\
  calls_of (main demo_env lone_invocation demo_state)
  = [call_printf ("Starting gpioctrl" +:+ nl); call_printf "{}";
     call_printf nl] /\
  chips (state_of (main demo_env lone_invocation demo_state)) = [].
Proof.
  destruct (main_needs_arguments_and_server demo_env bare_invocation
              demo_state) as [Hbare _].
  destruct (main_needs_arguments_and_server demo_env lone_invocation
              demo_state) as [_ Hlone].
  assert (H1 : argc bare_invocation < 2) by (simpl; lia).
  assert (H2 : 2 <= argc lone_invocation) by (simpl; lia).
  destruct (Hlone H2 eq_refl) as (Hr & _ & Hc & _ & Hch & _).
  split; [exact H1|]. split; [exact (Hbare H1)|].
  split; [exact H2|]. split; [reflexivity|].
  split; [exact Hr|]. split; [exact Hc|exact Hch].
Defined.

(** The edge line 26 is requested by the watching process alone. *)
Lemma ParseLine_requested_in_one_mode_witness :
  hw_requests (calls_of (ParseLine demo_env edge_line
                           (fresh_state "gpioctrl" true)))
  = [(1026, mkRequest (Some "gpioctrl") 4 0, 0)] /\
  hw_requests (calls_of (ParseLine demo_env edge_line
                           (fresh_state "gpioctrl" false))) = [] /\
  (length (hw_requests (calls_of (ParseLine demo_env edge_line
                                    (fresh_state "gpioctrl" true)))) +
   length (hw_requests (calls_of (ParseLine demo_env edge_line
                                    (fresh_state "gpioctrl" false)))) = 1)%nat.
Proof.
  split; [reflexivity|]. split; [reflexivity|].
  exact (proj1 (ParseLine_requested_in_one_mode demo_env
                  (fresh_state "gpioctrl" false) []
                  (mkGPIOChip "gpiochip0" 100 []) edge_line "gpioctrl"
                  (mkGPIO 1026 26 26 (Some "/HW/GPIO/P26") 0 0 false 0
                          (mkRequest None 0 0))
                  eq_refl eq_refl eq_refl)).
Defined.

(** The output line 4, whose variable reads 7, is requested with the
    initial level 7. *)
Lemma ParseLine_output_initial_level_witness :
  hw_requests (calls_of (ParseLine demo_env good_line
                           (fresh_state "gpioctrl" false)))
  = [(1004, mkRequest (Some "gpioctrl") 3 0, 7)] /\
  value <$> last (all_lines (state_of (ParseLine demo_env good_line
                                         (fresh_state "gpioctrl" false))))
  = Some 7 /\
  var_notifies (calls_of (ParseLine demo_env good_line
                            (fresh_state "gpioctrl" false)))
  = [(4, 1)] /\
  threads_started (calls_of (ParseLine demo_env good_line
                               (fresh_state "gpioctrl" false))) = [].
Proof.
  assert (Hio : GPIOD_LINE_DIRECTION_INPUT <> GPIOD_LINE_DIRECTION_OUTPUT)
    by discriminate.
  assert (HV : 0 <= 7 < 65536) by lia.
  exact (ParseLine_output_initial_level demo_env
           (fresh_state "gpioctrl" false) []
           (mkGPIOChip "gpiochip0" 100 []) good_line "gpioctrl"
           (mkGPIO 1004 4 4 (Some "/HW/GPIO/P4") 0 0 false 0
                   (mkRequest None 0 0))
           false 2 7 Hio eq_refl eq_refl eq_refl eq_refl eq_refl eq_refl
           eq_refl HV).
Defined.

(** The edge line 26 in the signal-mode process: no request, no
    notification, and yet an entry in the array of monitored lines. *)
Lemma ParseLine_edge_input_line_witness :
  hw_requests (calls_of (ParseLine demo_env edge_line
                           (fresh_state "gpioctrl" false))) = [] /\
  var_notifies (calls_of (ParseLine demo_env edge_line
                            (fresh_state "gpioctrl" false))) = [] /\
  threads_started (calls_of (ParseLine demo_env edge_line
                               (fresh_state "gpioctrl" false))) = [] /\
  monitoredLines (state_of (ParseLine demo_env edge_line
                              (fresh_state "gpioctrl" false))) = [1026].
Proof.
  assert (Hio : GPIOD_LINE_DIRECTION_INPUT <> GPIOD_LINE_DIRECTION_OUTPUT)
    by discriminate.
  assert (Hev : parsed_event edge_line <> 0) by discriminate.
  assert (Hroom : Z.of_nat (length (monitoredLines
                                      (fresh_state "gpioctrl" false)))
                  < GPIOD_LINE_BULK_MAX_LINES) by reflexivity.
  exact (ParseLine_edge_input_line demo_env
           (fresh_state "gpioctrl" false) []
           (mkGPIOChip "gpiochip0" 100 []) edge_line "gpioctrl"
           (mkGPIO 1026 26 26 (Some "/HW/GPIO/P26") 0 0 false 0
                   (mkRequest None 0 0))
           Hio eq_refl eq_refl eq_refl (or_introl eq_refl) Hev Hroom).
Defined.

(** Binding the demo configuration from the start state. *)
Lemma binding_keeps_monitored_ok_witness :
  monitored_ok start_state /\
  monitoredLines (state_of (JSON_Iterate demo_env
                              (JSON_Find demo_config "gpiodef")
                              (ParseChip demo_env) start_state)) = [1026] /\
  monitored_ok (state_of (JSON_Iterate demo_env
                            (JSON_Find demo_config "gpiodef")
                            (ParseChip demo_env) start_state)).
Proof.
  assert (H0 : monitored_ok start_state).
  { split; [discriminate|constructor]. }
  split; [exact H0|]. split; [reflexivity|].
  exact (binding_keeps_monitored_ok demo_env
           (JSON_Find demo_config "gpiodef") start_state H0).
Defined.

(** A chip definition without a name. *)
Lemma ParseChip_without_chip_witness :
  ParseChip demo_env nameless_chip start_state
  = (22, start_state, [call_printf ("chip name is NULL" +:+ nl)]).
Proof.
  exact (ParseChip_without_chip demo_env nameless_chip start_state eq_refl).
Defined.

(** A chip definition without lines: the chip stays open. *)
Lemma ParseChip_without_lines_witness :
  ParseChip demo_env bare_chip start_state
  = (22, set_chips start_state [mkGPIOChip "gpiochip0" 100 []],
     [call_gpiod_chip_open "/dev/gpiochip0"]).
Proof.
  refine (proj1 (ParseChip_without_lines demo_env bare_chip start_state
                   (mkGPIOChip "gpiochip0" 100 []) eq_refl _)).
  intros items H. discriminate H.
Defined.

(** A line definition whose variable does not exist. *)
Lemma ParseLine_skips_unresolved_witness :
  result_of (ParseLine demo_env lost_line (fresh_state "gpioctrl" false)) = 0 /\
  state_of (ParseLine demo_env lost_line (fresh_state "gpioctrl" false))
  = fresh_state "gpioctrl" false /\
  calls_of (ParseLine demo_env lost_line (fresh_state "gpioctrl" false))
  = [call_VAR_FindByName "/HW/GPIO/NONE";
     call_printf ("Unable to Get var handle" +:+ nl)].
Proof.
  destruct (ParseLine_skips_unresolved demo_env lost_line
              (fresh_state "gpioctrl" false)) as (Hr & Hs & _).
  { intros cs c H.
    apply (app_inj_tail [] cs) in H. destruct H as [_ <-]. reflexivity. }
  split; [exact Hr|]. split; [exact Hs|reflexivity].
Defined.

(** A print request on the signal-mode registry. *)
Lemma WaitVarSignal_print_session_witness :
  env_VAR_OpenPrintSession demo_env 9 = (0, 3) /\
  written 3 (calls_of (WaitVarSignal demo_env SIG_VAR_PRINT 9 demo_state))
  = render_status demo_env demo_state /\
  state_of (WaitVarSignal demo_env SIG_VAR_PRINT 9 demo_state) = demo_state.
Proof.
  split; [reflexivity|].
  assert (Hm : SIG_VAR_PRINT <> SIG_VAR_MODIFIED) by discriminate.
  assert (Hc : SIG_VAR_PRINT <> SIG_VAR_CALC) by discriminate.
  assert (Hnn : Forall (fun g => pLine g <> NULL) (all_lines demo_state)).
  { repeat constructor; discriminate. }
  destruct (WaitVarSignal_print_session demo_env demo_state 9 Hm Hc Hnn)
    as (_ & Hs & _ & Hw).
  split; [exact Hw|exact Hs].
Defined.

(** The output line 4 with and without flags: the same binding, and a
    request with no flag. *)
Lemma ParseLine_ignores_flag_attributes_witness :
  ParseLine demo_env flagged_line (fresh_state "gpioctrl" false)
  = ParseLine demo_env good_line (fresh_state "gpioctrl" false) /\
  hw_requests (calls_of (ParseLine demo_env flagged_line
                           (fresh_state "gpioctrl" false)))
  = [(1004, mkRequest (Some "gpioctrl") 3 0, 7)].
Proof.
  split; [|reflexivity].
  exact (ParseLine_ignores_flag_attributes demo_env flagged_line good_line
           (fresh_state "gpioctrl" false) "gpioctrl"
           eq_refl eq_refl eq_refl eq_refl eq_refl).
Defined.

(** Two turns of the PWM thread of line 5 from the duty 255, the first
    meeting a store of the duty 0 during its high phase: 30600 microseconds
    of sleep. *)
Lemma PWMThread_period_and_writes_witness :
  Forall stores_in_range [store_in_high_phase 0; no_stores] /\
  slept (calls_of (PWMThread demo_env [store_in_high_phase 0; no_stores]
                     (set_value demo_line5 255))) = 30600 /\
  0 <= slept (calls_of (PWMThread demo_env [store_in_high_phase 0; no_stores]
                          (set_value demo_line5 255)))
    <= Z.of_nat (length [store_in_high_phase 0; no_stores]) * 20400.
Proof.
  assert (Hall : Forall stores_in_range [store_in_high_phase 0; no_stores]).
  { repeat match goal with |- Forall _ _ => constructor end;
      unfold stores_in_range; simpl; repeat split; lia. }
  split; [exact Hall|]. split; [reflexivity|].
  destruct (PWMThread_period_and_writes demo_env
              [store_in_high_phase 0; no_stores] (set_value demo_line5 255))
    as (_ & _ & Hb & _).
  exact (Hb Hall).
Defined.

(** The report of the signal-mode registry, whose names need no escaping,
    read as JSON. *)
Lemma PrintStatus_report_is_json_witness :
  Forall (fun g => pLine g <> NULL) (all_lines demo_state) /\
  json_read (written 3 (calls_of (PrintStatus demo_env 3 demo_state)))
  = Some (JsonArray
            [JsonObject
               [("chip", JsonString "gpiochip0");
                ("lines",
                 JsonArray
                   [JsonObject [("line", JsonNumber "4");
                                ("name", JsonString "GPIO_GCLK");
                                ("var", JsonString "/HW/GPIO/P4")];
                    JsonObject [("line", JsonNumber "5");
                                ("name", JsonString "unknown");
                                ("var", JsonString "/HW/GPIO/P5")];
                    JsonObject [("line", JsonNumber "12");
                                ("name", JsonString "unknown");
                                ("var", JsonString "/HW/GPIO/P12")];
                    JsonObject [("line", JsonNumber "17");
                                ("name", JsonString "unknown");
                                ("var", JsonString "/HW/GPIO/P17")]])]]).
Proof.
  assert (Hl : Forall (fun g => pLine g <> NULL) (all_lines demo_state)).
  { repeat constructor; discriminate. }
  assert (Hfd : 3 <> -1) by discriminate.
  assert (Hcs : Forall (fun c => plain_name (chip_name c) = true)
                       (chips demo_state)).
  { repeat constructor. }
  assert (Hls : Forall (fun g =>
                          plain_name (shown_line_name demo_env g) = true /\
                          plain_name (fmt_s (name g)) = true)
                       (all_lines demo_state)).
  { repeat constructor. }
  split; [exact Hl|].
  exact (PrintStatus_report_is_json demo_env 3 demo_state Hfd Hl Hcs Hls).
Defined.

(** * Where the code does otherwise *)

(** C7 as stated does not hold: a line definition whose direction is
    sideways is requested from the hardware all the same, in signal mode
    with a zero request type, and in watch mode, when it subscribes to an
    edge, as a rising-edge event line. *)
Lemma unrecognised_direction_is_requested :
  JSON_GetStr odd_line "direction" = Some "sideways" /\
  hw_requests (calls_of (ParseLine demo_env odd_line
                           (fresh_state "gpioctrl" false)))
    = [(1005, mkRequest (Some "gpioctrl") 0 0, 0)] /\
  JSON_GetStr odd_edge_line "direction" = Some "sideways" /\
  hw_requests (calls_of (ParseLine demo_env odd_edge_line
                           (fresh_state "gpiowatch" true)))
    = [(1026,
        mkRequest (Some "gpiowatch") GPIOD_LINE_REQUEST_EVENT_RISING_EDGE 0,
        0)].
Proof. repeat split; reflexivity. Qed.

(** C8 as stated does not hold: one well-formed line definition (N = 1)
    next to one whose direction is sideways yields two descriptors, and
    both lines are requested from the hardware. *)
Lemma unknown_direction_line_is_bound :
  JSON_GetStr odd_line "direction" = Some "sideways" /\
  map line_identity
      (all_lines (state_of (ParseChip demo_env
                              (demo_chip [good_line; odd_line]) start_state)))
    = [(1004, 4, 4, Some "/HW/GPIO/P4"); (1005, 5, 5, Some "/HW/GPIO/P5")] /\
  map (fun q => fst (fst q))
      (hw_requests (calls_of (ParseChip demo_env
                                (demo_chip [good_line; odd_line]) start_state)))
    = [1004; 1005].
Proof. repeat split; reflexivity. Qed.

(** C9: [PrintStatus] prints every name as it is, with no escaping, so the
    report is the JSON the claim describes only for names that need none.
    The registry with the single line 1, whose hardware name holds double
    quotes, is reported by a text that is JSON and reads as a chip with two
    lines, 1 and 9, the first without a variable; the registry with the
    single line 2, whose hardware name holds a backslash, is reported by a
    text that is not JSON, whatever the fuel of the reader. *)
Theorem PrintStatus_prints_names_unescaped :
  (String.length odd_name < 32)%nat /\
  map line_num (all_lines one_line_state) = [1] /\
  written 3 (calls_of (PrintStatus naming_env 3 one_line_state))
    = "[{ " +:+ quoted "chip" +:+ " : " +:+ quoted "gpiochip0" +:+ ", "
      +:+ quoted "lines" +:+ " : [{ " +:+ quoted "line" +:+ " : 1, "
      +:+ quoted "name" +:+ " : " +:+ quoted "x" +:+ "},{ "
      +:+ quoted "line" +:+ " : 9, " +:+ quoted "name" +:+ " : "
      +:+ quoted "y" +:+ ", " +:+ quoted "var" +:+ " : " +:+ quoted "b"
      +:+ "}]}]" /\
  json_read (written 3 (calls_of (PrintStatus naming_env 3 one_line_state)))
    = Some (JsonArray
              [JsonObject
                 [("chip", JsonString "gpiochip0");
                  ("lines",
                   JsonArray
                     [JsonObject [("line", JsonNumber "1");
                                  ("name", JsonString "x")];
                      JsonObject [("line", JsonNumber "9");
                                  ("name", JsonString "y");
                                  ("var", JsonString "b")]])]]) /\
  json_read (written 3 (calls_of (PrintStatus naming_env 3 one_line_state)))
    <> Some (status_json naming_env one_line_state) /\
  (String.length backslash_name < 32)%nat /\
  map line_num (all_lines backslash_state) = [2] /\
  forall fuel : nat,
    json_read_fuel fuel
      (written 3 (calls_of (PrintStatus naming_env 3 backslash_state)))
    = None.
Proof.
  split; [vm_compute; lia|]. split; [reflexivity|].
  split; [vm_compute; reflexivity|]. split; [vm_compute; reflexivity|].
  split; [vm_compute; discriminate|].
  split; [vm_compute; lia|]. split; [reflexivity|].
  intros fuel.
  do 12 (destruct fuel as [|fuel]; [vm_compute; reflexivity|]).
  vm_compute. reflexivity.
Qed.

(** C5 as stated does not hold: a cycle of the PWM task of line 5 that
    begins at the duty 255 does not skip its low phase when the main thread
    stores the duty 0 while the line is high: the line is driven low and
    the thread sleeps 10200 microseconds more. *)
Lemma full_duty_cycle_meets_a_store :
  value (set_value demo_line5 255) = 255 /\
  calls_of (PWMThread_cycle demo_env (store_in_high_phase 0)
              (set_value demo_line5 255))
    = [call_gpiod_line_set_value 1005 1; call_usleep 10200;
       call_gpiod_line_set_value 1005 0; call_usleep 10200] /\
  calls_of (PWMThread_cycle demo_env (store_in_high_phase 0)
              (set_value demo_line5 255))
    <> pwm_phases 1005 255.
Proof.
  split; [reflexivity|]. split; [reflexivity|]. discriminate.
Qed.
